(* ===== verification/_CoqProject ===== *)
-Q . S2P
Prelude.v
JsString.v
JsNumber.v
JsValue.v
Runtime.v
Config.v
Upstream.v
Normalizer.v
QueryRag.v
Search.v
IndexInfo.v
Catalog.v
Dispatcher.v
Server.v
