(* ===== verification/Prelude.v ===== *)
(** * llamacloud-rag-mcp: a verification development for src/src/index.ts

    The program is one TypeScript class, [LlamaCloudMCPServer], that exposes a
    remote retrieval pipeline as three tools of the Model Context Protocol:
    [query_rag], [search_documents] and [get_index_info].  A tool call posts
    one request to the pipeline, reads the JSON answer, whose shape is not
    guaranteed, turns it into a list of source records and renders one text
    block.

    ** Files, in dependency order

    - [Prelude] (this file): shared tactics, the hint databases and the
      generic lemmas on lists that the components use.
    - [JsString]: strings as the program has them, sequences of UTF-16 code
      units; literals of the source ([utf16]), [trim], [substring(0, n)],
      [join], the decimal form of an array index.

    Later files are listed here as they are added.

    ** Conventions

    Definitions keep the names of the source where Rocq allows it.  Every
    definition is executable, so the examples and the witnesses of the
    theorems evaluate by [vm_compute]. *)

From stdpp Require Export prelude.
From Stdlib Require Export ZArith Lia.

(** ** Hint databases

    [js] holds the resolution hints of the components; the rewrite database
    [js_simpl] holds the equations that evaluate the operations of the model
    on constructors. *)

Create HintDb js discriminated.
Create Rewrite HintDb js_simpl.

(** ** Results: a value or an exception

    [result E A] is the error monad of the development: [Ok a] for a
    computation that returned [a], [Throw e] for one that raised [e].  It
    carries stdpp's monad notation, [x ← m; k]. *)

Inductive result (E A : Type) : Type :=
| Ok (a : A)
| Throw (e : E).

Arguments Ok {E A} a.
Arguments Throw {E A} e.

#[export] Instance result_ret {E} : MRet (result E) := fun A => Ok.

#[export] Instance result_bind {E} : MBind (result E) := fun A B f m =>
  match m with
  | Ok a => f a
  | Throw e => Throw e
  end.

#[export] Instance result_fmap {E} : FMap (result E) := fun A B f m =>
  match m with
  | Ok a => Ok (f a)
  | Throw e => Throw e
  end.

Definition is_ok {E A} (m : result E A) : bool :=
  match m with
  | Ok _ => true
  | Throw _ => false
  end.

(** [raises P m]: if [m] raises, what it raises satisfies [P]. *)
Definition raises {E A} (P : E -> Prop) (m : result E A) : Prop :=
  forall e, m = Throw e -> P e.

(** [l.map((x, index) => f(index, x))] with a callback that may raise: the
    elements are visited in order, the first exception ends the traversal.
    [i] is the index of the first element. *)
Fixpoint imapM_from {E A B} (f : nat -> A -> result E B) (i : nat) (l : list A)
  : result E (list B) :=
  match l with
  | [] => Ok []
  | x :: l' =>
    f i x ≫= fun y : B => imapM_from f (S i) l' ≫= fun k : list B => Ok (y :: k)
  end.

Definition imapM {E A B} (f : nat -> A -> result E B) (l : list A)
  : result E (list B) := imapM_from f 0 l.

(** [l.filter(p)] with a test that may raise. *)
Fixpoint filterM {E A} (p : A -> result E bool) (l : list A)
  : result E (list A) :=
  match l with
  | [] => Ok []
  | x :: l' =>
    p x ≫= fun b : bool => filterM p l' ≫= fun k : list A =>
    Ok (if b then x :: k else k)
  end.

(** ** Tactics *)

(** [case_if]: case analysis on the first [if] on a boolean of the goal. *)
Ltac case_if :=
  match goal with
  | |- context [if ?b then _ else _] =>
      let E := fresh "E" in destruct b eqn:E
  end.

(** * Lemmas *)

(** ** Results *)

Section result.
Context {E A B : Type}.
Implicit Types (m : result E A) (f : A -> result E B).

Lemma bind_Ok_l (a : A) f : Ok a ≫= f = f a.
Proof. done. Qed.

Lemma bind_Throw_l (e : E) f : Throw e ≫= f = Throw e.
Proof. done. Qed.

Lemma bind_Ok m f b :
  m ≫= f = Ok b <-> exists a, m = Ok a /\ f a = Ok b.
Proof.
  destruct m as [a|e]; simpl.
  - split; [by exists a|]. by intros (a' & [= <-] & ?).
  - split; [done|]. by intros (? & ? & ?).
Qed.

Lemma bind_Throw m f e :
  m ≫= f = Throw e <-> m = Throw e \/ exists a, m = Ok a /\ f a = Throw e.
Proof.
  destruct m as [a|e']; simpl.
  - split; [right; by exists a|]. by intros [|(a' & [= <-] & ?)].
  - split; [by intros [= ->]; left|]. by intros [[= ->]|(? & [=] & ?)].
Qed.

Lemma fmap_Ok (g : A -> B) m b :
  g <$> m = Ok b <-> exists a, m = Ok a /\ b = g a.
Proof.
  destruct m as [a|e]; simpl.
  - split; [intros [= <-]; by exists a|]. by intros (a' & [= <-] & ->).
  - split; [done|]. by intros (? & ? & ?).
Qed.

Lemma raises_Ok (P : E -> Prop) (a : A) : raises P (Ok a).
Proof. by intros e. Qed.

Lemma raises_Throw (P : E -> Prop) (e : E) : P e -> raises P (@Throw E A e).
Proof. by intros H e' [= <-]. Qed.

Lemma raises_bind (P : E -> Prop) m f :
  raises P m -> (forall a, raises P (f a)) -> raises P (m ≫= f).
Proof.
  intros Hm Hf e [->|(a & -> & Ha)]%bind_Throw; [by apply Hm|by eapply Hf].
Qed.

Lemma raises_fmap (P : E -> Prop) (g : A -> B) m :
  raises P m -> raises P (g <$> m).
Proof. intros Hm e. destruct m; [done|]. intros [= <-]. by apply Hm. Qed.

Lemma is_ok_Ok m : is_ok m = true <-> exists a, m = Ok a.
Proof. destruct m as [a|e]; simpl; [by split; [exists a|]|]. by split; [|intros []]. Qed.

End result.

(** [mapM f (x :: l)], one step. *)
Lemma mapM_cons {E A B} (f : A -> result E B) x l :
  mapM f (x :: l) = f x ≫= fun y => mapM f l ≫= fun k => Ok (y :: k).
Proof. done. Qed.

Section traversals.
Context {E A B : Type}.
Implicit Types (f : A -> result E B).

(** A traversal succeeds exactly when the callback succeeds on every
    element, and returns the results in order. *)
Lemma mapM_Ok f (l : list A) (k : list B) :
  mapM f l = Ok k <-> Forall2 (fun x y => f x = Ok y) l k.
Proof.
  revert k. induction l as [|x l IH]; intros k.
  - split; [intros [= <-]; constructor|by inversion 1].
  - rewrite mapM_cons. split.
    + intros (y & Hy & (k' & Hk' & [= <-])%bind_Ok)%bind_Ok.
      constructor; [done|by apply IH].
    + inversion 1 as [|? y ? k' Hy Hk']; subst. apply IH in Hk'.
      by rewrite Hy; simpl; rewrite Hk'.
Qed.

Lemma mapM_Ok_length f (l : list A) (k : list B) :
  mapM f l = Ok k -> length k = length l.
Proof. intros H%mapM_Ok. symmetry. by eapply Forall2_length. Qed.

(** On a list where the callback never raises, the traversal is [map]. *)
Lemma mapM_pure f (g : A -> B) (l : list A) :
  Forall (fun x => f x = Ok (g x)) l -> mapM f l = Ok (g <$> l).
Proof.
  intros H. apply mapM_Ok. induction H; constructor; auto.
Qed.

(** The first element on which the callback raises decides the exception. *)
Lemma mapM_Throw f (l1 l2 : list A) (x : A) (k : list B) e :
  mapM f l1 = Ok k -> f x = Throw e -> mapM f (l1 ++ x :: l2) = Throw e.
Proof.
  revert k. induction l1 as [|y l1 IH]; intros k; simpl app; rewrite !mapM_cons.
  - intros _ Hx. by rewrite Hx.
  - intros (y' & Hy & (k' & Hk' & _)%bind_Ok)%bind_Ok Hx.
    rewrite Hy; simpl. by rewrite (IH _ Hk' Hx).
Qed.

(** When the callback has one exception only, the traversal raises it as
    soon as the callback raises on some element. *)
Lemma mapM_Exists_Throw f (l : list A) e :
  (forall x, raises (eq e) (f x)) ->
  Exists (fun x => is_ok (f x) = false) l -> mapM f l = Throw e.
Proof.
  intros Hf. induction 1 as [x l Hx|x l _ IH]; rewrite mapM_cons.
  - destruct (f x) as [|e'] eqn:Hfx; [done|]. by rewrite (Hf x e').
  - destruct (f x) as [|e'] eqn:Hfx; simpl; [by rewrite IH|]. by rewrite (Hf x e').
Qed.

(** An indexed traversal that succeeds returns one result per element. *)
Lemma imapM_from_length (f : nat -> A -> result E B) i l k :
  imapM_from f i l = Ok k -> length k = length l.
Proof.
  revert i k. induction l as [|x l IH]; intros i k; simpl; [by intros [= <-]|].
  intros (y & _ & (k' & Hk' & [= <-])%bind_Ok)%bind_Ok. simpl. f_equal. eauto.
Qed.

(** The result at position [j] comes from the element at [j], called with
    index [i + j]. *)
Lemma imapM_from_lookup (f : nat -> A -> result E B) i l k j x :
  imapM_from f i l = Ok k -> l !! j = Some x ->
  exists y, k !! j = Some y /\ f (i + j) x = Ok y.
Proof.
  revert i k j. induction l as [|x' l IH]; intros i k j; simpl; [done|].
  intros (y & Hy & (k' & Hk' & [= <-])%bind_Ok)%bind_Ok Hj.
  destruct j as [|j]; simpl in *.
  - injection Hj as ->. exists y. by rewrite Nat.add_0_r.
  - destruct (IH _ _ _ Hk' Hj) as (z & ? & Hz). exists z.
    by rewrite <- Nat.add_succ_comm.
Qed.

(** A component of the results that depends on the index only is known
    without looking at the elements. *)
Lemma imapM_from_project {C} (f : nat -> A -> result E B) (g : B -> C)
    (h : nat -> C) i l k :
  (forall j x y, f j x = Ok y -> g y = h j) ->
  imapM_from f i l = Ok k -> g <$> k = h <$> seq i (length l).
Proof.
  intros Hg. revert i k. induction l as [|x l IH]; intros i k; simpl.
  - by intros [= <-].
  - intros (y & Hy & (k' & Hk' & [= <-])%bind_Ok)%bind_Ok.
    rewrite fmap_cons. f_equal; eauto.
Qed.

(** When the callback never raises on the list, the traversal is [imap]. *)
Lemma imapM_from_pure (f : nat -> A -> result E B) (g : nat -> A -> B) i l :
  (forall j x, l !! j = Some x -> f (i + j) x = Ok (g (i + j) x)) ->
  imapM_from f i l = Ok (imap (fun j => g (i + j)) l).
Proof.
  revert i. induction l as [|x l IH]; intros i H; simpl; [done|].
  pose proof (H 0 x eq_refl) as H0. rewrite Nat.add_0_r in H0 |- *.
  rewrite H0; simpl. rewrite (IH (S i)); simpl.
  - do 2 f_equal. apply imap_ext. intros j y _. simpl. by rewrite Nat.add_succ_r.
  - intros j y Hj. rewrite <- Nat.add_succ_r. by apply (H (S j)).
Qed.

(** A filter whose test never raises is [List.filter]. *)
Lemma filterM_pure (p : A -> result E bool) (q : A -> bool) l :
  Forall (fun x => p x = Ok (q x)) l -> filterM p l = Ok (List.filter q l).
Proof.
  induction 1 as [|x l Hx _ IH]; simpl; [done|].
  rewrite Hx; simpl. rewrite IH; simpl. by destruct (q x).
Qed.

(** What a traversal raises, its callback raised. *)
Lemma raises_mapM (P : E -> Prop) (f : A -> result E B) l :
  Forall (fun x => raises P (f x)) l -> raises P (mapM f l).
Proof.
  induction 1 as [|x l Hx _ IH]; [done|]. rewrite mapM_cons.
  apply raises_bind; [done|]. intros y. apply raises_bind; [done|]. by intros.
Qed.

Lemma raises_mapM_all (P : E -> Prop) (f : A -> result E B) l :
  (forall x, raises P (f x)) -> raises P (mapM f l).
Proof. intros Hf. by apply raises_mapM, Forall_true. Qed.

Lemma raises_imapM_from (P : E -> Prop) (f : nat -> A -> result E B) i l :
  (forall j x, raises P (f j x)) -> raises P (imapM_from f i l).
Proof.
  intros Hf. revert i. induction l as [|x l IH]; intros i; simpl; [done|].
  apply raises_bind; [done|]. intros y. apply raises_bind; [done|]. by intros.
Qed.

Lemma raises_filterM (P : E -> Prop) (p : A -> result E bool) l :
  (forall x, raises P (p x)) -> raises P (filterM p l).
Proof.
  intros Hp. induction l as [|x l IH]; simpl; [done|].
  apply raises_bind; [done|]. intros y. apply raises_bind; [done|]. by intros.
Qed.

(** A filter that succeeds ran its test on every element without an
    exception, and kept the elements on which the test held. *)
Lemma filterM_Ok (p : A -> result E bool) l k :
  filterM p l = Ok k ->
  Forall (fun x => is_ok (p x) = true) l /\
  k = List.filter (fun x => match p x with Ok c => c | Throw _ => false end) l.
Proof.
  revert k. induction l as [|x l IH]; intros k; simpl; [by intros [= <-]|].
  intros (b & Hb & (k' & Hk' & [= <-])%bind_Ok)%bind_Ok.
  destruct (IH _ Hk') as [Hl ->]. rewrite Hb. split; [|done].
  constructor; [by rewrite Hb|done].
Qed.

End traversals.

(** ** Lists *)

Section lists.
Context {A B : Type}.
Implicit Types (l k : list A) (n : nat).

(** A list is a prefix of another when it is what [take] returns. *)
Lemma prefix_take_eq l k : take (length l) k = l -> l `prefix_of` k.
Proof. intros <-. apply prefix_take. Qed.

(** A prefix of a list is never longer than asked for. *)
Lemma length_take_bound l n : length (take n l) <= n.
Proof. rewrite length_take. lia. Qed.

(** What [filter] keeps satisfies the test. *)
Lemma Forall_filter_bool (f : A -> bool) l :
  Forall (fun x => f x = true) (List.filter f l).
Proof.
  induction l as [|x l IH]; simpl; [constructor|].
  destruct (f x) eqn:E; [constructor|]; done.
Qed.

(** [List.filter] keeps everything when every element passes. *)
Lemma filter_all_true (f : A -> bool) l :
  Forall (fun x => f x = true) l -> List.filter f l = l.
Proof.
  induction 1 as [|x l Hx _ IH]; simpl; [done|]. by rewrite Hx, IH.
Qed.

Lemma length_filter_le (f : A -> bool) l :
  length (List.filter f l) <= length l.
Proof. induction l as [|x l IH]; simpl; [lia|]. destruct (f x); simpl; lia. Qed.

End lists.

#[export] Hint Resolve length_take_bound length_filter_le : js.
#[export] Hint Resolve raises_Ok raises_Throw raises_bind raises_fmap
  raises_mapM_all raises_imapM_from raises_filterM : js.

(** [solve_raises]: a goal [raises P m] for an [m] built from operations
    whose [raises] lemmas are in the database [js]. *)
Ltac solve_raises :=
  repeat (intros;
    first [ progress cbv beta zeta
          | apply raises_Ok
          | apply raises_Throw; done
          | solve [eauto 2 with js]
          | apply raises_bind
          | apply raises_fmap
          | match goal with
            | |- raises _ (if ?b then _ else _) => destruct b
            | |- raises _ (match ?x with _ => _ end) => destruct x
            end
          | solve [eauto with js] ]).
