(* ===== verification/JsString.v ===== *)
(** * JsString: strings of the program, as sequences of UTF-16 code units

    A JavaScript string is a finite sequence of 16-bit code units; [length],
    [substring] and [trim] count and test code units, not characters.  The
    model is [list N].  [utf16] reads a literal of the source file (UTF-8
    text) into its code units, so that the literals of src/src/index.ts can
    be written here the way the source writes them.

    The operations are the String methods the source calls: [trim] (the
    configuration and the context filter), [substring0] for
    [substring(0, n)] (the previews), [join] ([Array.prototype.join] on
    strings), and [dec], the decimal form of a non-negative integer (array
    indices and HTTP status codes in template literals). *)

From Stdlib Require Import Ascii String DecimalN DecimalFacts.
From S2P Require Import Prelude.

Abbreviation jstring := (list N) (only parsing).

(** ** Literals *)

(** The UTF-16 encoding of a code point: one unit, or a surrogate pair. *)
Definition utf16_of_code_point (cp : N) : jstring :=
  if (cp <? 65536)%N then [cp]
  else
    let c := (cp - 65536)%N in
    [(55296 + N.shiftr c 10)%N; (56320 + N.land c 1023)%N].

(** The payload bits of a UTF-8 continuation byte. *)
Definition cont (a : ascii) : N := N.land (N_of_ascii a) 63.

(** [utf16 s]: the code units of the literal whose UTF-8 text is [s].  A
    truncated sequence gives U+FFFD; the literals of the source have none. *)
Fixpoint utf16 (s : string) : jstring :=
  match s with
  | EmptyString => []
  | String a s1 =>
    let b := N_of_ascii a in
    if (b <? 128)%N then b :: utf16 s1
    else
      match s1 with
      | EmptyString => [65533%N]
      | String a1 s2 =>
        if (b <? 224)%N then
          utf16_of_code_point (N.shiftl (N.land b 31) 6 + cont a1) ++ utf16 s2
        else
          match s2 with
          | EmptyString => [65533%N]
          | String a2 s3 =>
            if (b <? 240)%N then
              utf16_of_code_point
                (N.shiftl (N.land b 15) 12 + N.shiftl (cont a1) 6 + cont a2)
              ++ utf16 s3
            else
              match s3 with
              | EmptyString => [65533%N]
              | String a3 s4 =>
                utf16_of_code_point
                  (N.shiftl (N.land b 7) 18 + N.shiftl (cont a1) 12
                   + N.shiftl (cont a2) 6 + cont a3)
                ++ utf16 s4
              end
          end
      end
  end.

(** The line feed, [\n] in a literal of the source. *)
Definition nl : jstring := [10%N].

(** ** trim *)

(** WhiteSpace and LineTerminator of ECMAScript: what [trim] strips. *)
Definition is_white_space (c : N) : bool :=
  bool_decide (c ∈ [9; 10; 11; 12; 13; 32; 160; 5760; 8232; 8233; 8239;
                    8287; 12288; 65279]%N)
  || ((8192 <=? c)%N && (c <=? 8202)%N).

Fixpoint trim_start (s : jstring) : jstring :=
  match s with
  | [] => []
  | c :: s' => if is_white_space c then trim_start s' else s
  end.

Definition trim_end (s : jstring) : jstring :=
  reverse (trim_start (reverse s)).

(** [s.trim()] *)
Definition trim (s : jstring) : jstring := trim_end (trim_start s).

(** A string with a code unit that is not white space. *)
Definition blank (s : jstring) : bool := forallb is_white_space s.

(** ** substring, join *)

(** [s.substring(0, n)]: the first [n] code units, all of [s] when it is
    shorter. *)
Definition substring0 (n : nat) (s : jstring) : jstring := take n s.

(** [l.join(sep)] on an array of strings. *)
Fixpoint join (sep : jstring) (l : list jstring) : jstring :=
  match l with
  | [] => []
  | [x] => x
  | x :: l' => x ++ sep ++ join sep l'
  end.

(** ** Decimal numerals *)

Fixpoint uint_digits (d : Decimal.uint) : jstring :=
  match d with
  | Decimal.Nil => []
  | Decimal.D0 d => 48%N :: uint_digits d
  | Decimal.D1 d => 49%N :: uint_digits d
  | Decimal.D2 d => 50%N :: uint_digits d
  | Decimal.D3 d => 51%N :: uint_digits d
  | Decimal.D4 d => 52%N :: uint_digits d
  | Decimal.D5 d => 53%N :: uint_digits d
  | Decimal.D6 d => 54%N :: uint_digits d
  | Decimal.D7 d => 55%N :: uint_digits d
  | Decimal.D8 d => 56%N :: uint_digits d
  | Decimal.D9 d => 57%N :: uint_digits d
  end.

(** The decimal numeral of [n], as a template literal prints an integer. *)
Definition dec_N (n : N) : jstring := uint_digits (N.to_uint n).

Definition dec (n : nat) : jstring := dec_N (N.of_nat n).

(** A decimal digit, as a code unit. *)
Definition is_digit (c : N) : bool := (48 <=? c)%N && (c <=? 57)%N.

(** * Lemmas *)

(** ** Literals *)

Example utf16_ascii : utf16 "Document " = [68; 111; 99; 117; 109; 101; 110; 116; 32]%N.
Proof. reflexivity. Qed.

(** The bullet of the index report is one code unit, U+2022. *)
Example utf16_bullet : utf16 "•" = [8226%N].
Proof. reflexivity. Qed.

(** A character outside the basic plane is a surrogate pair. *)
Example utf16_astral : utf16 "🔍" = [55357; 56589]%N.
Proof. reflexivity. Qed.

(** ** trim *)

Lemma trim_start_suffix s : trim_start s `suffix_of` s.
Proof.
  induction s as [|c s IH]; simpl; [done|].
  destruct (is_white_space c); [by apply suffix_cons_r|done].
Qed.

Lemma trim_start_length s : length (trim_start s) <= length s.
Proof. apply suffix_length, trim_start_suffix. Qed.

(** [trim_start] gives the empty string exactly on blank strings. *)
Lemma trim_start_nil s : trim_start s = [] <-> blank s = true.
Proof.
  unfold blank. induction s as [|c s IH]; simpl; [done|].
  destruct (is_white_space c); simpl; [done|]. split; discriminate.
Qed.

(** What [trim_start] returns does not start with white space. *)
Lemma trim_start_head s c s' :
  trim_start s = c :: s' -> is_white_space c = false.
Proof.
  induction s as [|d s IH]; simpl; [done|].
  destruct (is_white_space d) eqn:E; [done|]. by intros [= -> _].
Qed.

(** A string that does not start with white space is left alone. *)
Lemma trim_start_id c s : is_white_space c = false -> trim_start (c :: s) = c :: s.
Proof. simpl. by intros ->. Qed.

Lemma trim_start_idemp s : trim_start (trim_start s) = trim_start s.
Proof.
  destruct (trim_start s) as [|c s'] eqn:E; [done|].
  apply trim_start_id. eapply trim_start_head, E.
Qed.

Lemma blank_app s t : blank (s ++ t) = blank s && blank t.
Proof. unfold blank. apply forallb_app. Qed.

Lemma blank_reverse s : blank (reverse s) = blank s.
Proof.
  induction s as [|c s IH]; [done|].
  rewrite reverse_cons, blank_app, IH. simpl. rewrite andb_true_r. apply andb_comm.
Qed.

Lemma blank_suffix s t : s `suffix_of` t -> blank t = true -> blank s = true.
Proof. intros [k ->]. rewrite blank_app. by intros [_ ?]%andb_true_iff. Qed.

Lemma trim_end_nil s : trim_end s = [] <-> blank s = true.
Proof.
  unfold trim_end. rewrite <- (blank_reverse s), <- trim_start_nil.
  split; [|by intros ->].
  intros H. apply (f_equal reverse) in H. by rewrite reverse_involutive in H.
Qed.

(** [trim_start] only removes white space: the rest is blank iff the whole is. *)
Lemma blank_trim_start s : blank (trim_start s) = blank s.
Proof.
  unfold blank. induction s as [|c s IH]; simpl; [done|].
  destruct (is_white_space c) eqn:E; simpl; [done|]. by rewrite E.
Qed.

(** The test of the context filter, [text.trim()] read as a condition: the
    trimmed string is empty exactly when the string is blank. *)
Lemma trim_nil s : trim s = [] <-> blank s = true.
Proof. unfold trim. by rewrite trim_end_nil, blank_trim_start. Qed.

Lemma trim_end_prefix s : trim_end s `prefix_of` s.
Proof.
  unfold trim_end. destruct (trim_start_suffix (reverse s)) as [k Hk].
  exists (reverse k). apply (f_equal reverse) in Hk.
  by rewrite reverse_involutive, reverse_app in Hk.
Qed.

Lemma trim_length s : length (trim s) <= length s.
Proof.
  unfold trim. etrans; [apply prefix_length, trim_end_prefix|].
  apply trim_start_length.
Qed.

(** ** substring and join *)

Lemma substring0_length n s : length (substring0 n s) = n `min` length s.
Proof. apply length_take. Qed.

Lemma substring0_short n s : length s <= n -> substring0 n s = s.
Proof. apply take_ge. Qed.

Lemma substring0_idemp n s : substring0 n (substring0 n s) = substring0 n s.
Proof. unfold substring0. by rewrite take_take, Nat.min_id. Qed.

Lemma join_singleton sep x : join sep [x] = x.
Proof. done. Qed.

Lemma join_cons sep x y l : join sep (x :: y :: l) = x ++ sep ++ join sep (y :: l).
Proof. done. Qed.

(** The length of a joined array: the parts and one separator between
    neighbours. *)
Lemma join_length sep l :
  length (join sep l) = sum_list (length <$> l) + length sep * pred (length l).
Proof.
  induction l as [|x [|y l] IH]; [simpl; lia..|].
  rewrite join_cons, !length_app, IH. simpl. lia.
Qed.

(** ** Decimal numerals *)

Lemma uint_digits_inj d1 d2 : uint_digits d1 = uint_digits d2 -> d1 = d2.
Proof.
  revert d2. induction d1; intros []; simpl; intros [=]; f_equal; auto.
Qed.

(** Distinct numbers print differently. *)
Lemma dec_N_inj n m : dec_N n = dec_N m -> n = m.
Proof. intros H%uint_digits_inj. by apply DecimalN.Unsigned.to_uint_inj. Qed.

Lemma dec_inj n m : dec n = dec m -> n = m.
Proof. intros H%dec_N_inj. lia. Qed.

(** A numeral has at least one digit. *)
Lemma dec_N_nonempty n : dec_N n <> [].
Proof.
  unfold dec_N. pose proof (DecimalFacts.unorm_nonnil (N.to_uint n)) as H.
  rewrite <- DecimalN.Unsigned.to_of, DecimalN.Unsigned.of_to in H.
  by destruct (N.to_uint n).
Qed.

Lemma dec_nonempty n : dec n <> [].
Proof. apply dec_N_nonempty. Qed.

Lemma uint_digits_all d : forallb is_digit (uint_digits d) = true.
Proof. induction d; simpl; auto. Qed.

(** A numeral consists of digits only. *)
Lemma dec_N_digits n : forallb is_digit (dec_N n) = true.
Proof. apply uint_digits_all. Qed.

Example dec_examples : dec 0 = utf16 "0" /\ dec 3 = utf16 "3" /\ dec 150 = utf16 "150".
Proof. by vm_compute. Qed.

#[export] Hint Resolve trim_length trim_start_length : js.
#[export] Hint Rewrite substring0_length join_singleton : js_simpl.
