(* ===== verification/JsNumber.v ===== *)
(** * JsNumber: numbers of the program, IEEE 754 binary64 values

    A JavaScript number is a double.  The model is the Standard Library's
    [spec_float] at precision 53 and maximal exponent 1024: a signed zero, a
    signed infinity, NaN, or a finite value [m * 2^e] with its sign.

    The source uses three things of a number: its truth value ([node.score
    || 0]), [toFixed(2)] (the relevance of a source line), and its string
    form when a template literal prints it.  [to_fixed] and
    [number_to_string] follow Number.prototype.toFixed and Number::toString
    of ECMAScript on the exact value of the double, so that 1.005 prints
    as 1.00 and 0.1 + 0.2 as 0.30000000000000004.

    [num_decimal] reads a decimal literal into the nearest double, the way
    the JSON parser of the runtime does; the examples use it to write
    scores. *)

From Stdlib Require Import String SpecFloat.
From S2P Require Import Prelude JsString.

Abbreviation number := spec_float (only parsing).

#[local] Open Scope Z_scope.

(** ** Values *)

(** The doubles among the values of [spec_float]. *)
Definition is_double (x : number) : bool := valid_binary 53 1024 x.

(** The double nearest to an integer (ties to even). *)
Definition num_of_Z (z : Z) : number := binary_normalize 53 1024 z 0 false.

(** The double nearest to [m * 10^k] (ties to even): how a decimal literal
    is read.  For [k < 0] the quotient is computed with at least 64 bits and
    the position of the remainder, which [binary_round_aux] then rounds. *)
Definition num_decimal (m k : Z) : number :=
  if 0 <=? k then binary_normalize 53 1024 (m * 10 ^ k) 0 false
  else
    let d := 10 ^ (- k) in
    let s := 64 + 4 * (- k) in
    let q := (Z.abs m * 2 ^ s) / d in
    let r := (Z.abs m * 2 ^ s) mod d in
    let loc := if r =? 0 then loc_Exact else loc_Inexact (2 * r ?= d) in
    if m =? 0 then S754_zero false
    else binary_round_aux 53 1024 (m <? 0) q (- s) loc.

(** ToBoolean on a number: zero and NaN are false. *)
Definition num_truthy (x : number) : bool :=
  match x with
  | S754_zero _ | S754_nan => false
  | S754_infinity _ | S754_finite _ _ _ => true
  end.

(** ** Number::toString

    For a finite positive [x = m * 2^e], ECMAScript asks for the integers
    [n], [k], [s] with [s * 10^(n-k)] rounding to [x], [k] digits in [s],
    and [k] as small as possible; among several [s], the one closest to
    [x], the even one on a tie.  Everything is computed on integers, in
    units of [2^(e-2)]: [x] is [4m], its rounding interval is [[lo, hi]]. *)

Section shortest.
Variables (m : positive) (e : Z).

(** The double below [x] is twice as close when [m] is a power of two. *)
Definition at_binade_start : bool := (Z.pos m =? 2 ^ 52) && (-1074 <? e).

Definition interval_lo : Z :=
  if at_binade_start then 4 * Z.pos m - 1 else 4 * Z.pos m - 2.

Definition interval_hi : Z := 4 * Z.pos m + 2.

(** The end points round to [x] when [m] is even (ties to even). *)
Definition interval_closed : bool := Z.even (Z.pos m).

Definition ceil_div (a b : Z) : Z := - ((- a) / b).

(** [hit j]: the multiple [s * 10^j] of [10^j] closest to [x] inside the
    rounding interval of [x], when there is one. *)
Definition hit (j : Z) : option Z :=
  let p2 := 2 ^ Z.max 0 (e - 2) in
  let q2 := 2 ^ Z.max 0 (2 - e) in
  let p10 := 10 ^ Z.max 0 j in
  let q10 := 10 ^ Z.max 0 (- j) in
  let g := p10 * q2 in
  let lo := interval_lo * p2 * q10 in
  let hi := interval_hi * p2 * q10 in
  let x := 4 * Z.pos m * p2 * q10 in
  let smin := if interval_closed then ceil_div lo g else lo / g + 1 in
  let smax := if interval_closed then hi / g else ceil_div hi g - 1 in
  if smax <? smin then None
  else
    let s0 := x / g in
    let s1 := ceil_div x g in
    if s0 <? smin then Some s1
    else if smax <? s1 then Some s0
    else
      match (x - s0 * g ?= s1 * g - x) with
      | Lt => Some s0
      | Gt => Some s1
      | Eq => Some (if Z.even s0 then s0 else s1)
      end.

(** [10^j_top] is above the interval: [hi < 2^b] for the [b] below, and
    [log10 2 < 0.30103]. *)
Definition j_top : Z :=
  let b := Z.log2 interval_hi + 1 + (e - 2) in
  (b * 30103) / 100000 + 2.

(** [x] itself is a multiple of [10^j_bottom]. *)
Definition j_bottom : Z := Z.min 0 e.

(** The largest [j] from [j] downwards with a hit, and its [s]. *)
Fixpoint search (fuel : nat) (j : Z) : Z * Z :=
  match hit j with
  | Some s => (s, j)
  | None =>
    match fuel with
    | O => (0, j)
    | S fuel' => search fuel' (j - 1)
    end
  end.

Definition shortest : Z * Z := search (Z.to_nat (j_top - j_bottom)) j_top.

End shortest.

(** The notation of Number::toString for digits [ds] (those of [s], [k] of
    them) and the position [n] of the decimal point. *)
Definition layout (ds : jstring) (n : Z) : jstring :=
  let k := Z.of_nat (length ds) in
  if (k <=? n) && (n <=? 21) then ds ++ replicate (Z.to_nat (n - k)) 48%N
  else if (0 <? n) && (n <=? 21) then
    take (Z.to_nat n) ds ++ utf16 "." ++ drop (Z.to_nat n) ds
  else if (-6 <? n) && (n <=? 0) then
    utf16 "0." ++ replicate (Z.to_nat (- n)) 48%N ++ ds
  else
    let ex := n - 1 in
    let sign := if 0 <=? ex then utf16 "+" else utf16 "-" in
    let mant := if k =? 1 then ds else take 1 ds ++ utf16 "." ++ drop 1 ds in
    mant ++ utf16 "e" ++ sign ++ dec_N (Z.to_N (Z.abs ex)).

Definition positive_to_string (m : positive) (e : Z) : jstring :=
  let '(s, j) := shortest m e in
  let ds := dec_N (Z.to_N s) in
  layout ds (Z.of_nat (length ds) + j).

(** Number::toString(x), radix 10. *)
Definition number_to_string (x : number) : jstring :=
  match x with
  | S754_nan => utf16 "NaN"
  | S754_zero _ => utf16 "0"
  | S754_infinity s => (if s then utf16 "-" else []) ++ utf16 "Infinity"
  | S754_finite s m e => (if s then utf16 "-" else []) ++ positive_to_string m e
  end.

(** ** Number.prototype.toFixed *)

(** The integer [n] for which [n / 10^f - m * 2^e] is closest to zero, the
    larger one when two are. *)
Definition round_half_up_scaled (m : positive) (e : Z) (f : nat) : Z :=
  let num := Z.pos m * 10 ^ Z.of_nat f in
  if 0 <=? e then num * 2 ^ e
  else (2 * num + 2 ^ (- e)) / (2 * 2 ^ (- e)).

(** [m * 2^e >= 10^21] *)
Definition ge_1e21 (m : positive) (e : Z) : bool :=
  if 0 <=? e then 10 ^ 21 <=? Z.pos m * 2 ^ e
  else 10 ^ 21 * 2 ^ (- e) <=? Z.pos m.

(** The digits of [n] with a point before the last [f] of them, padded with
    zeros on the left to [f + 1] digits. *)
Definition fixed_digits (n : Z) (f : nat) : jstring :=
  let ds := dec_N (Z.to_N n) in
  match f with
  | O => ds
  | _ =>
    let ds' := replicate (S f - length ds)%nat 48%N ++ ds in
    let k := length ds' in
    take (k - f)%nat ds' ++ utf16 "." ++ drop (k - f)%nat ds'
  end.

(** [x.toFixed(f)] for [0 <= f <= 100]. *)
Definition to_fixed (f : nat) (x : number) : jstring :=
  match x with
  | S754_nan | S754_infinity _ => number_to_string x
  | S754_zero _ => fixed_digits 0 f
  | S754_finite s m e =>
    (if s then utf16 "-" else []) ++
    (if ge_1e21 m e then positive_to_string m e
     else fixed_digits (round_half_up_scaled m e f) f)
  end.

(** ** Comparing a number with an integer

    [x <= n] and [n <= x] on the exact values, without rounding [n]. *)

Definition num_le_Z (x : number) (n : Z) : bool :=
  match x with
  | S754_zero _ => 0 <=? n
  | S754_infinity s => s
  | S754_nan => false
  | S754_finite s m e =>
    let v := if s then Z.neg m else Z.pos m in
    if 0 <=? e then v * 2 ^ e <=? n else v <=? n * 2 ^ (- e)
  end.

Definition Z_le_num (n : Z) (x : number) : bool :=
  match x with
  | S754_zero _ => n <=? 0
  | S754_infinity s => negb s
  | S754_nan => false
  | S754_finite s m e =>
    let v := if s then Z.neg m else Z.pos m in
    if 0 <=? e then n <=? v * 2 ^ e else n * 2 ^ (- e) <=? v
  end.

(** [solve_bound]: a comparison with [num_of_Z k] for a numeral [k] is the
    comparison with [k]. *)
Ltac solve_bound :=
  intros; apply eq_true_iff_eq;
  match goal with
  | |- context [num_of_Z ?k] =>
      let v := eval vm_compute in (num_of_Z k) in change (num_of_Z k) with v
  end;
  lazy beta iota zeta delta [num_le_Z Z_le_num];
  match goal with
  | |- context [if ?c then _ else _] =>
      let b := eval vm_compute in c in change c with b
  end;
  cbv iota;
  match goal with
  | |- context [2 ^ ?e] =>
      let p := eval vm_compute in (2 ^ e) in change (2 ^ e) with p
  end;
  rewrite !Z.leb_le; lia.

(** A string that starts with a decimal digit. *)
Definition starts_with_digit (s : jstring) : bool :=
  match s with
  | c :: _ => is_digit c
  | [] => false
  end.

(** * Lemmas *)

(** ** Reading literals *)

Example num_decimal_0_9 : num_decimal 9 (-1) = S754_finite false 8106479329266893 (-53).
Proof. by vm_compute. Qed.

Example num_decimal_examples :
  num_decimal 1005 (-3) = S754_finite false 4526117625507348 (-52) /\
  num_decimal 1 (-7) = S754_finite false 7555786372591432 (-76) /\
  num_decimal 1 21 = S754_finite false 7629394531250000 17 /\
  num_decimal 5 (-324) = S754_finite false 1 (-1074) /\
  num_decimal 17976931348623157 292 = S754_finite false 9007199254740991 971 /\
  num_decimal 123456 (-3) = S754_finite false 8687443681197687 (-46) /\
  num_decimal 1 400 = S754_infinity false /\
  num_of_Z 5 = S754_finite false 5629499534213120 (-50) /\
  num_of_Z 0 = S754_zero false.
Proof. by vm_compute. Qed.

(** ** Number::toString on known values *)

Example number_to_string_examples :
  number_to_string (num_decimal 9 (-1)) = utf16 "0.9" /\
  number_to_string (num_decimal 1 (-1)) = utf16 "0.1" /\
  number_to_string (S754_finite false 5404319552844596 (-54)) = utf16 "0.30000000000000004" /\
  number_to_string (num_of_Z 100) = utf16 "100" /\
  number_to_string (num_of_Z (2 ^ 53)) = utf16 "9007199254740992" /\
  number_to_string (num_decimal 1 21) = utf16 "1e+21" /\
  number_to_string (num_decimal 1 (-7)) = utf16 "1e-7" /\
  number_to_string (num_decimal 1 (-6)) = utf16 "0.000001" /\
  number_to_string (num_decimal 12345678901234568 4) = utf16 "123456789012345680000" /\
  number_to_string (num_decimal 5 (-324)) = utf16 "5e-324" /\
  number_to_string (num_decimal 17976931348623157 292) = utf16 "1.7976931348623157e+308" /\
  number_to_string (S754_finite false 6004799503160661 (-54)) = utf16 "0.3333333333333333" /\
  number_to_string (num_decimal (-435) (-2)) = utf16 "-4.35" /\
  number_to_string (S754_infinity true) = utf16 "-Infinity" /\
  number_to_string (S754_zero true) = utf16 "0".
Proof. by vm_compute. Qed.

(** ** The strings are never empty *)

Lemma layout_nonempty ds n : ds <> [] -> layout ds n <> [].
Proof.
  intros Hds. unfold layout.
  repeat case_if; intros H%(f_equal length); revert H;
    rewrite ?length_app; destruct ds; simpl; try done; lia.
Qed.

Lemma positive_to_string_nonempty m e : positive_to_string m e <> [].
Proof.
  unfold positive_to_string. destruct (shortest m e) as [s j].
  apply layout_nonempty, dec_N_nonempty.
Qed.

Lemma number_to_string_nonempty x : number_to_string x <> [].
Proof.
  destruct x as [s|s| |s m e]; simpl; try done.
  - by destruct s.
  - pose proof (positive_to_string_nonempty m e).
    destruct s; [done|]. by rewrite app_nil_l.
Qed.

Lemma fixed_digits_nonempty n f : fixed_digits n f <> [].
Proof.
  unfold fixed_digits. destruct f; [apply dec_N_nonempty|].
  intros H%(f_equal length). rewrite !length_app in H. simpl in H. lia.
Qed.

(** [toFixed] never returns the empty string: its result counts as true. *)
Lemma to_fixed_nonempty f x : to_fixed f x <> [].
Proof.
  destruct x as [s|s| |s m e]; simpl; try done.
  - apply fixed_digits_nonempty.
  - by destruct s.
  - pose proof (positive_to_string_nonempty m e).
    pose proof (fixed_digits_nonempty (round_half_up_scaled m e f) f).
    destruct s; [done|]. rewrite app_nil_l. by destruct (ge_1e21 m e).
Qed.

(** ** Bounds that are small integers *)

Lemma num_le_Z_1 n : num_le_Z (num_of_Z 1) n = (1 <=? n).
Proof. solve_bound. Qed.

Lemma Z_le_num_500 n : Z_le_num n (num_of_Z 500) = (n <=? 500).
Proof. solve_bound. Qed.

Lemma Z_le_num_1000 n : Z_le_num n (num_of_Z 1000) = (n <=? 1000).
Proof. solve_bound. Qed.

(** ** How the strings start *)

Lemma starts_with_digit_app s t :
  starts_with_digit s = true -> starts_with_digit (s ++ t) = true.
Proof. by destruct s. Qed.

Lemma starts_with_digit_take n s :
  (0 < n)%nat -> starts_with_digit s = true -> starts_with_digit (take n s) = true.
Proof. destruct n; [lia|]. by destruct s. Qed.

Lemma dec_N_starts n : starts_with_digit (dec_N n) = true.
Proof.
  pose proof (dec_N_nonempty n) as Hne. pose proof (dec_N_digits n) as Hd.
  destruct (dec_N n) as [|c s]; [done|]. simpl in *.
  by apply andb_true_iff in Hd as [? _].
Qed.

Lemma layout_starts ds n :
  starts_with_digit ds = true -> starts_with_digit (layout ds n) = true.
Proof.
  intros Hds. unfold layout. cbv zeta.
  destruct ((_ <=? n) && (n <=? 21)); [by apply starts_with_digit_app|].
  destruct ((0 <? n) && (n <=? 21)) eqn:E.
  { apply andb_true_iff in E as [?%Z.ltb_lt _].
    apply starts_with_digit_app, starts_with_digit_take; [lia|done]. }
  destruct ((-6 <? n) && (n <=? 0)); [done|].
  apply starts_with_digit_app. case_if; [done|].
  by apply starts_with_digit_app, starts_with_digit_take; [lia|].
Qed.

Lemma positive_to_string_starts m e :
  starts_with_digit (positive_to_string m e) = true.
Proof.
  unfold positive_to_string. destruct (shortest m e) as [s j].
  apply layout_starts, dec_N_starts.
Qed.

Lemma fixed_digits_starts n f : starts_with_digit (fixed_digits n f) = true.
Proof.
  unfold fixed_digits. destruct f as [|f]; [apply dec_N_starts|].
  apply starts_with_digit_app, starts_with_digit_take.
  - rewrite length_app, length_replicate. lia.
  - pose proof (dec_N_starts (Z.to_N n)). by destruct (S (S f) - _)%nat; [|].
Qed.

(** What [toFixed] returns starts with a digit, a minus sign, or the first
    letter of NaN or Infinity. *)
Lemma to_fixed_head f x :
  exists c s, to_fixed f x = c :: s /\
              (is_digit c = true \/ c = 45%N \/ c = 78%N \/ c = 73%N).
Proof.
  destruct x as [sg|sg| |sg m e]; simpl.
  - pose proof (fixed_digits_starts 0 f). destruct (fixed_digits 0 f); [done|]. eauto.
  - destruct sg; simpl; eauto 10.
  - eauto 10.
  - destruct sg; [simpl; eauto 10|]. rewrite app_nil_l.
    pose proof (positive_to_string_starts m e).
    pose proof (fixed_digits_starts (round_half_up_scaled m e f) f).
    destruct (ge_1e21 m e); [destruct (positive_to_string m e)|destruct (fixed_digits _ _)];
      try done; eauto.
Qed.

(** In particular it never returns the text n/a. *)
Lemma to_fixed_not_na f x : to_fixed f x <> utf16 "n/a".
Proof.
  destruct (to_fixed_head f x) as (c & s & -> & H). intros [= -> _].
  by destruct H as [?|[?|[?|?]]].
Qed.

(** ** toFixed on known values *)

Example to_fixed_examples :
  to_fixed 2 (num_decimal 9 (-1)) = utf16 "0.90" /\
  to_fixed 2 (num_decimal 1005 (-3)) = utf16 "1.00" /\
  to_fixed 2 (num_decimal 1255 (-3)) = utf16 "1.25" /\
  to_fixed 2 (num_decimal 123456 (-3)) = utf16 "123.46" /\
  to_fixed 2 (num_decimal 1 (-6)) = utf16 "0.00" /\
  to_fixed 2 (num_decimal (-15) (-1)) = utf16 "-1.50" /\
  to_fixed 2 (num_decimal (-1) (-3)) = utf16 "-0.00" /\
  to_fixed 2 (num_decimal 5 (-3)) = utf16 "0.01" /\
  to_fixed 0 (num_decimal 25 (-1)) = utf16 "3" /\
  to_fixed 2 (num_decimal 1 21) = utf16 "1e+21" /\
  to_fixed 2 (S754_zero true) = utf16 "0.00" /\
  to_fixed 2 S754_nan = utf16 "NaN" /\
  to_fixed 2 (num_of_Z 7) = utf16 "7.00".
Proof. by vm_compute. Qed.
