(* ===== verification/JsValue.v ===== *)
(** * JsValue: the values a handler sees, and the operations it applies

    The upstream answer is whatever [response.json()] returns, and the tool
    arguments are whatever the caller sent: the handlers of
    src/src/index.ts read them with property accesses, [||], [?.] and a few
    method calls, none of which checks a type first.  [value] is the
    universe of such values: the JSON values and [undefined], which a
    missing property reads as.

    The operations are those the source applies, with the exceptions the
    language raises: [get] for [v.f] (a TypeError on [null] and
    [undefined]), [get_opt] for [v?.f], [truthy] for the tests of [||],
    [&&] and [filter], [to_string] for a value inside a template literal,
    and the method calls [trim], [substring], [map] and [toFixed], each a
    TypeError on a receiver that has no such method.

    [field] lists the property names the source reads.  None of them is a
    property of Object.prototype, Array.prototype or String.prototype, so
    reading one from an array, a string, a number or a boolean gives
    [undefined], and from an object its own property. *)

From Stdlib Require Import String.
From S2P Require Import Prelude JsString JsNumber.

(** ** Values *)

Unset Elimination Schemes.
Inductive value : Type :=
| VUndefined
| VNull
| VBool (b : bool)
| VNum (x : number)
| VStr (s : jstring)
| VArr (items : list value)
| VObj (props : list (jstring * value)).
Set Elimination Schemes.

(** The property names read by src/src/index.ts. *)
Inductive field : Set :=
| F_retrieval_nodes | F_node | F_text | F_content | F_metadata | F_file_name
| F_filename | F_score | F_answer | F_response | F_source_nodes | F_sources
| F_question | F_query | F_top_k.

Definition field_name (f : field) : jstring :=
  utf16 match f with
        | F_retrieval_nodes => "retrieval_nodes"
        | F_node => "node"
        | F_text => "text"
        | F_content => "content"
        | F_metadata => "metadata"
        | F_file_name => "file_name"
        | F_filename => "filename"
        | F_score => "score"
        | F_answer => "answer"
        | F_response => "response"
        | F_source_nodes => "source_nodes"
        | F_sources => "sources"
        | F_question => "question"
        | F_query => "query"
        | F_top_k => "top_k"
        end.

(** ** Exceptions *)

(** Why the language raised a TypeError. *)
Inductive type_error : Set :=
| ReadOfNullish (prop : jstring)  (* reading [prop] of null or undefined *)
| NotAFunction (prop : jstring)   (* calling [v.prop] that is no function *)
| NoPrimitive.                    (* an object with no string conversion *)

(** What ends a computation abruptly: an exception of the language, an
    [Error] the source constructs, an exception of a library (node-fetch,
    the JSON parser), or [process.exit], which no [catch] intercepts. *)
Inductive exn : Set :=
| TypeError (why : type_error)
| Error (msg : jstring)
| Foreign (name msg : jstring)
| ProcessExit (code : N).

Abbreviation outcome := (result exn) (only parsing).

Definition is_type_error (e : exn) : Prop :=
  match e with
  | TypeError _ => True
  | _ => False
  end.

(** ** Truth values *)

(** ToBoolean *)
Definition truthy (v : value) : bool :=
  match v with
  | VUndefined | VNull => false
  | VBool b => b
  | VNum x => num_truthy x
  | VStr s => negb (bool_decide (s = []))
  | VArr _ | VObj _ => true
  end.

Definition nullish (v : value) : bool :=
  match v with
  | VUndefined | VNull => true
  | _ => false
  end.

(** [Array.isArray(v)] *)
Definition is_array (v : value) : bool :=
  match v with
  | VArr _ => true
  | _ => false
  end.

(** [a || b] with [b] already evaluated; where [b] can raise, the handlers
    spell the test out. *)
Definition or_else (a b : value) : value := if truthy a then a else b.

(** ** Property access *)

(** The own property [k] of an object, [undefined] when it has none. *)
Fixpoint lookup_prop (k : jstring) (props : list (jstring * value)) : value :=
  match props with
  | [] => VUndefined
  | (k', v) :: props' => if decide (k' = k) then v else lookup_prop k props'
  end.

Definition has_prop (k : jstring) (props : list (jstring * value)) : bool :=
  existsb (fun kv => bool_decide (kv.1 = k)) props.

(** [v?.f] *)
Definition get_opt (v : value) (f : field) : value :=
  match v with
  | VObj props => lookup_prop (field_name f) props
  | _ => VUndefined
  end.

(** [v.f] *)
Definition get (v : value) (f : field) : outcome value :=
  if nullish v then Throw (TypeError (ReadOfNullish (field_name f)))
  else Ok (get_opt v f).

(** ** String conversion *)

(** ToString, as a template literal applies it.  An array prints its
    elements separated by commas, [null] and [undefined] among them as
    nothing.  An object prints as [[object Object]], unless it has an own
    property [toString]: a JSON value there is no function, the inherited
    [valueOf] returns the object, and the conversion raises. *)
Fixpoint to_string (v : value) : outcome jstring :=
  match v with
  | VUndefined => Ok (utf16 "undefined")
  | VNull => Ok (utf16 "null")
  | VBool true => Ok (utf16 "true")
  | VBool false => Ok (utf16 "false")
  | VNum x => Ok (number_to_string x)
  | VStr s => Ok s
  | VArr items =>
    join (utf16 ",") <$>
      mapM (fun x => if nullish x then Ok [] else to_string x) items
  | VObj props =>
    if has_prop (utf16 "toString") props then Throw (TypeError NoPrimitive)
    else Ok (utf16 "[object Object]")
  end.

(** [items.join(sep)]: the elements as strings, [null] and [undefined] as
    the empty string. *)
Definition array_join (sep : jstring) (items : list value) : outcome jstring :=
  join sep <$> mapM (fun x => if nullish x then Ok [] else to_string x) items.

(** ** Method calls *)

(** The receiver of [v.m(...)] for a method [m] of String.prototype only:
    a string, or the TypeError of the call. *)
Definition string_receiver (m : jstring) (v : value) : outcome jstring :=
  match v with
  | VStr s => Ok s
  | VUndefined | VNull => Throw (TypeError (ReadOfNullish m))
  | _ => Throw (TypeError (NotAFunction m))
  end.

(** [v.trim()] *)
Definition call_trim (v : value) : outcome jstring :=
  trim <$> string_receiver (utf16 "trim") v.

(** [v.substring(0, n)] *)
Definition call_substring0 (n : nat) (v : value) : outcome jstring :=
  substring0 n <$> string_receiver (utf16 "substring") v.

(** The receiver of [v.map(...)]: the elements of an array. *)
Definition array_receiver (v : value) : outcome (list value) :=
  match v with
  | VArr items => Ok items
  | VUndefined | VNull => Throw (TypeError (ReadOfNullish (utf16 "map")))
  | _ => Throw (TypeError (NotAFunction (utf16 "map")))
  end.

(** [v?.toFixed(2)]: [undefined] on [null] and [undefined], the digits of a
    number, a TypeError on anything else. *)
Definition call_toFixed_opt (v : value) : outcome value :=
  match v with
  | VUndefined | VNull => Ok VUndefined
  | VNum x => Ok (VStr (to_fixed 2 x))
  | _ => Throw (TypeError (NotAFunction (utf16 "toFixed")))
  end.

(** ** Writing values *)

(** An object and a string written with literals, for the examples. *)
Definition jobj (l : list (string * value)) : value :=
  VObj ((fun kv => (utf16 kv.1, kv.2)) <$> l).

Definition jstr (s : string) : value := VStr (utf16 s).

(** ** JSON values *)

(** What [JSON.parse] can return: no [undefined], no NaN. *)
Fixpoint is_json (v : value) : bool :=
  match v with
  | VUndefined => false
  | VNull | VBool _ | VStr _ => true
  | VNum x => match x with SpecFloat.S754_nan => false | _ => is_double x end
  | VArr items => forallb is_json items
  | VObj props => forallb (fun kv => is_json kv.2) props
  end.

(** * Lemmas *)

(** ** Induction on values *)

Section value_ind.
Variable P : value -> Prop.
Hypothesis Hundefined : P VUndefined.
Hypothesis Hnull : P VNull.
Hypothesis Hbool : forall b, P (VBool b).
Hypothesis Hnum : forall x, P (VNum x).
Hypothesis Hstr : forall s, P (VStr s).
Hypothesis Harr : forall items, Forall P items -> P (VArr items).
Hypothesis Hobj : forall props, Forall (fun kv => P kv.2) props -> P (VObj props).

Fixpoint value_ind (v : value) : P v :=
  match v with
  | VUndefined => Hundefined
  | VNull => Hnull
  | VBool b => Hbool b
  | VNum x => Hnum x
  | VStr s => Hstr s
  | VArr items =>
    Harr items
      ((fix go (l : list value) : Forall P l :=
          match l with
          | [] => Forall_nil_2 P
          | x :: l' => Forall_cons_2 P x l' (value_ind x) (go l')
          end) items)
  | VObj props =>
    Hobj props
      ((fix go (l : list (jstring * value)) : Forall (fun kv => P kv.2) l :=
          match l with
          | [] => Forall_nil_2 _
          | kv :: l' => Forall_cons_2 _ kv l' (value_ind kv.2) (go l')
          end) props)
  end.

End value_ind.

(** ** Truth values *)

Lemma truthy_not_nullish v : truthy v = true -> nullish v = false.
Proof. by destruct v. Qed.

Lemma truthy_str s : truthy (VStr s) = true <-> s <> [].
Proof. simpl. rewrite negb_true_iff, bool_decide_eq_false. done. Qed.

Lemma or_else_truthy a b : truthy b = true -> truthy (or_else a b) = true.
Proof. unfold or_else. by destruct (truthy a) eqn:E. Qed.

(** ** Property access *)

(** Reading a property raises on [null] and [undefined] only. *)
Lemma get_Ok v f : nullish v = false -> get v f = Ok (get_opt v f).
Proof. unfold get. by intros ->. Qed.

Lemma get_Throw v f e :
  get v f = Throw e <->
  nullish v = true /\ e = TypeError (ReadOfNullish (field_name f)).
Proof. unfold get. destruct (nullish v); split; (intros [= <-] || intros [[=] ->]); done. Qed.

Lemma get_obj props f : get (VObj props) f = Ok (lookup_prop (field_name f) props).
Proof. done. Qed.

Lemma lookup_prop_has k props : has_prop k props = false -> lookup_prop k props = VUndefined.
Proof.
  induction props as [|[k' v] props IH]; simpl; [done|].
  intros [Hk Hps]%orb_false_iff. apply bool_decide_eq_false in Hk.
  rewrite decide_False by done. auto.
Qed.

(** A property that an object has is found among its properties. *)
Lemma lookup_prop_elem k props :
  has_prop k props = true -> (k, lookup_prop k props) ∈ props.
Proof.
  induction props as [|[k' v] props IH]; simpl; [done|].
  destruct (decide (k' = k)) as [->|Hk]; [left|].
  rewrite bool_decide_eq_false_2 by done. simpl. right. auto.
Qed.

(** Distinct fields have distinct names: a property is found under its own
    name only. *)
Lemma field_name_inj f g : field_name f = field_name g -> f = g.
Proof. destruct f, g; first [done | by vm_compute]. Qed.

(** ** String conversion *)

Lemma to_string_str s : to_string (VStr s) = Ok s.
Proof. done. Qed.

Lemma to_string_arr items : to_string (VArr items) = array_join (utf16 ",") items.
Proof. done. Qed.

(** Joining an array of strings is joining the strings. *)
Lemma array_join_strings sep (l : list jstring) :
  array_join sep (VStr <$> l) = Ok (join sep l).
Proof.
  unfold array_join. rewrite (mapM_pure _ (fun v => match v with VStr s => s | _ => [] end)).
  - simpl. by rewrite <- list_fmap_compose, list_fmap_id.
  - apply Forall_fmap, Forall_true. by intros s.
Qed.

(** ** Method calls *)

Lemma call_trim_Ok v t : call_trim v = Ok t <-> exists s, v = VStr s /\ t = trim s.
Proof.
  unfold call_trim. rewrite fmap_Ok. destruct v; simpl; split;
    try (by intros (? & [=] & ?)); try (by intros (? & [=] & ?)).
  - intros (s' & [= <-] & ->). eauto.
  - intros (s' & [= <-] & ->). eauto.
Qed.

Lemma call_substring0_Ok n v t :
  call_substring0 n v = Ok t <-> exists s, v = VStr s /\ t = substring0 n s.
Proof.
  unfold call_substring0. rewrite fmap_Ok. destruct v; simpl; split;
    try (by intros (? & [=] & ?)); try (by intros (? & [=] & ?)).
  - intros (s' & [= <-] & ->). eauto.
  - intros (s' & [= <-] & ->). eauto.
Qed.

(** ** What the operations raise

    Every operation of this file raises TypeErrors only. *)

Lemma get_raises v f : raises is_type_error (get v f).
Proof. unfold get. solve_raises. Qed.

Lemma string_receiver_raises m v : raises is_type_error (string_receiver m v).
Proof. unfold string_receiver. solve_raises. Qed.

Lemma call_trim_raises v : raises is_type_error (call_trim v).
Proof. unfold call_trim. auto using raises_fmap, string_receiver_raises. Qed.

Lemma call_substring0_raises n v : raises is_type_error (call_substring0 n v).
Proof. unfold call_substring0. auto using raises_fmap, string_receiver_raises. Qed.

Lemma array_receiver_raises v : raises is_type_error (array_receiver v).
Proof. unfold array_receiver. solve_raises. Qed.

Lemma call_toFixed_opt_raises v : raises is_type_error (call_toFixed_opt v).
Proof. unfold call_toFixed_opt. solve_raises. Qed.

Lemma to_string_raises v : raises is_type_error (to_string v).
Proof.
  induction v as [| |[]| | |items IH|props _] using value_ind; simpl;
    try apply raises_Ok.
  - apply raises_fmap, raises_mapM. eapply Forall_impl; [exact IH|].
    intros x Hx. by destruct (nullish x); [apply raises_Ok|].
  - solve_raises.
Qed.

Lemma array_join_raises sep items : raises is_type_error (array_join sep items).
Proof.
  unfold array_join. apply raises_fmap, raises_mapM, Forall_true.
  intros x. destruct (nullish x); [apply raises_Ok|apply to_string_raises].
Qed.

#[export] Hint Resolve get_raises string_receiver_raises call_trim_raises
  call_substring0_raises array_receiver_raises call_toFixed_opt_raises
  to_string_raises array_join_raises : js.

#[export] Hint Rewrite get_obj to_string_str : js_simpl.
