(* ===== verification/Runtime.v ===== *)
(** * Runtime: what a handler does besides computing

    A handler of src/src/index.ts writes lines to the error stream
    ([console.error]), posts a request ([fetch]), reads the clock
    ([new Date()]), raises and catches exceptions.  [M A] is a computation
    that does these things and returns an [A]: a function of the [world]
    (what the network answers and what the clock reads) to the trace of
    events it produced, in order, and its outcome.

    Every handler posts at most one request, so a [world] that answers a
    request by its content loses nothing; a sequence of calls takes one
    world per call.

    [await] is sequencing: the server handles one request at a time, and the
    only suspension point of a handler is its one [fetch]. *)

From Stdlib Require Import String.
From S2P Require Import Prelude JsString JsNumber JsValue.

(** ** The network and the clock *)

(** What [fetch(url, init)] is called with.  [req_body] is the object that
    the source passes to [JSON.stringify]. *)
Record request : Type := {
  req_url : jstring;
  req_method : jstring;
  req_headers : list (jstring * jstring);
  req_body : value;
}.

(** What the source reads of a response: [ok], [status], [statusText] and
    the outcome of [json()], a value or the exception of the parser. *)
Record response : Type := {
  resp_ok : bool;
  resp_status : N;
  resp_statusText : jstring;
  resp_json : outcome value;
}.

Record world : Type := {
  upstream : request -> outcome response;  (* the promise of [fetch] *)
  now_iso : jstring;                       (* [new Date().toISOString()] *)
  transport : outcome unit;                (* the promise of [server.connect] *)
  type_error_message : type_error -> jstring;
                                           (* the message the engine gives *)
}.

(** A world in which no library ends the process: [process.exit] is
    called by the program only. *)
Definition no_exit {A} (r : outcome A) : Prop :=
  forall code, r <> Throw (ProcessExit code).

Record well_behaved (w : world) : Prop := {
  upstream_no_exit : forall req, no_exit (upstream w req);
  json_no_exit : forall req r, upstream w req = Ok r -> no_exit (resp_json r);
  transport_no_exit : no_exit (transport w);
}.

(** ** The result of a tool call *)

(** [{ type: "text", text }], the only content type the handlers return. *)
Inductive content_item : Type :=
| TextContent (text : jstring).

(** [{ content: [...] }] *)
Record CallToolResult : Type := { content : list content_item }.

(** ** Events and computations *)

Inductive event : Type :=
| Log (line : jstring)                 (* [console.error(line)] *)
| LogError (line : jstring) (e : exn)  (* [console.error(line, error)] *)
| Fetch (req : request)                (* [fetch(...)] *)
| Connect.                             (* [server.connect(transport)] *)

Definition M (A : Type) : Type := world -> list event * outcome A.

Definition trace_of {A} (m : M A) (w : world) : list event := (m w).1.
Definition outcome_of {A} (m : M A) (w : world) : outcome A := (m w).2.

#[export] Instance M_ret : MRet M := fun A a _ => ([], Ok a).

(** Every computation is run once: its trace and its outcome are read off
    the same pair. *)
#[export] Instance M_bind : MBind M := fun A B f m w =>
  let '(t, o) := m w in
  match o with
  | Ok a => let '(t', o') := f a w in (t ++ t', o')
  | Throw e => (t, Throw e)
  end.

#[export] Instance M_fmap : FMap M := fun A B f m w =>
  let '(t, o) := m w in (t, f <$> o).

(** A computation of the language only: no event. *)
Definition lift {A} (r : outcome A) : M A := fun _ => ([], r).

Definition throw {A} (e : exn) : M A := lift (Throw e).

Definition log (line : jstring) : M unit := fun _ => ([Log line], Ok tt).

Definition log_error (line : jstring) (e : exn) : M unit :=
  fun _ => ([LogError line e], Ok tt).

Definition fetch (req : request) : M response :=
  fun w => ([Fetch req], upstream w req).

Definition clock : M jstring := fun w => ([], Ok (now_iso w)).

Definition connect : M unit := fun w => ([Connect], transport w).

(** [Error.prototype.toString]: the name, a colon and the message, or the
    one of them that is not empty. *)
Definition error_to_string (name msg : jstring) : jstring :=
  if bool_decide (msg = []) then name
  else if bool_decide (name = []) then msg
  else name ++ utf16 ": " ++ msg.

(** [`${error}`] for what a [catch] caught. *)
Definition exn_to_string (w : world) (e : exn) : jstring :=
  match e with
  | TypeError why => error_to_string (utf16 "TypeError") (type_error_message w why)
  | Error msg => error_to_string (utf16 "Error") msg
  | Foreign name msg => error_to_string name msg
  | ProcessExit _ => []
  end.

Definition describe (e : exn) : M jstring := fun w => ([], Ok (exn_to_string w e)).

(** [try { m } catch (error) { h error }]: [process.exit] is not caught. *)
Definition try_catch {A} (m : M A) (h : exn -> M A) : M A := fun w =>
  let '(t, o) := m w in
  match o with
  | Ok a => (t, Ok a)
  | Throw (ProcessExit c) => (t, Throw (ProcessExit c))
  | Throw e => let '(t', o') := h e w in (t ++ t', o')
  end.

(** The requests posted along a trace. *)
Definition fetches (t : list event) : list request :=
  omap (fun ev => match ev with Fetch r => Some r | _ => None end) t.

(** The lines written along a trace. *)
Definition log_lines (t : list event) : list jstring :=
  omap (fun ev => match ev with
                  | Log l | LogError l _ => Some l
                  | Fetch _ | Connect => None
                  end) t.

(** The texts a V8 engine gives the TypeErrors of the model. *)
Definition v8_message (why : type_error) : jstring :=
  match why with
  | ReadOfNullish p =>
    utf16 "Cannot read properties of undefined (reading '" ++ p ++ utf16 "')"
  | NotAFunction p => p ++ utf16 " is not a function"
  | NoPrimitive => utf16 "Cannot convert object to primitive value"
  end.

(** ** Example worlds *)

(** A pipeline that answers every request with status 200 and the body
    [body]. *)
Definition answering (body : outcome value) : world :=
  {| upstream := fun _ =>
       Ok {| resp_ok := true; resp_status := 200; resp_statusText := utf16 "OK";
             resp_json := body |};
     now_iso := utf16 "2024-01-01T00:00:00.000Z";
     transport := Ok tt;
     type_error_message := v8_message |}.

(** A pipeline that answers every request with the status [status], which
    is not a success. *)
Definition failing (status : N) (text : jstring) : world :=
  {| upstream := fun _ =>
       Ok {| resp_ok := false; resp_status := status; resp_statusText := text;
             resp_json := Ok VNull |};
     now_iso := utf16 "2024-01-01T00:00:00.000Z";
     transport := Ok tt;
     type_error_message := v8_message |}.

(** A network that cannot be reached: [fetch] rejects. *)
Definition unreachable : world :=
  {| upstream := fun _ =>
       Throw (Foreign (utf16 "FetchError") (utf16 "network unreachable"));
     now_iso := utf16 "2024-01-01T00:00:00.000Z";
     transport := Ok tt;
     type_error_message := v8_message |}.

(** A pipeline that answers, under a transport that cannot be connected. *)
Definition disconnected : world :=
  {| upstream := upstream (answering (Ok VNull));
     now_iso := utf16 "2024-01-01T00:00:00.000Z";
     transport := Throw (Error (utf16 "stdin closed"));
     type_error_message := v8_message |}.

(** * Lemmas *)

Section laws.
Context {A B : Type}.
Implicit Types (m : M A) (f : A -> M B) (w : world).

Lemma outcome_bind m f w :
  outcome_of (m ≫= f) w = outcome_of m w ≫= fun a => outcome_of (f a) w.
Proof.
  unfold outcome_of, mbind, M_bind.
  destruct (m w) as [t [a|e]]; simpl; [by destruct (f a w)|done].
Qed.

Lemma trace_bind m f w :
  trace_of (m ≫= f) w =
  trace_of m w ++ match outcome_of m w with
                  | Ok a => trace_of (f a) w
                  | Throw _ => []
                  end.
Proof.
  unfold trace_of, outcome_of, mbind, M_bind.
  destruct (m w) as [t [a|e]]; simpl; [by destruct (f a w)|by rewrite app_nil_r].
Qed.

Lemma outcome_fmap (g : A -> B) m w : outcome_of (g <$> m) w = g <$> outcome_of m w.
Proof. unfold outcome_of, fmap, M_fmap. by destruct (m w). Qed.

Lemma trace_fmap (g : A -> B) m w : trace_of (g <$> m) w = trace_of m w.
Proof. unfold trace_of, fmap, M_fmap. by destruct (m w). Qed.

Lemma outcome_lift (r : outcome A) w : outcome_of (lift r) w = r.
Proof. done. Qed.

Lemma trace_lift (r : outcome A) w : trace_of (lift r) w = [].
Proof. done. Qed.

Lemma outcome_ret (a : A) w : outcome_of (mret a) w = Ok a.
Proof. done. Qed.

Lemma trace_ret (a : A) w : trace_of (mret a) w = [].
Proof. done. Qed.

Lemma outcome_try_catch m (h : exn -> M A) w :
  outcome_of (try_catch m h) w =
  match outcome_of m w with
  | Ok a => Ok a
  | Throw (ProcessExit c) => Throw (ProcessExit c)
  | Throw e => outcome_of (h e) w
  end.
Proof.
  unfold outcome_of, try_catch.
  destruct (m w) as [t [a|e]]; [done|].
  destruct e; simpl; first [done | by destruct (h _ w)].
Qed.

Lemma trace_try_catch m (h : exn -> M A) w :
  trace_of (try_catch m h) w =
  trace_of m w ++ match outcome_of m w with
                  | Ok _ | Throw (ProcessExit _) => []
                  | Throw e => trace_of (h e) w
                  end.
Proof.
  unfold trace_of, outcome_of, try_catch.
  destruct (m w) as [t [a|e]]; simpl; [by rewrite app_nil_r|].
  destruct e; simpl; first [by rewrite app_nil_r | by destruct (h _ w)].
Qed.

End laws.

(** A handler that only catches to log and raise again has the outcome of
    its body. *)
Lemma outcome_try_rethrow {A} (m : M A) (k : exn -> M unit) w :
  (forall e, outcome_of (k e) w = Ok tt) ->
  outcome_of (try_catch m (fun e => k e ≫= fun _ => throw e)) w = outcome_of m w.
Proof.
  intros Hk. rewrite outcome_try_catch.
  destruct (outcome_of m w) as [a|[]]; try done; by rewrite outcome_bind, Hk.
Qed.

(** A computation is its trace and its outcome. *)
Lemma M_run {A} (m : M A) w : m w = (trace_of m w, outcome_of m w).
Proof. unfold trace_of, outcome_of. by destruct (m w). Qed.

Lemma outcome_log l w : outcome_of (log l) w = Ok tt.
Proof. done. Qed.

Lemma trace_log l w : trace_of (log l) w = [Log l].
Proof. done. Qed.

Lemma outcome_fetch r w : outcome_of (fetch r) w = upstream w r.
Proof. done. Qed.

Lemma trace_fetch r w : trace_of (fetch r) w = [Fetch r].
Proof. done. Qed.

Lemma fetches_app t1 t2 : fetches (t1 ++ t2) = fetches t1 ++ fetches t2.
Proof. apply omap_app. Qed.

Lemma fetches_cons_log l t : fetches (Log l :: t) = fetches t.
Proof. done. Qed.

Lemma outcome_connect w : outcome_of connect w = transport w.
Proof. done. Qed.

Lemma trace_connect w : trace_of connect w = [Connect].
Proof. done. Qed.

Lemma outcome_describe e w : outcome_of (describe e) w = Ok (exn_to_string w e).
Proof. done. Qed.

Lemma trace_describe e w : trace_of (describe e) w = [].
Proof. done. Qed.

(** The example worlds are well behaved. *)
Lemma answering_well_behaved body : no_exit body -> well_behaved (answering body).
Proof. intros H. split; try done. by intros req r [= <-]. Qed.

Lemma failing_well_behaved status text : well_behaved (failing status text).
Proof. split; try done. by intros req r [= <-]. Qed.

Lemma unreachable_well_behaved : well_behaved unreachable.
Proof. by split. Qed.

#[export] Hint Rewrite @outcome_bind @trace_bind @outcome_lift @trace_lift
  @outcome_ret @trace_ret outcome_log trace_log outcome_fetch trace_fetch
  fetches_app : js_simpl.
