(* ===== verification/Config.v ===== *)
(** * Config: the configuration and the constructor of the server

    Models [interface LlamaCloudConfig] and the constructor of
    [LlamaCloudMCPServer] (src/src/index.ts, lines 13 to 80): the
    configuration is read once from four variables of the environment, each
    trimmed; the endpoint is the explicit URL if there is one and is built
    from the pipeline id otherwise; the process exits with status 1 when
    the credential, the organization or the endpoint is missing.  The
    configuration is never written again: every handler takes it as an
    argument. *)

From Stdlib Require Import String.
From S2P Require Import Prelude JsString JsNumber JsValue Runtime.

(** ** Data *)

Record LlamaCloudConfig : Type := {
  apiKey : jstring;
  pipelineUrl : jstring;
  pipelineId : option jstring;
  indexName : jstring;
  projectName : jstring;
  organizationId : jstring;
}.

(** The variables of [process.env] the constructor reads; [None] is a
    variable that is not set. *)
Record environment : Type := {
  LLAMA_CLOUD_PIPELINE_ID : option jstring;
  LLAMA_CLOUD_PIPELINE_URL : option jstring;
  LLAMA_CLOUD_API_KEY : option jstring;
  LLAMA_CLOUD_ORGANIZATION_ID : option jstring;
}.

(** What the server is created with: [new Server(info, options)]. *)
Record server_info : Type := {
  server_name : jstring;
  server_version : jstring;
}.

(** ** Operations *)

(** [(process.env.X || "").trim()] *)
Definition env_value (v : option jstring) : jstring := trim (default [] v).

(** A string read as a condition. *)
Definition nonempty (s : jstring) : bool := negb (bool_decide (s = [])).

(** [pipelineUrl || (pipelineId ? `https://.../${pipelineId}/retrieve` : "")] *)
Definition resolvedPipelineUrl (url id : jstring) : jstring :=
  if nonempty url then url
  else if nonempty id then
    utf16 "https://api.cloud.llamaindex.ai/api/v1/pipelines/" ++ id
    ++ utf16 "/retrieve"
  else [].

(** The record assigned to [this.config]. *)
Definition load_config (env : environment) : LlamaCloudConfig :=
  let id := env_value (LLAMA_CLOUD_PIPELINE_ID env) in
  let url := env_value (LLAMA_CLOUD_PIPELINE_URL env) in
  {| apiKey := env_value (LLAMA_CLOUD_API_KEY env);
     pipelineUrl := resolvedPipelineUrl url id;
     pipelineId := if nonempty id then Some id else None;
     indexName := utf16 "dbms";
     projectName := utf16 "Default";
     organizationId := env_value (LLAMA_CLOUD_ORGANIZATION_ID env) |}.

(** The test of the constructor, negated: nothing required is missing. *)
Definition config_complete (cfg : LlamaCloudConfig) : bool :=
  nonempty (apiKey cfg) && nonempty (organizationId cfg)
  && nonempty (pipelineUrl cfg).

Definition missing_env_report : list jstring :=
  [ utf16 "❌ Missing required environment variables for LlamaCloud MCP server";
    utf16 "Required:";
    utf16 "- LLAMA_CLOUD_API_KEY";
    utf16 "- LLAMA_CLOUD_ORGANIZATION_ID";
    utf16 "- LLAMA_CLOUD_PIPELINE_ID (or LLAMA_CLOUD_PIPELINE_URL)" ].

Definition this_server_info : server_info :=
  {| server_name := utf16 "llamacloud-rag-server";
     server_version := utf16 "1.0.0" |}.

(** The capabilities the server is created with (lines 72 to 76). *)
Definition this_server_capabilities : value :=
  jobj [("capabilities"%string, jobj [("tools"%string, jobj [])])].

(** [new LlamaCloudMCPServer()]: the configuration of the instance, or the
    report on the error stream and [process.exit(1)]. *)
Definition constructor (env : environment) : M LlamaCloudConfig :=
  let cfg := load_config env in
  if config_complete cfg then mret cfg
  else
    mapM log missing_env_report ≫= fun _ => throw (ProcessExit 1).

(** ** An example *)

(** An environment with a pipeline id, surrounded by blanks, and no URL. *)
Definition example_env : environment :=
  {| LLAMA_CLOUD_PIPELINE_ID := Some (utf16 " p-1 ");
     LLAMA_CLOUD_PIPELINE_URL := None;
     LLAMA_CLOUD_API_KEY := Some (utf16 "secret");
     LLAMA_CLOUD_ORGANIZATION_ID := Some (utf16 "org-1") |}.

Definition example_config : LlamaCloudConfig := load_config example_env.

(** * Lemmas *)

Lemma nonempty_true s : nonempty s = true <-> s <> [].
Proof. unfold nonempty. by rewrite negb_true_iff, bool_decide_eq_false. Qed.

Lemma nonempty_false s : nonempty s = false <-> s = [].
Proof. unfold nonempty. by rewrite negb_false_iff, bool_decide_eq_true. Qed.

(** An explicit URL wins over the pipeline id. *)
Lemma resolvedPipelineUrl_explicit url id :
  url <> [] -> resolvedPipelineUrl url id = url.
Proof. intros H%nonempty_true. unfold resolvedPipelineUrl. by rewrite H. Qed.

(** Without an explicit URL the endpoint is built around the id. *)
Lemma resolvedPipelineUrl_from_id id :
  id <> [] ->
  resolvedPipelineUrl [] id =
  utf16 "https://api.cloud.llamaindex.ai/api/v1/pipelines/" ++ id ++ utf16 "/retrieve".
Proof. intros H%nonempty_true. unfold resolvedPipelineUrl. by rewrite H. Qed.

(** The endpoint is empty exactly when neither variable gave anything. *)
Lemma resolvedPipelineUrl_nil url id :
  resolvedPipelineUrl url id = [] <-> url = [] /\ id = [].
Proof.
  unfold resolvedPipelineUrl.
  destruct (nonempty url) eqn:Hu, (nonempty id) eqn:Hi;
    rewrite ?nonempty_true, ?nonempty_false in *; subst; try done.
  - split; [done|]. by intros [? _].
  - split; [done|]. by intros [? _].
  - split; [|by intros [_ ?]]. by intros ?%(f_equal length).
Qed.

Lemma config_complete_spec cfg :
  config_complete cfg = true <->
  apiKey cfg <> [] /\ organizationId cfg <> [] /\ pipelineUrl cfg <> [].
Proof.
  unfold config_complete. rewrite !andb_true_iff, !nonempty_true. tauto.
Qed.

(** The constructor returns the loaded configuration or exits; it posts
    nothing. *)
Lemma constructor_outcome env w :
  outcome_of (constructor env) w =
  if config_complete (load_config env) then Ok (load_config env)
  else Throw (ProcessExit 1).
Proof. unfold constructor. by destruct (config_complete _). Qed.

Lemma constructor_trace env w :
  trace_of (constructor env) w =
  if config_complete (load_config env) then [] else Log <$> missing_env_report.
Proof. unfold constructor. by destruct (config_complete _). Qed.
