(* ===== verification/Upstream.v ===== *)
(** * Upstream: the retrieval client

    Models [queryLlamaCloud] (src/src/index.ts, lines 200 to 220): one POST
    to the configured endpoint, with the credential as a bearer token and
    the body [{query, similarity_top_k: 5}]; an [Error] when the status is
    not a success; otherwise the parsed JSON body.  No retry, no timeout. *)

From Stdlib Require Import String.
From S2P Require Import Prelude JsString JsNumber JsValue Runtime Config.

(** ** Operations *)

(** The object [payload] of the source. *)
Definition retrieve_payload (question : value) : value :=
  VObj [ (utf16 "query", question);
         (utf16 "similarity_top_k", VNum (num_of_Z 5)) ].

(** The arguments of the call to [fetch]. *)
Definition retrieve_request (cfg : LlamaCloudConfig) (question : value) : request :=
  {| req_url := pipelineUrl cfg;
     req_method := utf16 "POST";
     req_headers :=
       [ (utf16 "Authorization", utf16 "Bearer " ++ apiKey cfg);
         (utf16 "Content-Type", utf16 "application/json") ];
     req_body := retrieve_payload question |}.

(** The message of the [Error] raised on a status that is not a success. *)
Definition api_error_message (r : response) : jstring :=
  utf16 "LlamaCloud API error: " ++ dec_N (resp_status r) ++ utf16 " "
  ++ resp_statusText r.

Definition queryLlamaCloud (cfg : LlamaCloudConfig) (question : value) : M value :=
  fetch (retrieve_request cfg question) ≫= fun r : response =>
  if negb (resp_ok r) then throw (Error (api_error_message r))
  else lift (resp_json r).

(** A request of the client, for some question. *)
Definition is_retrieval (cfg : LlamaCloudConfig) (req : request) : Prop :=
  exists question, req = retrieve_request cfg question.

(** * Lemmas *)

Section queryLlamaCloud.
Context (cfg : LlamaCloudConfig) (question : value) (w : world).

(** The client posts exactly one request, whatever the answer. *)
Lemma queryLlamaCloud_trace :
  trace_of (queryLlamaCloud cfg question) w = [Fetch (retrieve_request cfg question)].
Proof.
  unfold queryLlamaCloud. rewrite trace_bind, trace_fetch, outcome_fetch.
  destruct (upstream w _) as [r|e]; simpl; [|done]. by destruct (resp_ok r).
Qed.

(** Its outcome, case by case: the exception of [fetch]; the [Error] built
    from the status; the outcome of [json()]. *)
Lemma queryLlamaCloud_outcome :
  outcome_of (queryLlamaCloud cfg question) w =
  match upstream w (retrieve_request cfg question) with
  | Throw e => Throw e
  | Ok r => if resp_ok r then resp_json r else Throw (Error (api_error_message r))
  end.
Proof.
  unfold queryLlamaCloud. rewrite outcome_bind, outcome_fetch.
  destruct (upstream w _) as [r|e]; simpl; [|done]. by destruct (resp_ok r).
Qed.

End queryLlamaCloud.

(** A status that is not a success is an [Error] with the status in its
    message, and the body is not read. *)
Lemma queryLlamaCloud_status_error cfg question w r :
  upstream w (retrieve_request cfg question) = Ok r -> resp_ok r = false ->
  outcome_of (queryLlamaCloud cfg question) w =
  Throw (Error (utf16 "LlamaCloud API error: " ++ dec_N (resp_status r)
                ++ utf16 " " ++ resp_statusText r)).
Proof. intros Hr Hok. by rewrite queryLlamaCloud_outcome, Hr, Hok. Qed.

(** In a world where no library ends the process, the client does not
    either. *)
Lemma queryLlamaCloud_no_exit cfg question w :
  well_behaved w -> no_exit (outcome_of (queryLlamaCloud cfg question) w).
Proof.
  intros Hw c. rewrite queryLlamaCloud_outcome.
  destruct (upstream w _) as [r|e] eqn:E.
  - destruct (resp_ok r); [|done]. by eapply json_no_exit.
  - intros [= ->]. by eapply (upstream_no_exit _ Hw), E.
Qed.

(** What a request of the client carries: the endpoint and the credential
    of the configuration, and the count 5. *)
Lemma is_retrieval_spec cfg req :
  is_retrieval cfg req ->
  req_url req = pipelineUrl cfg /\
  req_method req = utf16 "POST" /\
  req_headers req = [ (utf16 "Authorization", utf16 "Bearer " ++ apiKey cfg);
                      (utf16 "Content-Type", utf16 "application/json") ] /\
  lookup_prop (utf16 "similarity_top_k")
    match req_body req with VObj props => props | _ => [] end
  = VNum (num_of_Z 5).
Proof. by intros [q ->]. Qed.

#[export] Hint Rewrite queryLlamaCloud_trace queryLlamaCloud_outcome : js_simpl.

(** * Properties of the client *)

(** C11 (functional).  The client posts exactly one request, to the
    configured endpoint with the credential as a bearer token and the body
    [{query, similarity_top_k: 5}], whatever happens next.  It raises what
    [fetch] raised, or an error with the status code and text when the
    status is not a success, and otherwise returns what [json()] gives. *)
Theorem retrieve_contract cfg question w :
  trace_of (queryLlamaCloud cfg question) w =
    [Fetch {| req_url := pipelineUrl cfg;
              req_method := utf16 "POST";
              req_headers :=
                [ (utf16 "Authorization", utf16 "Bearer " ++ apiKey cfg);
                  (utf16 "Content-Type", utf16 "application/json") ];
              req_body := VObj [ (utf16 "query", question);
                                 (utf16 "similarity_top_k", VNum (num_of_Z 5)) ] |}]
  /\ outcome_of (queryLlamaCloud cfg question) w =
     match upstream w (retrieve_request cfg question) with
     | Throw e => Throw e
     | Ok r =>
       if resp_ok r then resp_json r
       else Throw (Error (utf16 "LlamaCloud API error: " ++ dec_N (resp_status r)
                          ++ utf16 " " ++ resp_statusText r))
     end.
Proof.
  rewrite queryLlamaCloud_trace, queryLlamaCloud_outcome.
  unfold retrieve_request, retrieve_payload, api_error_message. by split.
Qed.
