(* ===== verification/Normalizer.v ===== *)
(** * Normalizer: from a retrieved node to the fields of a record

    [queryRAG] and [searchDocuments] build their records with the same four
    expressions, written out four times in src/src/index.ts (lines 247 to
    252, 256 to 261, 301 to 307 and 309 to 315).  This file models each
    expression once, on an arbitrary value [node]:

    - [node_filename]: [node.metadata?.file_name || node.metadata?.filename
      || `Document ${index + 1}`];
    - [node_score]: [node.score || 0];
    - [node_text]: [node.text || node.content || ""];
    - [node_preview]: [(node.text || node.content || "").substring(0, n) +
      "..."];

    and [extract_nodes], the [map] and [filter] that take the nodes out of
    [retrieval_nodes].  None of the expressions tests a type: the lemmas say
    when each returns and what it raises otherwise. *)

From Stdlib Require Import String.
From S2P Require Import Prelude JsString JsNumber JsValue.

(** ** Operations *)

(** The fallback name of the node at position [index]. *)
Definition document_label (index : nat) : jstring :=
  utf16 "Document " ++ dec (index + 1).

Definition node_filename (index : nat) (node : value) : outcome value :=
  get node F_metadata ≫= fun m : value =>
  if truthy (get_opt m F_file_name) then Ok (get_opt m F_file_name)
  else
    get node F_metadata ≫= fun m' : value =>
    Ok (or_else (get_opt m' F_filename) (VStr (document_label index))).

Definition node_score (node : value) : outcome value :=
  get node F_score ≫= fun s : value => Ok (or_else s (VNum (num_of_Z 0))).

Definition node_text (node : value) : outcome value :=
  get node F_text ≫= fun t : value =>
  if truthy t then Ok t
  else get node F_content ≫= fun c : value => Ok (or_else c (VStr [])).

(** The marker appended to every preview. *)
Definition ellipsis : jstring := utf16 "...".

Definition node_preview (budget : nat) (node : value) : outcome jstring :=
  node_text node ≫= fun t : value =>
  call_substring0 budget t ≫= fun p : jstring => Ok (p ++ ellipsis).

(** [retrieval_nodes.map((item) => item.node).filter((node) => node)] *)
Definition extract_nodes (items : list value) : outcome (list value) :=
  mapM (fun item => get item F_node) items ≫= fun nodes : list value =>
  Ok (List.filter truthy nodes).

(** [score?.toFixed(2) || 'n/a'], as the two templates print it (lines
    277 and 330). *)
Definition relevance (sc : value) : outcome jstring :=
  call_toFixed_opt sc ≫= fun r : value =>
  to_string (or_else r (VStr (utf16 "n/a"))).

(** The nodes of a list of items none of which is null: the [node]
    properties that count as true, in order. *)
Definition nodes_of (items : list value) : list value :=
  List.filter truthy ((fun item => get_opt item F_node) <$> items).

(** ** Nodes as the specification describes them *)

(** The text of a node that is not null, as a value. *)
Definition text_value (node : value) : value :=
  or_else (get_opt node F_text) (or_else (get_opt node F_content) (VStr [])).

(** A node whose text, if it has one, is a string. *)
Definition text_is_string (node : value) : bool :=
  match text_value node with
  | VStr _ => true
  | _ => false
  end.

(** The text of such a node. *)
Definition text_string (node : value) : jstring :=
  match text_value node with
  | VStr s => s
  | _ => []
  end.

(** A node that is an object or another value that is not null, with a
    string for text: what the lemmas on the handlers ask of a node. *)
Definition node_ok (node : value) : Prop :=
  nullish node = false /\ text_is_string node = true.

(** * Lemmas *)

(** ** On a node that is not null or undefined

    The three field expressions return, and their values are decided by
    [||] alone. *)

Section defined_node.
Context (node : value) (Hnode : nullish node = false).

Lemma node_filename_defined index :
  node_filename index node =
  Ok (or_else (get_opt (get_opt node F_metadata) F_file_name)
        (or_else (get_opt (get_opt node F_metadata) F_filename)
           (VStr (document_label index)))).
Proof.
  unfold node_filename. rewrite get_Ok, !bind_Ok_l by done.
  unfold or_else. by destruct (truthy (get_opt _ F_file_name)).
Qed.

Lemma node_score_defined :
  node_score node = Ok (or_else (get_opt node F_score) (VNum (num_of_Z 0))).
Proof. unfold node_score. by rewrite get_Ok. Qed.

Lemma node_text_defined :
  node_text node =
  Ok (or_else (get_opt node F_text) (or_else (get_opt node F_content) (VStr []))).
Proof.
  unfold node_text. rewrite !get_Ok, !bind_Ok_l by done.
  unfold or_else. by destruct (truthy (get_opt node F_text)).
Qed.

End defined_node.

(** ** On null and undefined: the first property read raises *)

Lemma node_filename_nullish index node :
  nullish node = true ->
  node_filename index node = Throw (TypeError (ReadOfNullish (utf16 "metadata"))).
Proof. unfold node_filename, get. by intros ->. Qed.

Lemma node_filename_Ok index node v :
  node_filename index node = Ok v -> nullish node = false.
Proof.
  destruct (nullish node) eqn:E; [|done].
  by rewrite node_filename_nullish.
Qed.

(** ** The file name *)

Lemma document_label_nonempty index : document_label index <> [].
Proof. unfold document_label. by intros ?%(f_equal length). Qed.

(** Whatever the node, its file name is a value that counts as true: the
    label is the last resort and is never empty. *)
Lemma node_filename_truthy index node v :
  node_filename index node = Ok v -> truthy v = true.
Proof.
  intros H. pose proof (node_filename_Ok _ _ _ H) as Hn.
  rewrite node_filename_defined in H by done. injection H as <-.
  unfold or_else. destruct (truthy (get_opt _ F_file_name)) eqn:E1; [done|].
  destruct (truthy (get_opt _ F_filename)) eqn:E2; [done|].
  apply truthy_str, document_label_nonempty.
Qed.

(** Distinct positions have distinct labels. *)
Lemma document_label_inj i j : document_label i = document_label j -> i = j.
Proof.
  unfold document_label. intros H%app_inv_head%dec_inj. lia.
Qed.

(** ** The score *)

(** The score of a record is the zero of the fallback or a value that
    counts as true; in particular it is never [null] or [undefined]. *)
Lemma node_score_shape node v :
  node_score node = Ok v -> v = VNum (num_of_Z 0) \/ truthy v = true.
Proof.
  unfold node_score. intros (s & _ & [= <-])%bind_Ok.
  unfold or_else. destruct (truthy s) eqn:E; auto.
Qed.

Lemma node_score_not_nullish node v : node_score node = Ok v -> nullish v = false.
Proof. intros [->|?%truthy_not_nullish]%node_score_shape; done. Qed.

(** The relevance of a score that [node_score] produced: the digits of a
    number, or the TypeError of [toFixed]; the alternative 'n/a' is never
    taken, because such a score is never null or undefined and [toFixed]
    never returns the empty string. *)
Lemma relevance_defined sc :
  nullish sc = false ->
  relevance sc =
  match sc with
  | VNum x => Ok (to_fixed 2 x)
  | _ => Throw (TypeError (NotAFunction (utf16 "toFixed")))
  end.
Proof.
  intros Hsc. unfold relevance. destruct sc; try done. simpl.
  unfold or_else. simpl. by rewrite bool_decide_eq_false_2 by apply to_fixed_nonempty.
Qed.

(** The relevance that is printed is never the alternative. *)
Lemma relevance_not_na sc rel :
  nullish sc = false -> relevance sc = Ok rel -> rel <> utf16 "n/a".
Proof.
  intros Hsc. rewrite relevance_defined by done.
  destruct sc; try done. intros [= <-]. apply to_fixed_not_na.
Qed.

(** ** The preview *)

(** A preview is the first [budget] code units of the text of the node,
    which has to be a string, followed by the marker. *)
Lemma node_preview_Ok budget node p :
  node_preview budget node = Ok p <->
  exists s, node_text node = Ok (VStr s) /\ p = substring0 budget s ++ ellipsis.
Proof.
  unfold node_preview. rewrite bind_Ok. split.
  - intros (t & Ht & (q & (s & -> & ->)%call_substring0_Ok & [= <-])%bind_Ok). eauto.
  - intros (s & Hs & ->). exists (VStr s). split; [done|]. done.
Qed.

Lemma node_preview_length budget node p :
  node_preview budget node = Ok p -> length p <= budget + 3.
Proof.
  intros (s & _ & ->)%node_preview_Ok.
  rewrite length_app, substring0_length. simpl. lia.
Qed.

Lemma node_preview_suffix budget node p :
  node_preview budget node = Ok p -> ellipsis `suffix_of` p.
Proof. intros (s & _ & ->)%node_preview_Ok. by apply suffix_app_r. Qed.

(** The marker is appended also when nothing was cut. *)
Lemma node_preview_short budget node s :
  node_text node = Ok (VStr s) -> length s <= budget ->
  node_preview budget node = Ok (s ++ ellipsis).
Proof.
  intros Hs Hlen. apply node_preview_Ok. exists s.
  by rewrite substring0_short.
Qed.

Lemma text_is_string_spec node :
  text_is_string node = true <-> text_value node = VStr (text_string node).
Proof.
  unfold text_is_string, text_string. by destruct (text_value node).
Qed.

(** The text is never [null] or [undefined]: the empty string is the last
    resort. *)
Lemma text_value_not_nullish node : nullish (text_value node) = false.
Proof.
  unfold text_value, or_else.
  destruct (truthy (get_opt node F_text)) eqn:E1; [by apply truthy_not_nullish|].
  destruct (truthy (get_opt node F_content)) eqn:E2; [by apply truthy_not_nullish|done].
Qed.

(** On a node that is not null, the preview is cut from the text when the
    text is a string, and [substring] is not a function of anything else. *)
Lemma node_preview_defined budget node :
  nullish node = false ->
  node_preview budget node =
  if text_is_string node then Ok (substring0 budget (text_string node) ++ ellipsis)
  else Throw (TypeError (NotAFunction (utf16 "substring"))).
Proof.
  intros Hn. unfold node_preview. rewrite node_text_defined by done.
  fold (text_value node). unfold text_is_string, text_string.
  pose proof (text_value_not_nullish node). by destruct (text_value node).
Qed.

(** ** Taking the nodes out of [retrieval_nodes] *)

(** On items none of which is [null], the nodes are the [node] properties
    that count as true, in order. *)
Lemma extract_nodes_defined items :
  Forall (fun item => nullish item = false) items ->
  extract_nodes items = Ok (nodes_of items).
Proof.
  intros H. unfold extract_nodes.
  rewrite (mapM_pure _ (fun item => get_opt item F_node)); [done|].
  eapply Forall_impl; [exact H|]. intros item. apply get_Ok.
Qed.

(** The [map] returns only if no item is [null] or [undefined]. *)
Lemma extract_nodes_Ok items nodes :
  extract_nodes items = Ok nodes <->
  Forall (fun item => nullish item = false) items /\ nodes = nodes_of items.
Proof.
  split; [|by intros [H ->]; apply extract_nodes_defined].
  intros H. assert (Forall (fun item => nullish item = false) items) as Hi.
  { apply bind_Ok in H as (ns & Hns%mapM_Ok & _).
    induction Hns as [|x y ? ? Hx _ IH]; constructor; [|done].
    unfold get in Hx. by destruct (nullish x). }
  split; [done|]. rewrite extract_nodes_defined in H by done. by injection H.
Qed.

(** A [null] among the items is not dropped: reading its [node] raises. *)
Lemma extract_nodes_null items1 item items2 :
  Forall (fun item => nullish item = false) items1 -> nullish item = true ->
  extract_nodes (items1 ++ item :: items2) =
  Throw (TypeError (ReadOfNullish (utf16 "node"))).
Proof.
  intros H1 H. unfold extract_nodes.
  erewrite mapM_Throw; [done| |].
  - apply mapM_pure with (g := fun item => get_opt item F_node).
    eapply Forall_impl; [exact H1|]. intros x. apply get_Ok.
  - unfold get. by rewrite H.
Qed.

(** Wherever the [null] stands among the items. *)
Lemma extract_nodes_some_null items :
  Exists (fun item => nullish item = true) items ->
  extract_nodes items = Throw (TypeError (ReadOfNullish (utf16 "node"))).
Proof.
  intros H. unfold extract_nodes. erewrite mapM_Exists_Throw; [done| |].
  - intros x e. unfold get. by destruct (nullish x); [intros [= <-]|].
  - eapply Exists_impl; [exact H|]. intros x Hx. unfold get. by rewrite Hx.
Qed.

(** What [extract_nodes] returns counts as true, so no node is [null]. *)
Lemma extract_nodes_truthy items nodes :
  extract_nodes items = Ok nodes -> Forall (fun n => truthy n = true) nodes.
Proof.
  unfold extract_nodes. intros (ns & _ & [= <-])%bind_Ok.
  apply Forall_filter_bool.
Qed.

Lemma extract_nodes_length items nodes :
  extract_nodes items = Ok nodes -> length nodes <= length items.
Proof.
  unfold extract_nodes. intros (ns & Hns%mapM_Ok_length & [= <-])%bind_Ok.
  rewrite <- Hns. apply length_filter_le.
Qed.

(** ** What the expressions raise *)

Lemma node_filename_raises index node : raises is_type_error (node_filename index node).
Proof. unfold node_filename. solve_raises. Qed.

Lemma node_score_raises node : raises is_type_error (node_score node).
Proof. unfold node_score. solve_raises. Qed.

Lemma node_text_raises node : raises is_type_error (node_text node).
Proof. unfold node_text. solve_raises. Qed.

Lemma node_preview_raises budget node : raises is_type_error (node_preview budget node).
Proof. unfold node_preview. pose proof node_text_raises. solve_raises. Qed.

Lemma extract_nodes_raises items : raises is_type_error (extract_nodes items).
Proof. unfold extract_nodes. solve_raises. Qed.

Lemma relevance_raises sc : raises is_type_error (relevance sc).
Proof. unfold relevance. solve_raises. Qed.

#[export] Hint Resolve node_filename_truthy node_score_not_nullish
  extract_nodes_truthy : js.
#[export] Hint Resolve node_filename_raises node_score_raises node_text_raises
  node_preview_raises extract_nodes_raises : js.
