(* ===== verification/QueryRag.v ===== *)
(** * QueryRag: the handler of [query_rag]

    Models [queryRAG] (src/src/index.ts, lines 222 to 281) and the record
    [QueryResult] (lines 22 to 32).  The handler logs the question, asks the
    pipeline, builds an answer and a list of sources from whatever came
    back, logs the count and renders one text block.

    - [process_query] is the middle part (lines 228 to 269): the branch on
      [retrieval_nodes], the composed answer of the new format, the answer
      and sources of the legacy format.
    - [render_query] is the template literal of line 277.
    - [queryRAG] is the whole handler, with its two log lines and its one
      request, in the order of the source. *)

From Stdlib Require Import String.
From S2P Require Import Prelude JsString JsNumber JsValue Runtime.
From S2P Require Import Config Upstream Normalizer.

(** ** Data *)

(** An element of [sources].  [filename] and [score] hold what the node
    had: any value that counts as true, or the fallback. *)
Record source : Type := {
  id : nat;
  filename : value;
  score : value;
  preview : jstring;
}.

Record QueryResult : Type := {
  answer : value;
  sources : list source;
  total_sources : nat;
  query : value;
}.

(** ** Building the result *)

(** The callback of [map] that builds one source (lines 247 to 252 and 256
    to 261). *)
Definition source_of_node (index : nat) (node : value) : outcome source :=
  node_filename index node ≫= fun fn : value =>
  node_score node ≫= fun sc : value =>
  node_preview 150 node ≫= fun pv : jstring =>
  Ok {| id := index + 1; filename := fn; score := sc; preview := pv |}.

(** The test of the context filter: [text.trim()] as a condition. *)
Definition is_context (t : value) : outcome bool :=
  call_trim t ≫= fun s : jstring => Ok (truthy (VStr s)).

Definition answer_intro : jstring :=
  utf16 "Based on the found documents:" ++ nl ++ nl.

Definition context_separator : jstring :=
  nl ++ nl ++ utf16 "---" ++ nl ++ nl.

(** The answer of the new format (lines 228 and 235 to 245): the first
    three texts that are not blank, joined; empty without any. *)
Definition compose_answer (nodes : list value) : outcome jstring :=
  if bool_decide (0 < length nodes) then
    mapM node_text nodes ≫= fun texts : list value =>
    filterM is_context texts ≫= fun kept : list value =>
    let contexts := take 3 kept in
    if bool_decide (0 < length contexts) then
      array_join context_separator contexts ≫= fun joined : jstring =>
      Ok (answer_intro ++ joined)
    else Ok []
  else Ok [].

(** [data.answer || data.response || "No answer received."] *)
Definition legacy_answer (data : value) : outcome value :=
  get data F_answer ≫= fun a : value =>
  if truthy a then Ok a
  else
    get data F_response ≫= fun r : value =>
    Ok (or_else r (VStr (utf16 "No answer received."))).

(** [data.source_nodes || data.sources || []] *)
Definition legacy_nodes (data : value) : outcome value :=
  get data F_source_nodes ≫= fun a : value =>
  if truthy a then Ok a
  else get data F_sources ≫= fun b : value => Ok (or_else b (VArr [])).

(** Lines 228 to 269: from the answer of the pipeline to the result. *)
Definition process_query (data question : value) : outcome QueryResult :=
  get data F_retrieval_nodes ≫= fun rn : value =>
  (if truthy rn && is_array rn then
     array_receiver rn ≫= fun items : list value =>
     extract_nodes items ≫= fun nodes : list value =>
     compose_answer nodes ≫= fun ans : jstring =>
     imapM source_of_node nodes ≫= fun srcs : list source =>
     Ok (VStr ans, srcs)
   else
     legacy_answer data ≫= fun ans : value =>
     legacy_nodes data ≫= fun arr : value =>
     array_receiver arr ≫= fun items : list value =>
     imapM source_of_node items ≫= fun srcs : list source =>
     Ok (ans, srcs)) ≫= fun r : value * list source =>
  Ok {| answer := r.1; sources := r.2; total_sources := length r.2;
        query := question |}.

(** ** Rendering *)

(** One line pair of the source list. *)
Definition render_source (s : source) : outcome jstring :=
  to_string (filename s) ≫= fun fn : jstring =>
  relevance (score s) ≫= fun rel : jstring =>
  Ok (dec (id s) ++ utf16 ". " ++ fn ++ utf16 " (relevance: " ++ rel
      ++ utf16 ")" ++ nl ++ utf16 "   " ++ preview s).

(** The template literal of line 277. *)
Definition render_query (r : QueryResult) : outcome jstring :=
  to_string (answer r) ≫= fun ans : jstring =>
  mapM render_source (sources r) ≫= fun lines : list jstring =>
  Ok (utf16 "**Answer:** " ++ ans ++ nl ++ nl ++ utf16 "**Sources ("
      ++ dec (total_sources r) ++ utf16 "):**" ++ nl ++ join nl lines).

(** ** The handler *)

Definition queryRAG (cfg : LlamaCloudConfig) (question : value) : M CallToolResult :=
  lift (to_string question) ≫= fun q : jstring =>
  log (utf16 "🔍 Querying RAG: " ++ q) ≫= fun _ : unit =>
  queryLlamaCloud cfg question ≫= fun data : value =>
  lift (process_query data question) ≫= fun result : QueryResult =>
  log (utf16 "✅ Query processed, found " ++ dec (length (sources result))
       ++ utf16 " sources") ≫= fun _ : unit =>
  lift (render_query result) ≫= fun text : jstring =>
  mret {| content := [TextContent text] |}.

(** ** Nodes as the specification describes them *)

(** The source of a node that is as the specification describes it
    ([node_ok]) at position [index]: the fields as [||]
    decides them, the preview cut at 150 code units. *)
Definition source_record (index : nat) (node : value) : source :=
  {| id := index + 1;
     filename :=
       or_else (get_opt (get_opt node F_metadata) F_file_name)
         (or_else (get_opt (get_opt node F_metadata) F_filename)
            (VStr (document_label index)));
     score := or_else (get_opt node F_score) (VNum (num_of_Z 0));
     preview := substring0 150 (text_string node) ++ ellipsis |}.

(** The contexts of the answer, on the texts of the nodes: the first
    three that are not blank. *)
Definition contexts_of (texts : list jstring) : list jstring :=
  take 3 (List.filter (fun s => negb (blank s)) texts).

(** The composed answer, on the texts of the nodes. *)
Definition answer_of (texts : list jstring) : jstring :=
  match contexts_of texts with
  | [] => []
  | ctx => answer_intro ++ join context_separator ctx
  end.

(** ** What the handler promises

    The result of the new format on the nodes of the payload, and of the
    legacy format on its answer and nodes, as functions with no exception:
    [process_query] is proved equal to them exactly where it returns. *)

Definition new_format_result (nodes : list value) (question : value) : QueryResult :=
  {| answer := VStr (answer_of (text_string <$> nodes));
     sources := imap source_record nodes;
     total_sources := length nodes;
     query := question |}.

(** [data.answer || data.response || "No answer received."], on a body
    that is not null. *)
Definition legacy_answer_value (data : value) : value :=
  or_else (get_opt data F_answer)
    (or_else (get_opt data F_response) (VStr (utf16 "No answer received."))).

(** [data.source_nodes || data.sources || []], on a body that is not null. *)
Definition legacy_nodes_value (data : value) : value :=
  or_else (get_opt data F_source_nodes)
    (or_else (get_opt data F_sources) (VArr [])).

Definition legacy_result (data : value) (nodes : list value) (question : value)
  : QueryResult :=
  {| answer := legacy_answer_value data;
     sources := imap source_record nodes;
     total_sources := length nodes;
     query := question |}.

(** A body that is neither format: no array under [retrieval_nodes], and
    nothing that counts as true under the four legacy names. *)
Definition unrecognized (data : value) : bool :=
  negb (nullish data)
  && negb (is_array (get_opt data F_retrieval_nodes))
  && negb (truthy (get_opt data F_answer) || truthy (get_opt data F_response))
  && negb (truthy (get_opt data F_source_nodes) || truthy (get_opt data F_sources)).

(** What such a body gives: the sentinel and no source. *)
Definition no_answer_result (question : value) : QueryResult :=
  {| answer := VStr (utf16 "No answer received."); sources := [];
     total_sources := 0; query := question |}.

(** ** Example payloads *)

(** A node with a text, the score 0.9 and a file name. *)
Definition example_node : value :=
  jobj [("text"%string, jstr "DBMS basics");
        ("score"%string, VNum (num_decimal 9 (-1)));
        ("metadata"%string, jobj [("file_name"%string, jstr "intro.pdf")])].

(** The new format with that node. *)
Definition example_items : list value := [jobj [("node"%string, example_node)]].

Definition example_new_format : value :=
  jobj [("retrieval_nodes"%string, VArr example_items)].

(** Two legacy nodes, the second with neither a name nor a score nor a
    text. *)
Definition example_legacy_nodes : list value :=
  [ jobj [("text"%string, jstr "chapter one");
          ("score"%string, VNum (num_decimal 5 (-1)));
          ("metadata"%string, jobj [("filename"%string, jstr "book.pdf")])];
    jobj [] ].

(** The legacy format: a response, no answer, and the two nodes. *)
Definition example_legacy : value :=
  jobj [("response"%string, jstr "A DBMS stores data.");
        ("source_nodes"%string, VArr example_legacy_nodes)].

(** The new format with a [null] among the items. *)
Definition example_null_item : value :=
  jobj [("retrieval_nodes"%string,
         VArr [jobj [("node"%string, jobj [("text"%string, jstr "a")])];
               VNull])].

(** Nodes whose texts are blank or missing. *)
Definition example_blank_nodes : list value :=
  [jobj [("text"%string, VStr (utf16 "  " ++ nl))]; jobj []].

(** Three nodes with a text each. *)
Definition example_three_nodes : list value :=
  [jobj [("text"%string, jstr "a")]; jobj [("content"%string, jstr "b")];
   jobj [("text"%string, jstr "c")]].

(** The new format with four nodes that have a text each. *)
Definition example_four_items : list value :=
  (fun n => jobj [("node"%string, n)]) <$> (example_three_nodes ++ [example_node]).

Definition example_four_format : value :=
  jobj [("retrieval_nodes"%string, VArr example_four_items)].

(** * Lemmas *)

(** ** One source *)

(** A source is built exactly from a node that is not null and whose text
    is a string; its fields are then decided by [||] and the budget. *)
Lemma source_of_node_Ok index node s :
  source_of_node index node = Ok s <->
  node_ok node /\ s = source_record index node.
Proof.
  unfold source_of_node, node_ok, source_record. split.
  - intros (fn & Hfn & (sc & Hsc & (pv & Hpv & [= <-])%bind_Ok)%bind_Ok)%bind_Ok.
    pose proof (node_filename_Ok _ _ _ Hfn) as Hn.
    rewrite node_filename_defined in Hfn by done.
    rewrite node_score_defined in Hsc by done.
    apply node_preview_Ok in Hpv as (t & Ht & ->).
    rewrite node_text_defined in Ht by done. injection Ht as Ht.
    unfold text_is_string, text_string, text_value. rewrite Ht.
    by simplify_eq.
  - intros ([Hn Ht%text_is_string_spec] & ->).
    rewrite node_filename_defined, node_score_defined by done.
    rewrite !bind_Ok_l.
    assert (node_preview 150 node
            = Ok (substring0 150 (text_string node) ++ ellipsis)) as ->; [|done].
    apply node_preview_Ok. exists (text_string node).
    by rewrite node_text_defined; [fold (text_value node); rewrite Ht|].
Qed.

(** The exception of a node whose text is not a string: [substring] is
    not a function of it. *)
Lemma source_of_node_not_string index node :
  nullish node = false -> text_is_string node = false ->
  source_of_node index node = Throw (TypeError (NotAFunction (utf16 "substring"))).
Proof.
  intros Hn Ht. unfold source_of_node, node_preview.
  rewrite node_filename_defined, node_score_defined, node_text_defined by done.
  rewrite !bind_Ok_l. fold (text_value node). unfold text_is_string in Ht.
  pose proof (text_value_not_nullish node).
  by destruct (text_value node).
Qed.

Lemma source_of_node_id index node s :
  source_of_node index node = Ok s -> id s = S index.
Proof. intros (_ & ->)%source_of_node_Ok. simpl. lia. Qed.

(** ** The list of sources *)

(** The ordinals of the sources are 1, 2, ... in the order of the nodes. *)
Lemma sources_ids nodes srcs :
  imapM source_of_node nodes = Ok srcs ->
  id <$> srcs = seq 1 (length nodes) /\ length srcs = length nodes.
Proof.
  intros H. split; [|by eapply imapM_from_length].
  rewrite <- fmap_S_seq.
  eapply imapM_from_project; [|exact H]. apply source_of_node_id.
Qed.

(** On nodes that are not null and have string texts, every node gives
    its source. *)
Lemma sources_defined nodes :
  Forall node_ok nodes ->
  imapM source_of_node nodes = Ok (imap source_record nodes).
Proof.
  intros H. unfold imapM. apply (imapM_from_pure _ source_record 0).
  intros j n Hj. apply source_of_node_Ok.
  rewrite Forall_lookup in H. eauto.
Qed.

(** The first node that is not as the specification describes decides the
    exception, and no source is returned. *)
Lemma sources_Ok nodes srcs :
  imapM source_of_node nodes = Ok srcs -> Forall node_ok nodes.
Proof.
  intros H. apply Forall_lookup. intros j n Hj.
  destruct (imapM_from_lookup _ _ _ _ _ _ H Hj) as (s & _ & Hs).
  by apply source_of_node_Ok in Hs as [? _].
Qed.

(** ** The composed answer *)

(** A string is a context exactly when it is not blank. *)
Lemma is_context_str s : is_context (VStr s) = Ok (negb (blank s)).
Proof.
  unfold is_context, call_trim. simpl. do 2 f_equal.
  destruct (blank s) eqn:E.
  - by apply bool_decide_eq_true, trim_nil.
  - apply bool_decide_eq_false. rewrite trim_nil. congruence.
Qed.

(** A text that is not a string stops the filter: [trim] is not a function
    of it. *)
Lemma is_context_not_string node :
  text_is_string node = false ->
  is_context (text_value node) = Throw (TypeError (NotAFunction (utf16 "trim"))).
Proof.
  unfold text_is_string. pose proof (text_value_not_nullish node).
  by destruct (text_value node).
Qed.

Lemma node_texts_defined nodes :
  Forall node_ok nodes ->
  mapM node_text nodes = Ok (VStr <$> (text_string <$> nodes)).
Proof.
  intros H. rewrite <- list_fmap_compose. apply mapM_pure.
  eapply Forall_impl; [exact H|]. intros n [Hn Ht%text_is_string_spec].
  rewrite node_text_defined by done. fold (text_value n). by rewrite Ht.
Qed.

Lemma contexts_defined texts :
  filterM is_context (VStr <$> texts)
  = Ok (VStr <$> List.filter (fun s => negb (blank s)) texts).
Proof.
  rewrite (filterM_pure _ (fun v => match v with
                                    | VStr s => negb (blank s)
                                    | _ => false
                                    end)).
  - by rewrite filter_map_swap.
  - apply Forall_fmap, Forall_true. intros s. apply is_context_str.
Qed.

(** On nodes with string texts the answer is composed from the texts
    alone. *)
Lemma compose_answer_defined nodes :
  Forall node_ok nodes ->
  compose_answer nodes = Ok (answer_of (text_string <$> nodes)).
Proof.
  intros H. unfold compose_answer, answer_of, contexts_of.
  case_bool_decide as Hlen.
  - rewrite node_texts_defined, bind_Ok_l, contexts_defined, bind_Ok_l by done.
    rewrite <- fmap_take, length_fmap.
    destruct (take 3 _) as [|c ctx] eqn:E; [done|].
    rewrite bool_decide_eq_true_2 by (simpl; lia).
    by rewrite array_join_strings.
  - by destruct nodes; [|simpl in Hlen; lia].
Qed.

(** The answer uses at most three contexts, none of them blank. *)
Lemma contexts_of_spec texts :
  length (contexts_of texts) <= 3 /\
  Forall (fun s => blank s = false) (contexts_of texts).
Proof.
  unfold contexts_of. split; [apply length_take_bound|].
  apply Forall_take. eapply Forall_impl; [apply Forall_filter_bool|].
  intros s. apply negb_true_iff.
Qed.

(** The answer is empty exactly when every text is blank. *)
Lemma answer_of_nil texts :
  answer_of texts = [] <-> Forall (fun s => blank s = true) texts.
Proof.
  unfold answer_of, contexts_of.
  induction texts as [|s texts IH]; simpl; [done|].
  destruct (blank s) eqn:E; simpl.
  - rewrite IH. split; [by constructor|by inversion 1].
  - split; [by intros ?%(f_equal length)|]. inversion 1; congruence.
Qed.

(** ** The result, branch by branch *)

Section process_query.
Context (data question : value) (Hdata : nullish data = false).

(** With an array under [retrieval_nodes], the new format. *)
Lemma process_query_new_format items :
  get_opt data F_retrieval_nodes = VArr items ->
  process_query data question =
  extract_nodes items ≫= fun nodes =>
  compose_answer nodes ≫= fun ans =>
  imapM source_of_node nodes ≫= fun srcs =>
  Ok {| answer := VStr ans; sources := srcs; total_sources := length srcs;
        query := question |}.
Proof.
  intros Hrn. unfold process_query. rewrite get_Ok, bind_Ok_l, Hrn by done.
  simpl. destruct (extract_nodes items); simpl; [|done].
  destruct (compose_answer _); simpl; [|done]. by destruct (imapM _ _).
Qed.

(** With anything else there, the legacy format. *)
Lemma process_query_legacy :
  is_array (get_opt data F_retrieval_nodes) = false ->
  process_query data question =
  legacy_answer data ≫= fun ans =>
  legacy_nodes data ≫= fun arr =>
  array_receiver arr ≫= fun items =>
  imapM source_of_node items ≫= fun srcs =>
  Ok {| answer := ans; sources := srcs; total_sources := length srcs;
        query := question |}.
Proof.
  intros Hrn. unfold process_query. rewrite get_Ok, bind_Ok_l, Hrn by done.
  rewrite andb_false_r.
  destruct (legacy_answer data); simpl; [|done].
  destruct (legacy_nodes data); simpl; [|done].
  destruct (array_receiver _); simpl; [|done]. by destruct (imapM _ _).
Qed.

Lemma legacy_answer_defined :
  legacy_answer data =
  Ok (or_else (get_opt data F_answer)
        (or_else (get_opt data F_response) (VStr (utf16 "No answer received.")))).
Proof.
  unfold legacy_answer. rewrite !get_Ok, !bind_Ok_l by done.
  unfold or_else. by destruct (truthy (get_opt data F_answer)).
Qed.

Lemma legacy_nodes_defined :
  legacy_nodes data =
  Ok (or_else (get_opt data F_source_nodes)
        (or_else (get_opt data F_sources) (VArr []))).
Proof.
  unfold legacy_nodes. rewrite !get_Ok, !bind_Ok_l by done.
  unfold or_else. by destruct (truthy (get_opt data F_source_nodes)).
Qed.

End process_query.

(** A body that is [null] has no property to read. *)
Lemma process_query_null data question :
  nullish data = true ->
  process_query data question =
  Throw (TypeError (ReadOfNullish (utf16 "retrieval_nodes"))).
Proof. intros H. unfold process_query, get. by rewrite H. Qed.

Lemma process_query_Ok_data data question r :
  process_query data question = Ok r -> nullish data = false.
Proof.
  destruct (nullish data) eqn:E; [|done]. by rewrite process_query_null.
Qed.

(** ** When the result is returned, and what it is *)

Section success.
Context (data question : value) (Hdata : nullish data = false).

Lemma process_query_new_format_Ok items r :
  get_opt data F_retrieval_nodes = VArr items ->
  process_query data question = Ok r <->
  Forall (fun item => nullish item = false) items /\
  Forall node_ok (nodes_of items) /\
  r = new_format_result (nodes_of items) question.
Proof.
  intros Hrn. rewrite (process_query_new_format _ _ Hdata _ Hrn). split.
  - intros (nodes & [Hi ->]%extract_nodes_Ok
            & (ans & Hans & (srcs & Hs & [= <-])%bind_Ok)%bind_Ok)%bind_Ok.
    pose proof (sources_Ok _ _ Hs) as Hok.
    rewrite compose_answer_defined in Hans by done. injection Hans as <-.
    rewrite sources_defined in Hs by done. injection Hs as <-.
    unfold new_format_result. by rewrite length_imap.
  - intros (Hi & Hok & ->).
    rewrite extract_nodes_defined, bind_Ok_l, compose_answer_defined,
      bind_Ok_l, sources_defined, bind_Ok_l by done.
    unfold new_format_result. by rewrite length_imap.
Qed.

Lemma process_query_legacy_Ok r :
  is_array (get_opt data F_retrieval_nodes) = false ->
  process_query data question = Ok r <->
  exists nodes, legacy_nodes_value data = VArr nodes /\ Forall node_ok nodes /\
                r = legacy_result data nodes question.
Proof.
  intros Hrn.
  rewrite (process_query_legacy _ _ Hdata Hrn), legacy_answer_defined,
    legacy_nodes_defined, !bind_Ok_l by done.
  fold (legacy_nodes_value data) (legacy_answer_value data). split.
  - intros (items & Hitems & (srcs & Hs & [= <-])%bind_Ok)%bind_Ok.
    exists items. destruct (legacy_nodes_value data); try done.
    injection Hitems as ->. pose proof (sources_Ok _ _ Hs) as Hok.
    rewrite sources_defined in Hs by done. injection Hs as <-.
    unfold legacy_result. by rewrite length_imap.
  - intros (nodes & -> & Hok & ->). simpl.
    rewrite sources_defined by done. simpl.
    unfold legacy_result. by rewrite length_imap.
Qed.

End success.

(** A result is one of the two, on a list of nodes each of which is as the
    specification describes. *)
Lemma process_query_Ok data question r :
  process_query data question = Ok r ->
  exists nodes, Forall node_ok nodes /\ sources r = imap source_record nodes /\
                total_sources r = length nodes /\ query r = question.
Proof.
  intros H. pose proof (process_query_Ok_data _ _ _ H) as Hd.
  destruct (get_opt data F_retrieval_nodes) as [| | | | |items|] eqn:Hrn.
  6: { apply (process_query_new_format_Ok _ _ Hd _ _ Hrn) in H as (_ & ? & ->).
       by eexists. }
  all: apply process_query_legacy_Ok in H as (nodes & _ & ? & ->);
    [by eexists|done|by rewrite Hrn].
Qed.

(** ** What [process_query] raises *)

Lemma is_context_raises t : raises is_type_error (is_context t).
Proof. unfold is_context. solve_raises. Qed.

Lemma source_of_node_raises index node :
  raises is_type_error (source_of_node index node).
Proof. unfold source_of_node. solve_raises. Qed.

Lemma compose_answer_raises nodes : raises is_type_error (compose_answer nodes).
Proof.
  unfold compose_answer. pose proof is_context_raises. solve_raises.
Qed.

Lemma process_query_raises data question :
  raises is_type_error (process_query data question).
Proof.
  unfold process_query, legacy_answer, legacy_nodes, imapM.
  pose proof source_of_node_raises. pose proof compose_answer_raises.
  solve_raises.
Qed.

(** ** Rendering *)

Lemma source_record_score_not_nullish index node :
  nullish (score (source_record index node)) = false.
Proof.
  simpl. unfold or_else. destruct (truthy (get_opt node F_score)) eqn:E; [|done].
  by apply truthy_not_nullish.
Qed.

(** ** The sources of a result *)

Lemma source_record_preview index node :
  length (preview (source_record index node)) <= 153 /\
  ellipsis `suffix_of` preview (source_record index node).
Proof.
  unfold source_record; cbn [preview]. split; [|by apply suffix_app_r].
  rewrite length_app, substring0_length. change (length ellipsis) with 3. lia.
Qed.

(** Every source of a result is the record of a node as the specification
    describes, at the position of the node. *)
Lemma process_query_sources data question r s :
  process_query data question = Ok r -> s ∈ sources r ->
  exists index node, node_ok node /\ s = source_record index node.
Proof.
  intros (nodes & Hok & -> & _)%process_query_Ok (j & n & -> & Hj)%elem_of_lookup_imap.
  exists j, n. split; [|done]. rewrite Forall_lookup in Hok. eauto.
Qed.

(** ** A body that is neither format *)

Lemma unrecognized_result data question :
  unrecognized data = true ->
  process_query data question = Ok (no_answer_result question).
Proof.
  unfold unrecognized. rewrite !andb_true_iff, !negb_true_iff, !orb_false_iff.
  intros [[[Hd Hrn] [Ha Hr]] [Hsn Hs]].
  apply process_query_legacy_Ok; [done..|]. exists [].
  unfold legacy_nodes_value, legacy_result, legacy_answer_value, or_else.
  by rewrite Ha, Hr, Hsn, Hs.
Qed.

(** ** Texts beyond the third context *)

Lemma contexts_of_app texts more :
  3 <= length (List.filter (fun s => negb (blank s)) texts) ->
  contexts_of (texts ++ more) = contexts_of texts.
Proof.
  intros H. unfold contexts_of. rewrite List.filter_app. by rewrite take_app_le.
Qed.

(** ** The handler: its outcome and its trace *)

Section queryRAG.
Context (cfg : LlamaCloudConfig) (question : value) (w : world).

(** The outcome of the handler is the outcome of its four steps in order;
    the first exception ends it. *)
Lemma queryRAG_outcome :
  outcome_of (queryRAG cfg question) w =
  to_string question ≫= fun _ =>
  outcome_of (queryLlamaCloud cfg question) w ≫= fun data =>
  process_query data question ≫= fun result =>
  render_query result ≫= fun text => Ok {| content := [TextContent text] |}.
Proof.
  unfold queryRAG. rewrite outcome_bind, outcome_lift.
  destruct (to_string question) as [q|]; simpl; [|done].
  rewrite outcome_bind, outcome_log, bind_Ok_l, outcome_bind.
  destruct (outcome_of (queryLlamaCloud _ _) w) as [data|]; simpl; [|done].
  rewrite outcome_bind, outcome_lift.
  destruct (process_query data question) as [result|]; simpl; [|done].
  rewrite outcome_bind, outcome_log, bind_Ok_l, outcome_bind, outcome_lift.
  by destruct (render_query result).
Qed.

(** Its trace: the line with the question, the request, and the line with
    the count when the result was built. *)
Lemma queryRAG_trace :
  trace_of (queryRAG cfg question) w =
  match to_string question with
  | Throw _ => []
  | Ok q =>
    Log (utf16 "🔍 Querying RAG: " ++ q) :: Fetch (retrieve_request cfg question) ::
    match outcome_of (queryLlamaCloud cfg question) w
          ≫= fun data => process_query data question with
    | Ok result =>
      [Log (utf16 "✅ Query processed, found " ++ dec (length (sources result))
            ++ utf16 " sources")]
    | Throw _ => []
    end
  end.
Proof.
  unfold queryRAG. rewrite trace_bind, trace_lift, outcome_lift.
  destruct (to_string question) as [q|]; simpl; [|done].
  rewrite trace_bind, trace_log, outcome_log, trace_bind, queryLlamaCloud_trace.
  simpl. do 2 f_equal.
  destruct (outcome_of (queryLlamaCloud _ _) w) as [data|]; simpl; [|done].
  rewrite trace_bind, trace_lift, outcome_lift.
  destruct (process_query data question) as [result|]; simpl; [|done].
  rewrite trace_bind, trace_log, outcome_log, trace_bind, trace_lift, outcome_lift.
  by destruct (render_query result).
Qed.

(** The handler posts the retrieval request of its question, once, unless
    the question cannot be printed for the first log line. *)
Lemma queryRAG_fetches :
  fetches (trace_of (queryRAG cfg question) w) =
  if is_ok (to_string question) then [retrieve_request cfg question] else [].
Proof.
  rewrite queryRAG_trace. destruct (to_string question); simpl; [|done].
  by destruct (_ ≫= _).
Qed.

Lemma queryRAG_fetches_bound : length (fetches (trace_of (queryRAG cfg question) w)) <= 1.
Proof. rewrite queryRAG_fetches. case_if; simpl; lia. Qed.

End queryRAG.

(** * Properties of [process_query] *)

(** C1 (refinement, new format).  On a body that is not null, whose
    [retrieval_nodes] is an array with no null item and whose nodes have
    strings for texts, [process_query] returns the result the
    specification describes: one source per node that counts as true, in
    the order of the nodes and numbered from 1, and the answer composed of
    the first three texts that are not blank. *)
Theorem new_format_refinement data question items :
  nullish data = false ->
  get_opt data F_retrieval_nodes = VArr items ->
  Forall (fun item => nullish item = false) items ->
  Forall node_ok (nodes_of items) ->
  process_query data question = Ok (new_format_result (nodes_of items) question).
Proof. intros Hd Hrn Hi Hok. by apply (process_query_new_format_Ok _ _ Hd items). Qed.

Lemma new_format_refinement_witness :
  process_query example_four_format (jstr "what is a dbms") =
  Ok (new_format_result (nodes_of example_four_items) (jstr "what is a dbms")).
Proof.
  apply (new_format_refinement example_four_format (jstr "what is a dbms")
           example_four_items);
    [reflexivity|reflexivity|by repeat constructor|by repeat constructor].
Defined.

(** C2 (refinement, legacy format).  On a body that is not null and has no
    array under [retrieval_nodes], when [source_nodes || sources || []] is
    an array of nodes with strings for texts, [process_query] returns the
    answer [answer || response || "No answer received."] and one source per
    element, numbered from 1. *)
Theorem legacy_refinement data question nodes :
  nullish data = false ->
  is_array (get_opt data F_retrieval_nodes) = false ->
  legacy_nodes_value data = VArr nodes ->
  Forall node_ok nodes ->
  process_query data question = Ok (legacy_result data nodes question).
Proof. intros Hd Hrn Hn Hok. apply process_query_legacy_Ok; eauto. Qed.

Lemma legacy_refinement_witness :
  process_query example_legacy VNull =
  Ok (legacy_result example_legacy example_legacy_nodes VNull).
Proof.
  apply (legacy_refinement example_legacy VNull);
    [reflexivity|reflexivity|reflexivity|by repeat constructor].
Defined.

(** C3 (invariant).  Whatever the pipeline answered, a result that
    [process_query] returns numbers its sources 1, 2, ..., n in order, and
    its [total_sources] is their count. *)
Theorem process_query_ids data question r :
  process_query data question = Ok r ->
  id <$> sources r = seq 1 (total_sources r) /\
  total_sources r = length (sources r).
Proof.
  intros (nodes & Hok & Hs & -> & _)%process_query_Ok.
  pose proof (sources_defined _ Hok) as [Hid Hlen]%sources_ids.
  rewrite Hs. by split.
Qed.

Lemma process_query_ids_witness :
  exists r, process_query example_legacy VNull = Ok r /\
            id <$> sources r = [1; 2] /\ total_sources r = 2.
Proof.
  exists (legacy_result example_legacy example_legacy_nodes VNull).
  assert (process_query example_legacy VNull
          = Ok (legacy_result example_legacy example_legacy_nodes VNull)) as H
    by (by vm_compute).
  split; [exact H|]. split; [|reflexivity].
  exact (proj1 (process_query_ids example_legacy VNull _ H)).
Defined.

(** C4 (error).  A [null] or [undefined] anywhere among the items of
    [retrieval_nodes] is not dropped: reading its [node] raises a TypeError
    and [process_query] returns nothing, whatever the other items hold. *)
Theorem null_item_raises data question items :
  nullish data = false ->
  get_opt data F_retrieval_nodes = VArr items ->
  Exists (fun item => nullish item = true) items ->
  process_query data question = Throw (TypeError (ReadOfNullish (utf16 "node"))).
Proof.
  intros Hd Hrn Hi.
  by rewrite (process_query_new_format _ _ Hd _ Hrn), extract_nodes_some_null.
Qed.

Lemma null_item_raises_witness :
  process_query example_null_item VNull
  = Throw (TypeError (ReadOfNullish (utf16 "node"))).
Proof.
  eapply (null_item_raises example_null_item VNull); [reflexivity|reflexivity|].
  apply Exists_cons_tl, Exists_cons_hd. reflexivity.
Defined.

(** C24 (error).  Whatever the body and the question, the only exceptions
    of [process_query] are TypeErrors of the language: it constructs no
    error of its own. *)
Theorem process_query_only_type_errors data question e :
  process_query data question = Throw e -> is_type_error e.
Proof. apply process_query_raises. Qed.

Lemma process_query_only_type_errors_witness :
  is_type_error (TypeError (ReadOfNullish (utf16 "node"))).
Proof.
  apply (process_query_only_type_errors example_null_item VNull). by vm_compute.
Defined.

(** C18 (bounds).  The preview of every source of a result has at most
    150 + 3 code units and ends with the marker. *)
Theorem preview_bounded data question r s :
  process_query data question = Ok r -> s ∈ sources r ->
  length (preview s) <= 153 /\ ellipsis `suffix_of` preview s.
Proof.
  intros Hr Hs. destruct (process_query_sources _ _ _ _ Hr Hs) as (j & n & _ & ->).
  apply source_record_preview.
Qed.

Lemma preview_bounded_witness :
  length (preview (source_record 0 example_node)) <= 153 /\
  ellipsis `suffix_of` preview (source_record 0 example_node).
Proof.
  apply (preview_bounded example_new_format VNull
           (new_format_result (nodes_of example_items) VNull));
    [by vm_compute|apply list_elem_of_here].
Defined.

(** C20 (functional).  A node whose metadata has neither a [file_name] nor
    a [filename] that counts as true is named after its ordinal:
    Document 3 for the source with id 3. *)
Theorem filename_fallback index node s :
  source_of_node index node = Ok s ->
  truthy (get_opt (get_opt node F_metadata) F_file_name) = false ->
  truthy (get_opt (get_opt node F_metadata) F_filename) = false ->
  filename s = VStr (utf16 "Document " ++ dec (id s)).
Proof.
  intros (_ & ->)%source_of_node_Ok H1 H2. simpl. unfold or_else. by rewrite H1, H2.
Qed.

Lemma filename_fallback_witness :
  filename (source_record 2 (jobj [])) = jstr "Document 3".
Proof.
  apply (filename_fallback 2 (jobj []) (source_record 2 (jobj [])));
    by vm_compute.
Defined.

(** C21 (functional).  A node without a score that counts as true gets the
    score 0, and its relevance prints as 0.00. *)
Theorem missing_score_renders_zero index node s :
  source_of_node index node = Ok s -> truthy (get_opt node F_score) = false ->
  score s = VNum (num_of_Z 0) /\ relevance (score s) = Ok (utf16 "0.00").
Proof.
  intros (_ & ->)%source_of_node_Ok H. simpl. unfold or_else. by rewrite H.
Qed.

Lemma missing_score_renders_zero_witness :
  score (source_record 2 (jobj [])) = VNum (num_of_Z 0) /\
  relevance (score (source_record 2 (jobj []))) = Ok (utf16 "0.00").
Proof.
  apply (missing_score_renders_zero 2 (jobj [])); by vm_compute.
Defined.

(** C22 (functional).  The relevance of a source never prints as n/a: the
    score of a source is never null or undefined, and [toFixed] returns no
    empty string, so the alternative of the template is never taken. *)
Theorem relevance_never_na index node s rel :
  source_of_node index node = Ok s -> relevance (score s) = Ok rel ->
  rel <> utf16 "n/a".
Proof.
  intros (_ & ->)%source_of_node_Ok.
  apply relevance_not_na, source_record_score_not_nullish.
Qed.

Lemma relevance_never_na_witness : utf16 "0.90" <> utf16 "n/a".
Proof.
  apply (relevance_never_na 0 example_node (source_record 0 example_node));
    by vm_compute.
Defined.

(** C23 (functional).  A body that is neither format, the empty object
    for one, gives the sentinel answer and no source; nothing is raised. *)
Theorem unrecognized_payload data question :
  unrecognized data = true ->
  process_query data question = Ok (no_answer_result question) /\
  render_query (no_answer_result question)
  = Ok (utf16 "**Answer:** No answer received." ++ nl ++ nl
        ++ utf16 "**Sources (0):**" ++ nl).
Proof. intros H. split; [by apply unrecognized_result|done]. Qed.

Lemma unrecognized_payload_witness :
  process_query (jobj []) (jstr "q") = Ok (no_answer_result (jstr "q")) /\
  render_query (no_answer_result (jstr "q"))
  = Ok (utf16 "**Answer:** No answer received." ++ nl ++ nl
        ++ utf16 "**Sources (0):**" ++ nl).
Proof. apply (unrecognized_payload (jobj []) (jstr "q")). reflexivity. Defined.

(** * Properties of [queryRAG] *)

(** C12 (refinement).  When the question prints, the pipeline answers with
    a success and a body, and the body is processed and rendered, the
    handler logs the question, posts the one request, logs the count and
    returns one text item holding the rendered text. *)
Theorem queryRAG_returns cfg question w q r data result text :
  to_string question = Ok q ->
  upstream w (retrieve_request cfg question) = Ok r ->
  resp_ok r = true -> resp_json r = Ok data ->
  process_query data question = Ok result ->
  render_query result = Ok text ->
  queryRAG cfg question w =
  ([Log (utf16 "🔍 Querying RAG: " ++ q);
    Fetch (retrieve_request cfg question);
    Log (utf16 "✅ Query processed, found " ++ dec (length (sources result))
         ++ utf16 " sources")],
   Ok {| content := [TextContent text] |}).
Proof.
  intros Hq Hr Hok Hj Hp Ht.
  rewrite M_run, queryRAG_trace, queryRAG_outcome, queryLlamaCloud_outcome.
  by rewrite Hq, Hr, Hok, Hj; simpl; rewrite Hp; simpl; rewrite Ht.
Qed.

Lemma queryRAG_returns_witness :
  queryRAG example_config (jstr "q") (answering (Ok (jobj []))) =
  ([Log (utf16 "🔍 Querying RAG: q");
    Fetch (retrieve_request example_config (jstr "q"));
    Log (utf16 "✅ Query processed, found 0 sources")],
   Ok {| content := [TextContent
           (utf16 "**Answer:** No answer received." ++ nl ++ nl
            ++ utf16 "**Sources (0):**" ++ nl)] |}).
Proof.
  eapply (queryRAG_returns example_config (jstr "q") (answering (Ok (jobj [])))
            (utf16 "q") _ (jobj []) (no_answer_result (jstr "q")));
    reflexivity.
Defined.

(** C13 (error).  An exception of the client or of the processing ends
    the handler as it is: after the line with the question and the one
    request nothing more is logged, and no partial result is returned. *)
Theorem queryRAG_fails_fast cfg question w q e :
  to_string question = Ok q ->
  outcome_of (queryLlamaCloud cfg question) w
    ≫= (fun data => process_query data question) = Throw e ->
  queryRAG cfg question w =
  ([Log (utf16 "🔍 Querying RAG: " ++ q); Fetch (retrieve_request cfg question)],
   Throw e).
Proof.
  intros Hq He. rewrite M_run, queryRAG_trace, queryRAG_outcome, Hq. simpl.
  destruct (outcome_of (queryLlamaCloud _ _) w) as [data|]; simpl in *.
  - destruct (process_query data question); simpl in *; [done|]. by injection He as ->.
  - by injection He as ->.
Qed.

Lemma queryRAG_fails_fast_witness :
  queryRAG example_config (jstr "q") (failing 500 (utf16 "Internal Server Error")) =
  ([Log (utf16 "🔍 Querying RAG: q");
    Fetch (retrieve_request example_config (jstr "q"))],
   Throw (Error (utf16 "LlamaCloud API error: 500 Internal Server Error"))).
Proof.
  apply (queryRAG_fails_fast example_config (jstr "q")
           (failing 500 (utf16 "Internal Server Error")) (utf16 "q"));
    by vm_compute.
Defined.

(** The second scenario of the specification: for the
    question what is a dbms and a body with one node, the handler returns
    exactly this text, after exactly these three events. *)
Example scenario_new_format :
  queryRAG example_config (jstr "what is a dbms") (answering (Ok example_new_format)) =
  ([Log (utf16 "🔍 Querying RAG: what is a dbms");
    Fetch (retrieve_request example_config (jstr "what is a dbms"));
    Log (utf16 "✅ Query processed, found 1 sources")],
   Ok {| content := [TextContent
     (utf16 "**Answer:** Based on the found documents:" ++ nl ++ nl
      ++ utf16 "DBMS basics" ++ nl ++ nl
      ++ utf16 "**Sources (1):**" ++ nl
      ++ utf16 "1. intro.pdf (relevance: 0.90)" ++ nl
      ++ utf16 "   DBMS basics...")] |}).
Proof. by vm_compute. Qed.

(** C25 (functional).  Texts made of white space only are no contexts:
    when every node has such a text, or none, the composed answer is the
    empty string, not the sentinel. *)
Theorem blank_texts_no_answer nodes :
  Forall node_ok nodes -> Forall (fun n => blank (text_string n) = true) nodes ->
  compose_answer nodes = Ok [].
Proof.
  intros Hok Hb. rewrite compose_answer_defined by done. f_equal.
  apply answer_of_nil. by apply Forall_fmap.
Qed.

Lemma blank_texts_no_answer_witness : compose_answer example_blank_nodes = Ok [].
Proof. apply blank_texts_no_answer; by repeat constructor. Defined.

(** C26 (functional).  The answer is composed of the first three contexts
    only: nodes after the third one with a text that is not blank do not
    change it. *)
Theorem answer_first_three_contexts nodes more :
  Forall node_ok nodes -> Forall node_ok more ->
  3 <= length (List.filter (fun n => negb (blank (text_string n))) nodes) ->
  compose_answer (nodes ++ more) = compose_answer nodes.
Proof.
  intros H1 H2 H3. rewrite !compose_answer_defined by (try apply Forall_app; done).
  unfold answer_of. rewrite fmap_app, contexts_of_app; [done|].
  by rewrite filter_map_swap, length_fmap.
Qed.

Lemma answer_first_three_contexts_witness :
  compose_answer (example_three_nodes ++ [example_node])
  = compose_answer example_three_nodes.
Proof.
  apply answer_first_three_contexts; [by repeat constructor..|]. by vm_compute.
Defined.
