(* ===== verification/Search.v ===== *)
(** * Search: the handler of [search_documents]

    Models [searchDocuments] (src/src/index.ts, lines 283 to 334).  The
    handler logs the query and [top_k], builds a payload it never sends,
    asks the pipeline through [queryLlamaCloud] with the query alone, turns
    the answer into a list of documents, logs the count and renders one text
    block.

    - [search_payload] is the object of lines 286 to 290, which no request
      carries.
    - [find_documents] is the branch of lines 295 to 316: the nodes of
      [retrieval_nodes], else the elements of [source_nodes], else nothing.
      Unlike [queryRAG] it does not look at [sources].
    - [render_search] is the template literal of line 330. *)

From Stdlib Require Import String.
From S2P Require Import Prelude JsString JsNumber JsValue Runtime.
From S2P Require Import Config Upstream Normalizer.

(** ** Data *)

(** An element of [documents]. *)
Record document : Type := {
  id : nat;
  filename : value;
  score : value;
  content : jstring;
  metadata : value;
}.

(** The object [result] of the handler. *)
Record SearchResult : Type := {
  query : value;
  documents : list document;
  total_found : nat;
}.

(** ** Building the documents *)

(** The default value of the parameter: [top_k: number = 5] replaces
    [undefined] only. *)
Definition top_k_or_default (top_k : value) : value :=
  match top_k with
  | VUndefined => VNum (num_of_Z 5)
  | _ => top_k
  end.

(** The object [payload] of the handler. *)
Definition search_payload (query top_k : value) : value :=
  VObj [ (utf16 "query", query);
         (utf16 "similarity_top_k", top_k);
         (utf16 "mode", VStr (utf16 "retrieve_only")) ].

(** The callback of [map] that builds one document (lines 301 to 307 and
    309 to 315). *)
Definition document_of_node (index : nat) (node : value) : outcome document :=
  node_filename index node ≫= fun fn : value =>
  node_score node ≫= fun sc : value =>
  node_preview 300 node ≫= fun c : jstring =>
  get node F_metadata ≫= fun m : value =>
  Ok {| id := index + 1; filename := fn; score := sc; content := c;
        metadata := or_else m (VObj []) |}.

(** Lines 295 to 316: from the answer of the pipeline to the documents. *)
Definition find_documents (data : value) : outcome (list document) :=
  get data F_retrieval_nodes ≫= fun rn : value =>
  if truthy rn && is_array rn then
    array_receiver rn ≫= fun items : list value =>
    extract_nodes items ≫= fun nodes : list value =>
    imapM document_of_node nodes
  else
    get data F_source_nodes ≫= fun sn : value =>
    if truthy sn && is_array sn then
      array_receiver sn ≫= fun nodes : list value =>
      imapM document_of_node nodes
    else Ok [].

(** Lines 318 to 322. *)
Definition search_result (query : value) (docs : list document) : SearchResult :=
  {| query := query; documents := docs; total_found := length docs |}.

(** ** Rendering *)

(** The quotation mark around the query. *)
Definition quote : jstring := [34%N].

(** One block of the document list. *)
Definition render_document (d : document) : outcome jstring :=
  to_string (filename d) ≫= fun fn : jstring =>
  relevance (score d) ≫= fun rel : jstring =>
  Ok (utf16 "**" ++ dec (id d) ++ utf16 ". " ++ fn ++ utf16 "** (relevance: "
      ++ rel ++ utf16 ")" ++ nl ++ content d).

(** The template literal of line 330. *)
Definition render_search (r : SearchResult) : outcome jstring :=
  to_string (query r) ≫= fun q : jstring =>
  mapM render_document (documents r) ≫= fun blocks : list jstring =>
  Ok (utf16 "**Search query:** " ++ quote ++ q ++ quote ++ nl ++ nl
      ++ utf16 "**Found documents:** " ++ dec (total_found r) ++ nl ++ nl
      ++ join (nl ++ nl) blocks).

(** ** The handler *)

(** The template literal of line 284: the query is printed, then [top_k]. *)
Definition searching_line (query top_k : value) : outcome jstring :=
  to_string query ≫= fun q : jstring =>
  to_string top_k ≫= fun k : jstring =>
  Ok (utf16 "🔎 Searching documents: " ++ q ++ utf16 " (top " ++ k ++ utf16 ")").

Definition searchDocuments (cfg : LlamaCloudConfig) (query top_k : value)
  : M CallToolResult :=
  let top_k := top_k_or_default top_k in
  lift (searching_line query top_k) ≫= fun line : jstring =>
  log line ≫= fun _ : unit =>
  let payload := search_payload query top_k in
  queryLlamaCloud cfg query ≫= fun data : value =>
  lift (find_documents data) ≫= fun docs : list document =>
  let result := search_result query docs in
  log (utf16 "✅ Search completed, found " ++ dec (length docs)
       ++ utf16 " documents") ≫= fun _ : unit =>
  lift (render_search result) ≫= fun text : jstring =>
  mret {| Runtime.content := [TextContent text] |}.

(** ** What the handler promises *)

(** The document of a node that is as the specification describes it
    ([node_ok]) at position [index]. *)
Definition document_record (index : nat) (node : value) : document :=
  {| id := index + 1;
     filename :=
       or_else (get_opt (get_opt node F_metadata) F_file_name)
         (or_else (get_opt (get_opt node F_metadata) F_filename)
            (VStr (document_label index)));
     score := or_else (get_opt node F_score) (VNum (num_of_Z 0));
     content := substring0 300 (text_string node) ++ ellipsis;
     metadata := or_else (get_opt node F_metadata) (VObj []) |}.

(** ** Example payloads *)

(** The items of the second scenario of the specification. *)
Definition example_search_items : list value :=
  [jobj [("node"%string,
          jobj [("text"%string, jstr "DBMS basics");
                ("score"%string, VNum (num_decimal 9 (-1)));
                ("metadata"%string,
                 jobj [("file_name"%string, jstr "intro.pdf")])])]].

(** A value for [top_k] that no template literal can print. *)
Definition example_unprintable : value := jobj [("toString"%string, VNull)].

(** Five legacy nodes with a text each. *)
Definition example_five_nodes : list value :=
  (fun t => jobj [("text"%string, VStr t)]) <$>
    [utf16 "one"; utf16 "two"; utf16 "three"; utf16 "four"; utf16 "five"].

Definition example_source_nodes : value :=
  jobj [("source_nodes"%string, VArr example_five_nodes)].

(** A body with the other legacy name only. *)
Definition example_sources_only : value :=
  jobj [("sources"%string, VArr example_five_nodes)].

(** The body of the second scenario of the specification. *)
Definition example_search_body : value :=
  jobj [("retrieval_nodes"%string, VArr example_search_items)].

(** * Lemmas *)

(** ** One document *)

(** A document is built exactly from a node that is not null and whose
    text is a string. *)
Lemma document_of_node_Ok index node d :
  document_of_node index node = Ok d <->
  node_ok node /\ d = document_record index node.
Proof.
  unfold document_of_node, node_ok, document_record. split.
  - intros (fn & Hfn & (sc & Hsc & (c & Hc & (m & Hm & [= <-])%bind_Ok)%bind_Ok)%bind_Ok)%bind_Ok.
    pose proof (node_filename_Ok _ _ _ Hfn) as Hn.
    rewrite node_filename_defined in Hfn by done.
    rewrite node_score_defined in Hsc by done.
    rewrite node_preview_defined in Hc by done. rewrite get_Ok in Hm by done.
    destruct (text_is_string node); by simplify_eq.
  - intros ([Hn Ht] & ->).
    by rewrite node_filename_defined, node_score_defined, node_preview_defined,
      Ht, get_Ok.
Qed.

Lemma document_of_node_id index node d :
  document_of_node index node = Ok d -> id d = S index.
Proof. intros (_ & ->)%document_of_node_Ok. simpl. lia. Qed.

Lemma document_of_node_raises index node :
  raises is_type_error (document_of_node index node).
Proof. unfold document_of_node. solve_raises. Qed.

(** ** The list of documents *)

Lemma documents_ids nodes docs :
  imapM document_of_node nodes = Ok docs ->
  id <$> docs = seq 1 (length nodes) /\ length docs = length nodes.
Proof.
  intros H. split; [|by eapply imapM_from_length].
  rewrite <- fmap_S_seq.
  eapply imapM_from_project; [|exact H]. apply document_of_node_id.
Qed.

Lemma documents_defined nodes :
  Forall node_ok nodes ->
  imapM document_of_node nodes = Ok (imap document_record nodes).
Proof.
  intros H. unfold imapM. apply (imapM_from_pure _ document_record 0).
  intros j n Hj. apply document_of_node_Ok.
  rewrite Forall_lookup in H. eauto.
Qed.

Lemma documents_Ok nodes docs :
  imapM document_of_node nodes = Ok docs ->
  Forall node_ok nodes /\ docs = imap document_record nodes.
Proof.
  intros H. assert (Forall node_ok nodes) as Hok.
  { apply Forall_lookup. intros j n Hj.
    destruct (imapM_from_lookup _ _ _ _ _ _ H Hj) as (s & _ & Hs).
    by apply document_of_node_Ok in Hs as [? _]. }
  split; [done|]. rewrite documents_defined in H by done. by injection H.
Qed.

(** ** The documents, branch by branch *)

Section find_documents.
Context (data : value) (Hdata : nullish data = false).

Lemma find_documents_new_format items :
  get_opt data F_retrieval_nodes = VArr items ->
  find_documents data =
  extract_nodes items ≫= fun nodes => imapM document_of_node nodes.
Proof.
  intros Hrn. unfold find_documents. by rewrite !get_Ok, !bind_Ok_l, Hrn by done.
Qed.

Lemma find_documents_legacy nodes :
  is_array (get_opt data F_retrieval_nodes) = false ->
  get_opt data F_source_nodes = VArr nodes ->
  find_documents data = imapM document_of_node nodes.
Proof.
  intros Hrn Hsn. unfold find_documents.
  by rewrite !get_Ok, !bind_Ok_l, Hrn, andb_false_r, Hsn by done.
Qed.

Lemma find_documents_neither :
  is_array (get_opt data F_retrieval_nodes) = false ->
  is_array (get_opt data F_source_nodes) = false ->
  find_documents data = Ok [].
Proof.
  intros Hrn Hsn. unfold find_documents.
  by rewrite !get_Ok, !bind_Ok_l, Hrn, andb_false_r, Hsn, andb_false_r by done.
Qed.

End find_documents.

Lemma find_documents_null data :
  nullish data = true ->
  find_documents data = Throw (TypeError (ReadOfNullish (utf16 "retrieval_nodes"))).
Proof. intros H. unfold find_documents, get. by rewrite H. Qed.

Lemma find_documents_Ok_data data docs :
  find_documents data = Ok docs -> nullish data = false.
Proof. destruct (nullish data) eqn:E; [|done]. by rewrite find_documents_null. Qed.

(** Whatever the body, the documents that are returned are the records of
    a list of nodes as the specification describes them. *)
Lemma find_documents_Ok data docs :
  find_documents data = Ok docs ->
  exists nodes, Forall node_ok nodes /\ docs = imap document_record nodes.
Proof.
  intros H. pose proof (find_documents_Ok_data _ _ H) as Hd.
  destruct (is_array (get_opt data F_retrieval_nodes)) eqn:Hrn.
  { destruct (get_opt data F_retrieval_nodes) as [| | | | |items|] eqn:E; try done.
    rewrite (find_documents_new_format _ Hd _ E) in H.
    apply bind_Ok in H as (nodes & _ & ?%documents_Ok). by exists nodes. }
  destruct (is_array (get_opt data F_source_nodes)) eqn:Hsn.
  { destruct (get_opt data F_source_nodes) as [| | | | |nodes|] eqn:E; try done.
    rewrite (find_documents_legacy _ Hd _ Hrn E) in H.
    apply documents_Ok in H. by exists nodes. }
  rewrite find_documents_neither in H by done. injection H as <-. by exists [].
Qed.

Lemma find_documents_raises data : raises is_type_error (find_documents data).
Proof.
  unfold find_documents, imapM. pose proof document_of_node_raises. solve_raises.
Qed.

(** Every document that is returned is the record of a node as the
    specification describes, at the position of the node. *)
Lemma find_documents_docs data docs d :
  find_documents data = Ok docs -> d ∈ docs ->
  exists index node, node_ok node /\ d = document_record index node.
Proof.
  intros (nodes & Hok & ->)%find_documents_Ok (j & n & -> & Hj)%elem_of_lookup_imap.
  exists j, n. split; [|done]. rewrite Forall_lookup in Hok. eauto.
Qed.

Lemma searching_line_raises query top_k :
  raises is_type_error (searching_line query top_k).
Proof. unfold searching_line. solve_raises. Qed.

(** ** One document of a record *)

Lemma document_record_content index node :
  length (content (document_record index node)) <= 303 /\
  ellipsis `suffix_of` content (document_record index node).
Proof.
  unfold document_record; cbn [content]. split; [|by apply suffix_app_r].
  rewrite length_app, substring0_length. change (length ellipsis) with 3. lia.
Qed.

Lemma document_record_metadata index node :
  truthy (metadata (document_record index node)) = true.
Proof.
  unfold document_record; cbn [metadata]. unfold or_else.
  by destruct (truthy (get_opt node F_metadata)) eqn:E.
Qed.

Lemma document_record_score_not_nullish index node :
  nullish (score (document_record index node)) = false.
Proof.
  simpl. unfold or_else. destruct (truthy (get_opt node F_score)) eqn:E; [|done].
  by apply truthy_not_nullish.
Qed.

(** ** The handler: its outcome and its trace *)

Section searchDocuments.
Context (cfg : LlamaCloudConfig) (query top_k : value) (w : world).

Lemma searchDocuments_outcome :
  outcome_of (searchDocuments cfg query top_k) w =
  searching_line query (top_k_or_default top_k) ≫= fun _ =>
  outcome_of (queryLlamaCloud cfg query) w ≫= fun data =>
  find_documents data ≫= fun docs =>
  render_search (search_result query docs) ≫= fun text =>
  Ok {| Runtime.content := [TextContent text] |}.
Proof.
  unfold searchDocuments. cbv zeta. rewrite outcome_bind, outcome_lift.
  destruct (searching_line _ _) as [line|]; simpl; [|done].
  rewrite outcome_bind, outcome_log, bind_Ok_l, outcome_bind.
  destruct (outcome_of (queryLlamaCloud _ _) w) as [data|]; simpl; [|done].
  rewrite outcome_bind, outcome_lift.
  destruct (find_documents data) as [docs|]; simpl; [|done].
  rewrite outcome_bind, outcome_log, bind_Ok_l, outcome_bind, outcome_lift.
  by destruct (render_search _).
Qed.

Lemma searchDocuments_trace :
  trace_of (searchDocuments cfg query top_k) w =
  match searching_line query (top_k_or_default top_k) with
  | Throw _ => []
  | Ok line =>
    Log line :: Fetch (retrieve_request cfg query) ::
    match outcome_of (queryLlamaCloud cfg query) w ≫= find_documents with
    | Ok docs =>
      [Log (utf16 "✅ Search completed, found " ++ dec (length docs)
            ++ utf16 " documents")]
    | Throw _ => []
    end
  end.
Proof.
  unfold searchDocuments. cbv zeta. rewrite trace_bind, trace_lift, outcome_lift.
  destruct (searching_line _ _) as [line|]; simpl; [|done].
  rewrite trace_bind, trace_log, outcome_log, trace_bind, queryLlamaCloud_trace.
  simpl. do 2 f_equal.
  destruct (outcome_of (queryLlamaCloud _ _) w) as [data|]; simpl; [|done].
  rewrite trace_bind, trace_lift, outcome_lift.
  destruct (find_documents data) as [docs|]; simpl; [|done].
  rewrite trace_bind, trace_log, outcome_log, trace_bind, trace_lift, outcome_lift.
  by destruct (render_search _).
Qed.

Lemma searchDocuments_fetches :
  fetches (trace_of (searchDocuments cfg query top_k) w) =
  if is_ok (searching_line query (top_k_or_default top_k))
  then [retrieve_request cfg query] else [].
Proof.
  rewrite searchDocuments_trace. destruct (searching_line _ _); simpl; [|done].
  by destruct (_ ≫= _).
Qed.

Lemma searchDocuments_fetches_bound :
  length (fetches (trace_of (searchDocuments cfg query top_k) w)) <= 1.
Proof. rewrite searchDocuments_fetches. case_if; simpl; lia. Qed.

End searchDocuments.

(** * Properties of [find_documents] *)

(** C5 (refinement, new format).  On a body that is not null, whose
    [retrieval_nodes] is an array with no null item and whose nodes have
    strings for texts, the documents are the records of the nodes that
    count as true, in order. *)
Theorem search_new_format data items :
  nullish data = false ->
  get_opt data F_retrieval_nodes = VArr items ->
  Forall (fun item => nullish item = false) items ->
  Forall node_ok (nodes_of items) ->
  find_documents data = Ok (imap document_record (nodes_of items)).
Proof.
  intros Hd Hrn Hi Hok.
  by rewrite (find_documents_new_format _ Hd _ Hrn), extract_nodes_defined,
    bind_Ok_l, documents_defined.
Qed.

Lemma search_new_format_witness :
  find_documents example_search_body
  = Ok (imap document_record (nodes_of example_search_items)).
Proof.
  apply (search_new_format example_search_body);
    [reflexivity|reflexivity|by repeat constructor|by repeat constructor].
Defined.

(** C6 (refinement, legacy format).  Without an array under
    [retrieval_nodes], an array under [source_nodes] gives one document per
    element: nothing limits their number, whatever [top_k] was. *)
Theorem search_legacy_all_nodes data nodes :
  nullish data = false ->
  is_array (get_opt data F_retrieval_nodes) = false ->
  get_opt data F_source_nodes = VArr nodes ->
  Forall node_ok nodes ->
  find_documents data = Ok (imap document_record nodes) /\
  length (imap document_record nodes) = length nodes.
Proof.
  intros Hd Hrn Hsn Hok. split; [|apply length_imap].
  by rewrite (find_documents_legacy _ Hd _ Hrn Hsn), documents_defined.
Qed.

Lemma search_legacy_all_nodes_witness :
  find_documents example_source_nodes = Ok (imap document_record example_five_nodes) /\
  length (imap document_record example_five_nodes) = 5.
Proof.
  apply (search_legacy_all_nodes example_source_nodes example_five_nodes);
    [reflexivity|reflexivity|reflexivity|by repeat constructor].
Defined.

(** C17 (functional).  The search does not read [sources]: a body whose
    nodes are under that name only, which [queryRAG] accepts, gives no
    document. *)
Theorem search_ignores_sources data :
  nullish data = false ->
  is_array (get_opt data F_retrieval_nodes) = false ->
  is_array (get_opt data F_source_nodes) = false ->
  find_documents data = Ok [].
Proof. apply find_documents_neither. Qed.

Lemma search_ignores_sources_witness : find_documents example_sources_only = Ok [].
Proof. apply search_ignores_sources; reflexivity. Defined.

(** * Properties of [searchDocuments] *)

(** C15 (safety).  The handler posts at most one request, the retrieval
    request of the query alone: its body is never the payload with [top_k]
    and the mode that the handler builds. *)
Theorem top_k_ignored cfg query top_k w :
  fetches (trace_of (searchDocuments cfg query top_k) w) =
  (if is_ok (searching_line query (top_k_or_default top_k))
   then [retrieve_request cfg query] else []) /\
  req_body (retrieve_request cfg query)
  <> search_payload query (top_k_or_default top_k).
Proof. split; [apply searchDocuments_fetches|done]. Qed.

(** C16 (equivalence).  Two calls that differ in [top_k] only have the
    same outcome, as long as both values can be printed in the log line. *)
Theorem top_k_no_effect cfg query k1 k2 w :
  is_ok (searching_line query (top_k_or_default k1)) = true ->
  is_ok (searching_line query (top_k_or_default k2)) = true ->
  outcome_of (searchDocuments cfg query k1) w
  = outcome_of (searchDocuments cfg query k2) w.
Proof.
  intros [l1 H1]%is_ok_Ok [l2 H2]%is_ok_Ok.
  by rewrite !searchDocuments_outcome, H1, H2.
Qed.

Lemma top_k_no_effect_witness :
  outcome_of (searchDocuments example_config (jstr "dbms") (VNum (num_of_Z 2)))
    (answering (Ok example_source_nodes))
  = outcome_of (searchDocuments example_config (jstr "dbms") VUndefined)
      (answering (Ok example_source_nodes)).
Proof. apply top_k_no_effect; reflexivity. Defined.

(** Whatever the pipeline answered, the documents that
    are returned are numbered 1, 2, ..., n in order. *)
Theorem find_documents_ids data docs :
  find_documents data = Ok docs -> id <$> docs = seq 1 (length docs).
Proof.
  intros (nodes & Hok & ->)%find_documents_Ok.
  pose proof (documents_defined _ Hok) as [Hid Hlen]%documents_ids.
  by rewrite Hid, Hlen.
Qed.

Lemma find_documents_ids_witness :
  id <$> imap document_record example_five_nodes = seq 1 5.
Proof.
  apply (find_documents_ids example_source_nodes
           (imap document_record example_five_nodes)).
  reflexivity.
Defined.

(** C19 (bounds).  The content of every document has at most 300 + 3 code
    units and ends with the marker, and its metadata counts as true: an
    empty object stands for metadata that is missing. *)
Theorem content_bounded data docs d :
  find_documents data = Ok docs -> d ∈ docs ->
  length (content d) <= 303 /\ ellipsis `suffix_of` content d /\
  truthy (metadata d) = true.
Proof.
  intros Hr Hd. destruct (find_documents_docs _ _ _ Hr Hd) as (j & n & _ & ->).
  split_and!; [apply document_record_content..|apply document_record_metadata].
Qed.

Lemma content_bounded_witness :
  length (content (document_record 0 (jobj [("text"%string, jstr "one")]))) <= 303 /\
  ellipsis `suffix_of` content (document_record 0 (jobj [("text"%string, jstr "one")])) /\
  truthy (metadata (document_record 0 (jobj [("text"%string, jstr "one")]))) = true.
Proof.
  apply (content_bounded example_source_nodes
           (imap document_record example_five_nodes));
    [reflexivity|apply list_elem_of_here].
Defined.

(** C14 (refinement).  When the log line prints, the pipeline answers with
    a success and a body, and the documents are found and rendered, the
    handler logs the line, posts the one request, logs the count and
    returns one text item holding the rendered text. *)
Theorem searchDocuments_returns cfg query top_k w line r data docs text :
  searching_line query (top_k_or_default top_k) = Ok line ->
  upstream w (retrieve_request cfg query) = Ok r ->
  resp_ok r = true -> resp_json r = Ok data ->
  find_documents data = Ok docs ->
  render_search (search_result query docs) = Ok text ->
  searchDocuments cfg query top_k w =
  ([Log line; Fetch (retrieve_request cfg query);
    Log (utf16 "✅ Search completed, found " ++ dec (length docs)
         ++ utf16 " documents")],
   Ok {| Runtime.content := [TextContent text] |}).
Proof.
  intros Hq Hr Hok Hj Hp Ht.
  rewrite M_run, searchDocuments_trace, searchDocuments_outcome, queryLlamaCloud_outcome.
  by rewrite Hq, Hr, Hok, Hj; simpl; rewrite Hp; simpl; rewrite Ht.
Qed.

Lemma searchDocuments_returns_witness :
  searchDocuments example_config (jstr "q") VUndefined (answering (Ok (jobj []))) =
  ([Log (utf16 "🔎 Searching documents: q (top 5)");
    Fetch (retrieve_request example_config (jstr "q"));
    Log (utf16 "✅ Search completed, found 0 documents")],
   Ok {| Runtime.content := [TextContent
           (utf16 "**Search query:** " ++ quote ++ utf16 "q" ++ quote ++ nl ++ nl
            ++ utf16 "**Found documents:** 0" ++ nl ++ nl)] |}).
Proof.
  eapply (searchDocuments_returns example_config (jstr "q") VUndefined
            (answering (Ok (jobj []))) _ _ (jobj []) []);
    reflexivity.
Defined.

(** C27 (error).  A [top_k] or a query that cannot be printed ends the
    handler with a TypeError in its first line: nothing is logged and
    nothing is posted. *)
Theorem unprintable_top_k_raises cfg query top_k w e :
  searching_line query (top_k_or_default top_k) = Throw e ->
  searchDocuments cfg query top_k w = ([], Throw e) /\ is_type_error e.
Proof.
  intros H. rewrite M_run, searchDocuments_trace, searchDocuments_outcome, H.
  split; [done|]. by eapply searching_line_raises.
Qed.

Lemma unprintable_top_k_raises_witness :
  searchDocuments example_config (jstr "q") example_unprintable
    (answering (Ok (jobj [])))
  = ([], Throw (TypeError NoPrimitive)) /\ is_type_error (TypeError NoPrimitive).
Proof.
  apply (unprintable_top_k_raises example_config (jstr "q") example_unprintable).
  reflexivity.
Defined.

(** The fourth scenario of the specification: with
    [top_k] 2 and five nodes under [source_nodes], the handler returns all
    five documents, in exactly this text. *)
Example scenario_top_k_two :
  searchDocuments example_config (jstr "dbms") (VNum (num_of_Z 2))
    (answering (Ok example_source_nodes)) =
  ([Log (utf16 "🔎 Searching documents: dbms (top 2)");
    Fetch (retrieve_request example_config (jstr "dbms"));
    Log (utf16 "✅ Search completed, found 5 documents")],
   Ok {| Runtime.content := [TextContent
     (utf16 "**Search query:** " ++ quote ++ utf16 "dbms" ++ quote ++ nl ++ nl
      ++ utf16 "**Found documents:** 5" ++ nl ++ nl
      ++ utf16 "**1. Document 1** (relevance: 0.00)" ++ nl ++ utf16 "one..." ++ nl ++ nl
      ++ utf16 "**2. Document 2** (relevance: 0.00)" ++ nl ++ utf16 "two..." ++ nl ++ nl
      ++ utf16 "**3. Document 3** (relevance: 0.00)" ++ nl ++ utf16 "three..." ++ nl ++ nl
      ++ utf16 "**4. Document 4** (relevance: 0.00)" ++ nl ++ utf16 "four..." ++ nl ++ nl
      ++ utf16 "**5. Document 5** (relevance: 0.00)" ++ nl ++ utf16 "five...")] |}).
Proof. by vm_compute. Qed.
