(* ===== verification/IndexInfo.v ===== *)
(** * IndexInfo: the handler of [get_index_info]

    Models [getIndexInfo] (src/src/index.ts, lines 336 to 359).  The handler
    posts nothing: it reads the configuration and the clock, logs two lines
    and renders a list of seven bullets, the last one the time of the
    call. *)

From Stdlib Require Import String.
From S2P Require Import Prelude JsString JsNumber JsValue Runtime Config.

(** ** Data *)

(** The object [indexInfo] of the handler. *)
Record IndexInfo : Type := {
  name : jstring;
  project : jstring;
  organization_id : jstring;
  pipeline_url : jstring;
  status : jstring;
  description : jstring;
  last_updated : jstring;
}.

(** ** Operations *)

(** Lines 339 to 347; [now] is [new Date().toISOString()]. *)
Definition index_info (cfg : LlamaCloudConfig) (now : jstring) : IndexInfo :=
  {| name := indexName cfg;
     project := projectName cfg;
     organization_id := organizationId cfg;
     pipeline_url := pipelineUrl cfg;
     status := utf16 "active";
     description := utf16 "Index with database and DBMS documents";
     last_updated := now |}.

(** The template literal of line 355. *)
Definition render_index_info (i : IndexInfo) : jstring :=
  utf16 "**LlamaCloud Index Information:**" ++ nl ++ nl
  ++ utf16 "• **Name:** " ++ name i ++ nl
  ++ utf16 "• **Project:** " ++ project i ++ nl
  ++ utf16 "• **Organization ID:** " ++ organization_id i ++ nl
  ++ utf16 "• **Status:** " ++ status i ++ nl
  ++ utf16 "• **Description:** " ++ description i ++ nl
  ++ utf16 "• **Pipeline URL:** " ++ pipeline_url i ++ nl
  ++ utf16 "• **Last checked:** " ++ last_updated i.

Definition getIndexInfo (cfg : LlamaCloudConfig) : M CallToolResult :=
  log (utf16 "ℹ️ Getting index info") ≫= fun _ : unit =>
  clock ≫= fun now : jstring =>
  let indexInfo := index_info cfg now in
  log (utf16 "✅ Index info retrieved") ≫= fun _ : unit =>
  mret {| content := [TextContent (render_index_info indexInfo)] |}.

(** ** The report as a list of lines *)

(** The bullets of the report, one per field, in the order of the
    template. *)
Definition bullets (i : IndexInfo) : list jstring :=
  [ utf16 "• **Name:** " ++ name i;
    utf16 "• **Project:** " ++ project i;
    utf16 "• **Organization ID:** " ++ organization_id i;
    utf16 "• **Status:** " ++ status i;
    utf16 "• **Description:** " ++ description i;
    utf16 "• **Pipeline URL:** " ++ pipeline_url i;
    utf16 "• **Last checked:** " ++ last_updated i ].

(** The part of the report before the time of the call. *)
Definition report_prefix (cfg : LlamaCloudConfig) : jstring :=
  utf16 "**LlamaCloud Index Information:**" ++ nl ++ nl
  ++ utf16 "• **Name:** " ++ indexName cfg ++ nl
  ++ utf16 "• **Project:** " ++ projectName cfg ++ nl
  ++ utf16 "• **Organization ID:** " ++ organizationId cfg ++ nl
  ++ utf16 "• **Status:** active" ++ nl
  ++ utf16 "• **Description:** Index with database and DBMS documents" ++ nl
  ++ utf16 "• **Pipeline URL:** " ++ pipelineUrl cfg ++ nl
  ++ utf16 "• **Last checked:** ".

(** * Lemmas *)

(** The handler, evaluated: two lines, no request, one text item. *)
Lemma getIndexInfo_run cfg w :
  getIndexInfo cfg w =
  ([Log (utf16 "ℹ️ Getting index info"); Log (utf16 "✅ Index info retrieved")],
   Ok {| content := [TextContent (render_index_info (index_info cfg (now_iso w)))] |}).
Proof. reflexivity. Qed.

(** The report is its heading, an empty line and the bullets. *)
Lemma render_index_info_bullets i :
  render_index_info i =
  utf16 "**LlamaCloud Index Information:**" ++ nl ++ nl ++ join nl (bullets i).
Proof.
  unfold render_index_info, bullets. cbn [join]. by rewrite <- !app_assoc.
Qed.

(** The report is a fixed text of the configuration followed by the time
    of the call. *)
Lemma render_index_info_prefix cfg now :
  render_index_info (index_info cfg now) = report_prefix cfg ++ now.
Proof.
  unfold render_index_info, report_prefix, index_info; cbn [name project
    organization_id pipeline_url status description last_updated].
  rewrite <- !app_assoc. by vm_compute.
Qed.

(** * Properties of [getIndexInfo] *)

(** C33 (functional).  The handler never raises and never posts: whatever
    the world, it logs its two lines and returns one text item, the report
    of the configuration at the time the clock reads. *)
Theorem getIndexInfo_total cfg w :
  outcome_of (getIndexInfo cfg) w =
    Ok {| content := [TextContent (render_index_info (index_info cfg (now_iso w)))] |}
  /\ fetches (trace_of (getIndexInfo cfg) w) = []
  /\ log_lines (trace_of (getIndexInfo cfg) w) =
     [utf16 "ℹ️ Getting index info"; utf16 "✅ Index info retrieved"].
Proof.
  unfold outcome_of, trace_of. rewrite getIndexInfo_run. split_and!; reflexivity.
Qed.


(** C35 (functional).  Nothing is cached: two calls return the same text
    exactly when the clock read the same time. *)
Theorem report_is_fresh cfg w1 w2 :
  outcome_of (getIndexInfo cfg) w1 = outcome_of (getIndexInfo cfg) w2
  <-> now_iso w1 = now_iso w2.
Proof.
  unfold outcome_of. rewrite !getIndexInfo_run. cbn [snd].
  rewrite !render_index_info_prefix. split; [|by intros ->].
  intros [= H]. by apply app_inv_head in H.
Qed.
