(* ===== verification/Catalog.v ===== *)
(** * Catalog: the tools the server advertises

    Models [getToolDefinitions] (src/src/index.ts, lines 145 to 198) and
    the result of the initialize handler (lines 87 to 99).  Both are object
    literals, and they are modelled as the values they denote: the catalog
    is a list of three objects with a [name], a [description] and an
    [inputSchema].

    The source never checks arguments against the schemas: they are advice
    to the caller.  [validates] reads a schema the way a caller that
    follows the advice does (the keywords the catalog uses: [type],
    [properties], [required], [additionalProperties], [minLength],
    [maxLength], [minimum], [maximum]), so that the lemmas can say what
    the handlers receive from such a caller. *)

From Stdlib Require Import String SpecFloat.
From S2P Require Import Prelude JsString JsNumber JsValue Runtime Config.

(** ** Reading object literals *)

(** The property [k] of an object, by its name. *)
Definition prop (k : string) (v : value) : value :=
  match v with
  | VObj props => lookup_prop (utf16 k) props
  | _ => VUndefined
  end.

(** ** The catalog *)

(** Lines 147 to 163. *)
Definition query_rag_tool : value :=
  jobj [
    ("name"%string, jstr "query_rag");
    ("description"%string,
     jstr "Query the database documents in LlamaCloud and get comprehensive answers with sources");
    ("inputSchema"%string, jobj [
       ("type"%string, jstr "object");
       ("properties"%string, jobj [
          ("question"%string, jobj [
             ("type"%string, jstr "string");
             ("description"%string,
              jstr "Question about database concepts, management systems, or related topics");
             ("minLength"%string, VNum (num_of_Z 1));
             ("maxLength"%string, VNum (num_of_Z 1000)) ]) ]);
       ("required"%string, VArr [jstr "question"]);
       ("additionalProperties"%string, VBool false) ]) ].

(** Lines 164 to 187. *)
Definition search_documents_tool : value :=
  jobj [
    ("name"%string, jstr "search_documents");
    ("description"%string,
     jstr "Search for relevant documents in the knowledge base without generating an answer");
    ("inputSchema"%string, jobj [
       ("type"%string, jstr "object");
       ("properties"%string, jobj [
          ("query"%string, jobj [
             ("type"%string, jstr "string");
             ("description"%string, jstr "Search query for semantic document retrieval");
             ("minLength"%string, VNum (num_of_Z 1));
             ("maxLength"%string, VNum (num_of_Z 500)) ]);
          ("top_k"%string, jobj [
             ("type"%string, jstr "number");
             ("description"%string, jstr "Number of documents to return (1-10)");
             ("minimum"%string, VNum (num_of_Z 1));
             ("maximum"%string, VNum (num_of_Z 10));
             ("default"%string, VNum (num_of_Z 5)) ]) ]);
       ("required"%string, VArr [jstr "query"]);
       ("additionalProperties"%string, VBool false) ]) ].

(** Lines 188 to 196. *)
Definition get_index_info_tool : value :=
  jobj [
    ("name"%string, jstr "get_index_info");
    ("description"%string,
     jstr "Get detailed information about the LlamaCloud index and its current status");
    ("inputSchema"%string, jobj [
       ("type"%string, jstr "object");
       ("properties"%string, jobj []);
       ("additionalProperties"%string, VBool false) ]) ].

Definition getToolDefinitions : list value :=
  [query_rag_tool; search_documents_tool; get_index_info_tool].

(** The name of a descriptor, when it is a string. *)
Definition tool_name (t : value) : jstring :=
  match prop "name" t with
  | VStr s => s
  | _ => []
  end.

Definition inputSchema (t : value) : value := prop "inputSchema" t.

(** ** The result of the initialize handler (lines 87 to 99) *)

Definition initialize_result : value :=
  jobj [
    ("protocolVersion"%string, jstr "2024-11-05");
    ("capabilities"%string, jobj [
       ("tools"%string, jobj [
          ("listChanged"%string, VBool true);
          ("supportsProgress"%string, VBool false) ]) ]);
    ("serverInfo"%string, jobj [
       ("name"%string, jstr "llamacloud-rag-server");
       ("version"%string, jstr "1.0.0") ]) ].

(** ** Reading a schema *)

(** The number of characters of a string, as a schema counts them: a
    surrogate pair is one character. *)
Fixpoint code_points (s : jstring) : nat :=
  match s with
  | [] => 0
  | c :: s' =>
    match s' with
    | d :: s'' =>
      if (55296 <=? c)%N && (c <=? 56319)%N && (56320 <=? d)%N && (d <=? 57343)%N
      then S (code_points s'')
      else S (code_points s')
    | [] => 1
    end
  end.

(** A bound of a schema: absent, or a number the instance is compared
    with. *)
Definition bound_ok (b : value) (test : number -> bool) : bool :=
  match b with
  | VNum x => test x
  | _ => true
  end.

(** [type: "string"] with [minLength] and [maxLength]. *)
Definition check_string (sch v : value) : bool :=
  match v with
  | VStr s =>
    let n := Z.of_nat (code_points s) in
    bound_ok (prop "minLength" sch) (fun lo => num_le_Z lo n)
    && bound_ok (prop "maxLength" sch) (fun hi => Z_le_num n hi)
  | _ => false
  end.

(** [type: "number"] with [minimum] and [maximum]. *)
Definition check_number (sch v : value) : bool :=
  match v with
  | VNum x =>
    bound_ok (prop "minimum" sch) (fun lo => SFleb lo x)
    && bound_ok (prop "maximum" sch) (fun hi => SFleb x hi)
  | _ => false
  end.

(** The schema of one property. *)
Definition check_property (sch v : value) : bool :=
  match prop "type" sch with
  | VStr t =>
    if decide (t = utf16 "string") then check_string sch v
    else if decide (t = utf16 "number") then check_number sch v
    else true
  | _ => true
  end.

(** The names a schema requires. *)
Definition required_names (schema : value) : list jstring :=
  match prop "required" schema with
  | VArr names => omap (fun n => match n with VStr s => Some s | _ => None end) names
  | _ => []
  end.

(** An object schema: every property of the instance that the schema
    declares follows its schema, the others are allowed unless
    [additionalProperties] is false, and the required ones are there. *)
Definition additional_allowed (schema : value) : bool :=
  match prop "additionalProperties" schema with
  | VBool false => false
  | _ => true
  end.

(** The properties a schema declares, with their schemas. *)
Definition declared_properties (schema : value) : list (jstring * value) :=
  match prop "properties" schema with
  | VObj declared => declared
  | _ => []
  end.

Definition validates (schema args : value) : bool :=
  match args with
  | VObj props =>
    forallb (fun kv : jstring * value =>
               if has_prop kv.1 (declared_properties schema)
               then check_property (lookup_prop kv.1 (declared_properties schema)) kv.2
               else additional_allowed schema)
            props
    && forallb (fun k => has_prop k props) (required_names schema)
  | _ => false
  end.

(** ** Example arguments *)

Definition example_question_args : value := jobj [("question"%string, jstr "what is a dbms")].

Definition example_search_args : value :=
  jobj [("query"%string, jstr "dbms"); ("top_k"%string, VNum (num_of_Z 2))].

(** * Lemmas *)

(** The initialize handler names the server the constructor created, but
    answers with capabilities of its own: the constructor declares
    [tools: {}], the handler [listChanged: true]. *)
Lemma initialize_result_server :
  prop "name" (prop "serverInfo" initialize_result) = VStr (server_name this_server_info) /\
  prop "version" (prop "serverInfo" initialize_result) = VStr (server_version this_server_info) /\
  prop "tools" (prop "capabilities" this_server_capabilities) = VObj [] /\
  prop "listChanged" (prop "tools" (prop "capabilities" initialize_result)) = VBool true.
Proof. by vm_compute. Qed.

(** ** What a valid instance is *)

Section validates.
Context (schema : value) (props : list (jstring * value)).
Context (Hvalid : validates schema (VObj props) = true).

Lemma validates_required k :
  k ∈ required_names schema -> has_prop k props = true.
Proof.
  intros Hk. apply andb_true_iff in Hvalid as [_ H]. rewrite forallb_forall in H.
  apply H. by apply list_elem_of_In.
Qed.

Lemma validates_declared k v :
  (k, v) ∈ props -> has_prop k (declared_properties schema) = true ->
  check_property (lookup_prop k (declared_properties schema)) v = true.
Proof.
  intros Hkv Hk. apply andb_true_iff in Hvalid as [H _]. rewrite forallb_forall in H.
  apply list_elem_of_In, H in Hkv. simpl in Hkv. by rewrite Hk in Hkv.
Qed.

(** When additional properties are forbidden, every property of the
    instance is declared. *)
Lemma validates_closed k v :
  additional_allowed schema = false -> (k, v) ∈ props ->
  has_prop k (declared_properties schema) = true.
Proof.
  intros Hclosed Hkv. apply andb_true_iff in Hvalid as [H _].
  rewrite forallb_forall in H. apply list_elem_of_In, H in Hkv. simpl in Hkv.
  destruct (has_prop k _); [done|congruence].
Qed.

(** A required property that the schema declares follows its schema. *)
Lemma validates_required_property k :
  k ∈ required_names schema -> has_prop k (declared_properties schema) = true ->
  check_property (lookup_prop k (declared_properties schema)) (lookup_prop k props)
  = true.
Proof.
  intros Hk Hd. apply validates_declared; [|done].
  by apply lookup_prop_elem, validates_required.
Qed.

(** An optional one is absent or follows its schema. *)
Lemma validates_optional_property k :
  has_prop k (declared_properties schema) = true ->
  has_prop k props = false \/
  check_property (lookup_prop k (declared_properties schema)) (lookup_prop k props)
  = true.
Proof.
  intros Hd. destruct (has_prop k props) eqn:Hk; [right|by left].
  apply validates_declared; [|done]. by apply lookup_prop_elem.
Qed.

End validates.

Lemma validates_object schema args :
  validates schema args = true -> exists props, args = VObj props.
Proof. destruct args; try done. eauto. Qed.

Example validates_examples :
  validates (inputSchema query_rag_tool) example_question_args = true /\
  validates (inputSchema query_rag_tool) (jobj []) = false /\
  validates (inputSchema query_rag_tool) (jobj [("question"%string, jstr "")]) = false /\
  validates (inputSchema query_rag_tool)
    (jobj [("question"%string, jstr "q"); ("extra"%string, VNull)]) = false /\
  validates (inputSchema search_documents_tool) example_search_args = true /\
  validates (inputSchema search_documents_tool) (jobj [("query"%string, jstr "dbms")]) = true /\
  validates (inputSchema search_documents_tool)
    (jobj [("query"%string, jstr "dbms"); ("top_k"%string, VNum (num_of_Z 11))]) = false /\
  validates (inputSchema search_documents_tool)
    (jobj [("query"%string, jstr "dbms"); ("top_k"%string, VNum (num_decimal 25 (-1)))]) = true /\
  validates (inputSchema get_index_info_tool) (jobj []) = true /\
  validates (inputSchema get_index_info_tool) example_question_args = false.
Proof. by vm_compute. Qed.

(** * Properties of the catalog *)


(** C30 (functional).  Arguments that follow the schema of query_rag hold
    a string under [question], of 1 to 1000 characters. *)
Theorem valid_question_arguments args :
  validates (inputSchema query_rag_tool) args = true ->
  exists q, get_opt args F_question = VStr q /\ 1 <= code_points q <= 1000.
Proof.
  intros H. destruct (validates_object _ _ H) as [props ->].
  pose proof (validates_required_property _ _ H (utf16 "question")) as Hq.
  specialize (Hq ltac:(left) eq_refl).
  simpl get_opt. change (field_name F_question) with (utf16 "question").
  destruct (lookup_prop (utf16 "question") props) as [| | | |q| |]; try done.
  exists q. split; [done|].
  apply andb_true_iff in Hq as [H1 H2].
  change (num_le_Z (num_of_Z 1) (Z.of_nat (code_points q)) = true) in H1.
  change (Z_le_num (Z.of_nat (code_points q)) (num_of_Z 1000) = true) in H2.
  rewrite num_le_Z_1 in H1. rewrite Z_le_num_1000 in H2. lia.
Qed.

Lemma valid_question_arguments_witness :
  exists q, get_opt example_question_args F_question = VStr q /\
            1 <= code_points q <= 1000.
Proof. apply valid_question_arguments. reflexivity. Defined.

(** C31 (functional).  Arguments that follow the schema of
    search_documents hold a string of 1 to 500 characters under [query],
    and under [top_k] nothing or a number between 1 and 10, which need not
    be an integer. *)
Theorem valid_search_arguments args :
  validates (inputSchema search_documents_tool) args = true ->
  (exists q, get_opt args F_query = VStr q /\ 1 <= code_points q <= 500) /\
  (get_opt args F_top_k = VUndefined \/
   exists k, get_opt args F_top_k = VNum k /\
             SFleb (num_of_Z 1) k = true /\ SFleb k (num_of_Z 10) = true).
Proof.
  intros H. destruct (validates_object _ _ H) as [props ->].
  pose proof (validates_required_property _ _ H (utf16 "query")) as Hq.
  specialize (Hq ltac:(left) eq_refl).
  pose proof (validates_optional_property _ _ H (utf16 "top_k") eq_refl) as Hk.
  simpl get_opt. change (field_name F_query) with (utf16 "query").
  change (field_name F_top_k) with (utf16 "top_k"). split.
  - destruct (lookup_prop (utf16 "query") props) as [| | | |q| |]; try done.
    exists q. split; [done|].
    apply andb_true_iff in Hq as [H1 H2].
    change (num_le_Z (num_of_Z 1) (Z.of_nat (code_points q)) = true) in H1.
    change (Z_le_num (Z.of_nat (code_points q)) (num_of_Z 500) = true) in H2.
    rewrite num_le_Z_1 in H1. rewrite Z_le_num_500 in H2. lia.
  - destruct Hk as [Hk|Hk]; [left; by apply lookup_prop_has|right].
    destruct (lookup_prop (utf16 "top_k") props) as [| | |k| | |]; try done.
    exists k. split; [done|]. by apply andb_true_iff in Hk.
Qed.

Lemma valid_search_arguments_witness :
  (exists q, get_opt example_search_args F_query = VStr q /\
             1 <= code_points q <= 500) /\
  (get_opt example_search_args F_top_k = VUndefined \/
   exists k, get_opt example_search_args F_top_k = VNum k /\
             SFleb (num_of_Z 1) k = true /\ SFleb k (num_of_Z 10) = true).
Proof. apply valid_search_arguments. reflexivity. Defined.

(** C32 (functional).  The only arguments that follow the schema of
    get_index_info are the empty object. *)
Theorem valid_index_info_arguments args :
  validates (inputSchema get_index_info_tool) args = true <-> args = VObj [].
Proof.
  split; [|by intros ->].
  intros H. destruct (validates_object _ _ H) as [props ->].
  destruct props as [|[k v] props]; [done|].
  by pose proof (validates_closed _ _ H k v eq_refl ltac:(left)).
Qed.
