(* ===== verification/Dispatcher.v ===== *)
(** * Dispatcher: the three request handlers

    Models [setupHandlers] (src/src/index.ts, lines 82 to 143): the handlers
    the server registers for the initialize, list-tools and call-tool
    requests.

    - [handle_initialize] (lines 84 to 100) and [handle_list_tools] (lines
      103 to 109) log a line and return a fixed value.
    - [handle_call_tool] (lines 112 to 142) logs the name, refuses a call
      without arguments, runs the handler the [switch] selects inside
      [try], and in [catch] logs the exception and raises it again.
    - [route] is the [switch] alone.

    The name of the tool is a string and the arguments are an object or
    missing: the schema of the request, which the library checks before the
    handler runs, guarantees that much.  Nothing checks the arguments
    against the schema of the tool. *)

From Stdlib Require Import String.
From S2P Require Import QueryRag Search IndexInfo Catalog.
From S2P Require Import Prelude JsString JsNumber JsValue Runtime Config Upstream.

(** ** Data *)

(** A request the server handles. *)
Inductive mcp_request : Type :=
| InitializeRequest
| ListToolsRequest
| CallToolRequest (name : jstring) (arguments : value).

(** What a handler returns. *)
Inductive mcp_result : Type :=
| InitializeResult (result : value)
| ListToolsResult (tools : list value)
| ToolResult (result : CallToolResult).

(** ** Operations *)

Definition handle_initialize : M value :=
  log (utf16 "🚀 LlamaCloud RAG MCP Server initialized") ≫= fun _ : unit =>
  mret initialize_result.

Definition handle_list_tools : M (list value) :=
  log (utf16 "📋 Listing available tools") ≫= fun _ : unit =>
  mret getToolDefinitions.

(** The [switch] of lines 121 to 137. *)
Definition route (cfg : LlamaCloudConfig) (name : jstring) (args : value)
  : M CallToolResult :=
  if decide (name = utf16 "query_rag") then
    let question := get_opt args F_question in
    queryRAG cfg question
  else if decide (name = utf16 "search_documents") then
    let query := get_opt args F_query in
    let top_k := get_opt args F_top_k in
    searchDocuments cfg query top_k
  else if decide (name = utf16 "get_index_info") then
    getIndexInfo cfg
  else throw (Error (utf16 "Unknown tool: " ++ name)).

Definition handle_call_tool (cfg : LlamaCloudConfig) (name : jstring) (args : value)
  : M CallToolResult :=
  log (utf16 "🔧 Calling tool: " ++ name) ≫= fun _ : unit =>
  if negb (truthy args) then
    throw (Error (utf16 "No arguments provided for tool " ++ name))
  else
    try_catch (route cfg name args)
      (fun error =>
         log_error (utf16 "❌ Error in tool " ++ name ++ utf16 ":") error
           ≫= fun _ : unit =>
         throw error).

(** The handler of a request, as [setupHandlers] registers them. *)
Definition handle (cfg : LlamaCloudConfig) (rq : mcp_request) : M mcp_result :=
  match rq with
  | InitializeRequest => InitializeResult <$> handle_initialize
  | ListToolsRequest => ListToolsResult <$> handle_list_tools
  | CallToolRequest name args => ToolResult <$> handle_call_tool cfg name args
  end.

(** ** The tools of the [switch] *)

(** A name that is a case of the [switch]. *)
Definition known_tool (name : jstring) : bool :=
  bool_decide (name = utf16 "query_rag")
  || bool_decide (name = utf16 "search_documents")
  || bool_decide (name = utf16 "get_index_info").

(** * Lemmas *)

(** ** The fixed handlers *)

Lemma handle_initialize_run w :
  handle_initialize w =
  ([Log (utf16 "🚀 LlamaCloud RAG MCP Server initialized")], Ok initialize_result).
Proof. done. Qed.

Lemma handle_list_tools_run w :
  handle_list_tools w =
  ([Log (utf16 "📋 Listing available tools")], Ok getToolDefinitions).
Proof. done. Qed.

(** ** The [switch] *)

Lemma known_tool_catalog name :
  known_tool name = true <-> name ∈ tool_name <$> getToolDefinitions.
Proof.
  unfold known_tool. rewrite !orb_true_iff, !bool_decide_eq_true.
  change (tool_name <$> getToolDefinitions)
    with [utf16 "query_rag"; utf16 "search_documents"; utf16 "get_index_info"].
  rewrite !elem_of_cons, elem_of_nil. tauto.
Qed.

Lemma route_unknown cfg name args :
  known_tool name = false ->
  route cfg name args = throw (Error (utf16 "Unknown tool: " ++ name)).
Proof.
  unfold known_tool. rewrite !orb_false_iff, !bool_decide_eq_false.
  intros [[H1 H2] H3]. unfold route. by rewrite !decide_False.
Qed.

(** ** The call-tool handler *)

Section handle_call_tool.
Context (cfg : LlamaCloudConfig) (name : jstring) (args : value) (w : world).

Lemma handle_call_tool_missing :
  truthy args = false ->
  handle_call_tool cfg name args w =
  ([Log (utf16 "🔧 Calling tool: " ++ name)],
   Throw (Error (utf16 "No arguments provided for tool " ++ name))).
Proof.
  intros H. unfold handle_call_tool.
  rewrite M_run, trace_bind, outcome_bind. simpl. by rewrite H.
Qed.

(** With arguments, the outcome is the outcome of the [switch]: [catch]
    raises again what it caught. *)
Lemma handle_call_tool_outcome :
  truthy args = true ->
  outcome_of (handle_call_tool cfg name args) w = outcome_of (route cfg name args) w.
Proof.
  intros H. unfold handle_call_tool. rewrite outcome_bind, outcome_log, bind_Ok_l, H.
  simpl. by apply outcome_try_rethrow.
Qed.

(** The trace is the line with the name, the trace of the [switch], and
    the line of [catch] when the [switch] raised. *)
Lemma handle_call_tool_trace :
  truthy args = true ->
  trace_of (handle_call_tool cfg name args) w =
  Log (utf16 "🔧 Calling tool: " ++ name) :: trace_of (route cfg name args) w ++
  match outcome_of (route cfg name args) w with
  | Ok _ | Throw (ProcessExit _) => []
  | Throw e => [LogError (utf16 "❌ Error in tool " ++ name ++ utf16 ":") e]
  end.
Proof.
  intros H. unfold handle_call_tool. rewrite trace_bind, trace_log, outcome_log, H.
  simpl. rewrite trace_try_catch. do 2 f_equal.
Qed.

Lemma route_fetches_bound : length (fetches (trace_of (route cfg name args) w)) <= 1.
Proof.
  unfold route. repeat case_decide;
    [apply queryRAG_fetches_bound|apply searchDocuments_fetches_bound|simpl; lia..].
Qed.

Lemma route_fetches_shape :
  Forall (is_retrieval cfg) (fetches (trace_of (route cfg name args) w)).
Proof.
  unfold route. repeat case_decide.
  - rewrite queryRAG_fetches. case_if; repeat constructor. by eexists.
  - rewrite searchDocuments_fetches. case_if; repeat constructor. by eexists.
  - constructor.
  - constructor.
Qed.

End handle_call_tool.

(** ** What handling a request posts *)

Section handle.
Context (cfg : LlamaCloudConfig) (rq : mcp_request) (w : world).

Lemma handle_fetches :
  fetches (trace_of (handle cfg rq) w) =
  match rq with
  | CallToolRequest name args =>
    if truthy args then fetches (trace_of (route cfg name args) w) else []
  | _ => []
  end.
Proof.
  destruct rq as [| |name args]; cbn [handle]; rewrite trace_fmap; [done..|].
  destruct (truthy args) eqn:Ha.
  - rewrite handle_call_tool_trace by done. rewrite fetches_cons_log, fetches_app.
    destruct (outcome_of (route _ _ _) w) as [|[]]; simpl; by rewrite app_nil_r.
  - unfold trace_of. by rewrite handle_call_tool_missing.
Qed.

(** Every request that is posted is a request of the client. *)
Lemma handle_fetches_shape :
  Forall (is_retrieval cfg) (fetches (trace_of (handle cfg rq) w)).
Proof.
  rewrite handle_fetches. destruct rq as [| |name args]; try constructor.
  destruct (truthy args); [apply route_fetches_shape|constructor].
Qed.

(** Handling one request posts at most one. *)
Lemma handle_fetches_bound : length (fetches (trace_of (handle cfg rq) w)) <= 1.
Proof.
  rewrite handle_fetches. destruct rq as [| |name args]; simpl; try lia.
  destruct (truthy args); [apply route_fetches_bound|simpl; lia].
Qed.

End handle.

(** * Properties of the dispatcher *)

(** C8 (error).  A call without arguments is refused whatever the name of
    the tool, known or not: the handler logs the name and raises the error
    before [try], so no handler runs, nothing is posted and [catch] logs
    nothing. *)
Theorem missing_arguments cfg name args w :
  truthy args = false ->
  handle_call_tool cfg name args w =
  ([Log (utf16 "🔧 Calling tool: " ++ name)],
   Throw (Error (utf16 "No arguments provided for tool " ++ name))).
Proof. apply handle_call_tool_missing. Qed.

Lemma missing_arguments_witness :
  handle_call_tool example_config (utf16 "query_rag") VUndefined unreachable =
  ([Log (utf16 "🔧 Calling tool: query_rag")],
   Throw (Error (utf16 "No arguments provided for tool query_rag"))).
Proof. apply (missing_arguments example_config (utf16 "query_rag")). reflexivity. Defined.

(** C7 (error).  A name that is no case of the [switch] raises the error
    that names it; [catch] logs it once and raises it again; nothing is
    posted. *)
Theorem unknown_tool cfg name args w :
  truthy args = true -> known_tool name = false ->
  handle_call_tool cfg name args w =
  ([Log (utf16 "🔧 Calling tool: " ++ name);
    LogError (utf16 "❌ Error in tool " ++ name ++ utf16 ":")
      (Error (utf16 "Unknown tool: " ++ name))],
   Throw (Error (utf16 "Unknown tool: " ++ name))).
Proof.
  intros Ha Hn.
  by rewrite M_run, handle_call_tool_trace, handle_call_tool_outcome, route_unknown.
Qed.

Lemma unknown_tool_witness :
  handle_call_tool example_config (utf16 "Query_RAG") (jobj []) unreachable =
  ([Log (utf16 "🔧 Calling tool: Query_RAG");
    LogError (utf16 "❌ Error in tool Query_RAG:") (Error (utf16 "Unknown tool: Query_RAG"))],
   Throw (Error (utf16 "Unknown tool: Query_RAG"))).
Proof.
  apply (unknown_tool example_config (utf16 "Query_RAG") (jobj [])); reflexivity.
Defined.

(** C9 (functional).  With arguments, each of the three names runs its
    handler on the fields the handler declares, and the call has the
    outcome of the handler. *)
Theorem routes_to_handler cfg args w :
  truthy args = true ->
  outcome_of (handle_call_tool cfg (utf16 "query_rag") args) w
    = outcome_of (queryRAG cfg (get_opt args F_question)) w /\
  outcome_of (handle_call_tool cfg (utf16 "search_documents") args) w
    = outcome_of (searchDocuments cfg (get_opt args F_query) (get_opt args F_top_k)) w /\
  outcome_of (handle_call_tool cfg (utf16 "get_index_info") args) w
    = outcome_of (getIndexInfo cfg) w.
Proof. intros H. by rewrite !handle_call_tool_outcome. Qed.

Lemma routes_to_handler_witness :
  outcome_of (handle_call_tool example_config (utf16 "query_rag") example_question_args)
    (answering (Ok (jobj [])))
    = outcome_of (queryRAG example_config (get_opt example_question_args F_question))
        (answering (Ok (jobj []))) /\
  outcome_of (handle_call_tool example_config (utf16 "search_documents")
                example_question_args) (answering (Ok (jobj [])))
    = outcome_of (searchDocuments example_config
                    (get_opt example_question_args F_query)
                    (get_opt example_question_args F_top_k)) (answering (Ok (jobj []))) /\
  outcome_of (handle_call_tool example_config (utf16 "get_index_info")
                example_question_args) (answering (Ok (jobj [])))
    = outcome_of (getIndexInfo example_config) (answering (Ok (jobj []))).
Proof. apply routes_to_handler. reflexivity. Defined.

(** C10 (error).  An exception of a handler is logged once, with the name
    of the tool, after everything the handler did, and reaches the caller
    as it was raised. *)
Theorem errors_logged_and_rethrown cfg name args w e :
  truthy args = true ->
  outcome_of (route cfg name args) w = Throw e ->
  (forall c, e <> ProcessExit c) ->
  outcome_of (handle_call_tool cfg name args) w = Throw e /\
  trace_of (handle_call_tool cfg name args) w =
    Log (utf16 "🔧 Calling tool: " ++ name) :: trace_of (route cfg name args) w
    ++ [LogError (utf16 "❌ Error in tool " ++ name ++ utf16 ":") e].
Proof.
  intros Ha He Hne. rewrite handle_call_tool_outcome, handle_call_tool_trace, He by done.
  split; [done|]. destruct e; try done. by destruct (Hne code).
Qed.

Lemma errors_logged_and_rethrown_witness :
  outcome_of (handle_call_tool example_config (utf16 "query_rag") example_question_args)
    (failing 503 (utf16 "Service Unavailable"))
  = Throw (Error (utf16 "LlamaCloud API error: 503 Service Unavailable")) /\
  trace_of (handle_call_tool example_config (utf16 "query_rag") example_question_args)
    (failing 503 (utf16 "Service Unavailable"))
  = Log (utf16 "🔧 Calling tool: query_rag")
    :: trace_of (route example_config (utf16 "query_rag") example_question_args)
         (failing 503 (utf16 "Service Unavailable"))
    ++ [LogError (utf16 "❌ Error in tool query_rag:")
          (Error (utf16 "LlamaCloud API error: 503 Service Unavailable"))].
Proof.
  apply (errors_logged_and_rethrown example_config (utf16 "query_rag")
           example_question_args (failing 503 (utf16 "Service Unavailable")));
    [reflexivity|by vm_compute|done].
Defined.

