(* ===== verification/Server.v ===== *)
(** * Server: start-up and the life of the process

    Models [run] (src/src/index.ts, lines 361 to 382) and the entry point
    (lines 385 to 389).

    - [self_check] is the inner [try] of [run]: one retrieval for the text
      test connection, whose failure is a warning.
    - [run] logs, checks, logs and connects the transport; whatever it
      catches ends the process with status 1.
    - [main] is the entry point: the constructor, then [run].

    After [main] the process serves requests one at a time.  [server] is
    its state, [step] handles one request, and [reachable] are the states
    a process started in a given environment can be in.  Each request
    meets a world of its own: what the network answers at that time. *)

From Stdlib Require Import String.
From S2P Require Import QueryRag Search IndexInfo Catalog.
From S2P Require Import Prelude JsString JsNumber JsValue Runtime Config Upstream.
From S2P Require Import Dispatcher.

(** ** Start-up *)

(** Lines 366 to 371. *)
Definition self_check (cfg : LlamaCloudConfig) : M unit :=
  try_catch
    (queryLlamaCloud cfg (jstr "test connection") ≫= fun _ : value =>
     log (utf16 "✅ LlamaCloud connection verified"))
    (fun error =>
       describe error ≫= fun text : jstring =>
       log (utf16 "⚠️ Warning: Could not verify LlamaCloud connection: " ++ text)).

Definition run (cfg : LlamaCloudConfig) : M unit :=
  try_catch
    (log (utf16 "🚀 Starting LlamaCloud RAG MCP Server...") ≫= fun _ : unit =>
     self_check cfg ≫= fun _ : unit =>
     log (utf16 "✅ Server ready and listening for requests") ≫= fun _ : unit =>
     connect)
    (fun error =>
       describe error ≫= fun text : jstring =>
       log (utf16 "❌ Failed to start server: " ++ text) ≫= fun _ : unit =>
       throw (ProcessExit 1)).

(** The entry point, when the file is the script that was started:
    [new LlamaCloudMCPServer()], then [server.run().catch(console.error)].
    The value returned is the configuration of the instance. *)
Definition main (env : environment) : M LlamaCloudConfig :=
  constructor env ≫= fun server : LlamaCloudConfig =>
  try_catch (run server) (fun error => log_error [] error) ≫= fun _ : unit =>
  mret server.

(** ** The process *)

Inductive phase : Type :=
| Serving (cfg : LlamaCloudConfig)
| Stopped (code : N).

(** The state of the process: its phase, what it has done so far, and the
    number of requests it has handled. *)
Record server : Type := {
  phase_of : phase;
  history : list event;
  handled : nat;
}.

(** The state after [main]. *)
Definition boot (env : environment) (w : world) : server :=
  {| phase_of := match outcome_of (main env) w with
                 | Ok cfg => Serving cfg
                 | Throw (ProcessExit code) => Stopped code
                 | Throw _ => Stopped 0
                 end;
     history := trace_of (main env) w;
     handled := 0 |}.

(** Handling one request: the outcome goes to the caller, the process
    goes on serving with the same configuration. *)
Inductive step : server -> mcp_request * world -> server -> Prop :=
| step_handle cfg h n rq w :
    well_behaved w ->
    step {| phase_of := Serving cfg; history := h; handled := n |} (rq, w)
         {| phase_of := Serving cfg; history := h ++ trace_of (handle cfg rq) w;
            handled := S n |}.

Inductive reachable (env : environment) : server -> Prop :=
| reachable_boot w : well_behaved w -> reachable env (boot env w)
| reachable_step s l s' : reachable env s -> step s l s' -> reachable env s'.

(** The same, as a function: the state after a list of requests. *)
Definition serve_one (s : server) (l : mcp_request * world) : server :=
  match phase_of s with
  | Serving cfg =>
    {| phase_of := Serving cfg;
       history := history s ++ trace_of (handle cfg l.1) l.2;
       handled := S (handled s) |}
  | Stopped _ => s
  end.

Definition serve (s : server) (ls : list (mcp_request * world)) : server :=
  foldl serve_one s ls.

(** ** Examples *)

(** An environment without a credential. *)
Definition example_env_no_key : environment :=
  {| LLAMA_CLOUD_PIPELINE_ID := Some (utf16 "p-1");
     LLAMA_CLOUD_PIPELINE_URL := None;
     LLAMA_CLOUD_API_KEY := Some (utf16 "   ");
     LLAMA_CLOUD_ORGANIZATION_ID := Some (utf16 "org-1") |}.

(** A process started while the pipeline was unreachable, after one call
    of query_rag that the pipeline answered. *)
Definition example_server : server :=
  serve (boot example_env unreachable)
    [(CallToolRequest (utf16 "query_rag") example_question_args,
      answering (Ok example_new_format))].

(** * Lemmas *)

(** ** Start-up *)

Section run.
Context (cfg : LlamaCloudConfig) (w : world) (Hw : well_behaved w).

(** The self-check never fails. *)
Lemma self_check_outcome : outcome_of (self_check cfg) w = Ok tt.
Proof.
  unfold self_check. rewrite outcome_try_catch, outcome_bind.
  pose proof (queryLlamaCloud_no_exit cfg (jstr "test connection") w Hw) as Hne.
  destruct (outcome_of (queryLlamaCloud _ _) w) as [|[]]; try done.
  by destruct (Hne code).
Qed.

Lemma self_check_trace :
  trace_of (self_check cfg) w =
  Fetch (retrieve_request cfg (jstr "test connection")) ::
  match outcome_of (queryLlamaCloud cfg (jstr "test connection")) w with
  | Ok _ => [Log (utf16 "✅ LlamaCloud connection verified")]
  | Throw e =>
    [Log (utf16 "⚠️ Warning: Could not verify LlamaCloud connection: "
          ++ exn_to_string w e)]
  end.
Proof.
  unfold self_check.
  rewrite trace_try_catch, trace_bind, outcome_bind, queryLlamaCloud_trace.
  pose proof (queryLlamaCloud_no_exit cfg (jstr "test connection") w Hw) as Hne.
  destruct (outcome_of (queryLlamaCloud _ _) w) as [|[]]; try done.
  by destruct (Hne code).
Qed.

(** [run] returns when the transport connects and exits with status 1
    otherwise. *)
Lemma run_outcome :
  outcome_of (run cfg) w =
  match transport w with
  | Ok _ => Ok tt
  | Throw _ => Throw (ProcessExit 1)
  end.
Proof.
  unfold run. rewrite outcome_try_catch, outcome_bind, outcome_log, bind_Ok_l.
  rewrite outcome_bind, self_check_outcome, bind_Ok_l, outcome_bind, outcome_log,
    bind_Ok_l.
  rewrite outcome_connect. pose proof (transport_no_exit _ Hw) as Hne.
  destruct (transport w) as [[]|[]]; try done. by destruct (Hne code).
Qed.

(** What [run] does before it connects. *)
Lemma run_body_trace :
  trace_of (log (utf16 "🚀 Starting LlamaCloud RAG MCP Server...") ≫= fun _ : unit =>
            self_check cfg ≫= fun _ : unit =>
            log (utf16 "✅ Server ready and listening for requests") ≫= fun _ : unit =>
            connect) w =
  Log (utf16 "🚀 Starting LlamaCloud RAG MCP Server...") :: trace_of (self_check cfg) w
  ++ [Log (utf16 "✅ Server ready and listening for requests"); Connect].
Proof.
  rewrite trace_bind, trace_log, outcome_log.
  rewrite trace_bind, self_check_outcome.
  by rewrite trace_bind, trace_log, outcome_log, trace_connect.
Qed.

Lemma run_trace :
  trace_of (run cfg) w =
  Log (utf16 "🚀 Starting LlamaCloud RAG MCP Server...") :: trace_of (self_check cfg) w
  ++ [Log (utf16 "✅ Server ready and listening for requests"); Connect]
  ++ match transport w with
     | Ok _ => []
     | Throw e => [Log (utf16 "❌ Failed to start server: " ++ exn_to_string w e)]
     end.
Proof.
  unfold run. rewrite trace_try_catch, run_body_trace.
  rewrite outcome_bind, outcome_log, bind_Ok_l.
  rewrite outcome_bind, self_check_outcome, bind_Ok_l.
  rewrite outcome_bind, outcome_log, bind_Ok_l, outcome_connect.
  pose proof (transport_no_exit _ Hw) as Hne. simpl. f_equal.
  rewrite <- app_assoc. f_equal.
  destruct (transport w) as [[]|[]]; try done. by destruct (Hne code).
Qed.

Lemma run_fetches :
  fetches (trace_of (run cfg) w) = [retrieve_request cfg (jstr "test connection")].
Proof.
  rewrite run_trace, self_check_trace. cbn [fetches omap].
  rewrite fetches_cons_log. simpl.
  destruct (outcome_of (queryLlamaCloud _ _) w), (transport w) as [[]|]; done.
Qed.

End run.

(** ** The entry point *)

Section main.
Context (env : environment) (w : world) (Hw : well_behaved w).

Lemma main_outcome :
  outcome_of (main env) w =
  if config_complete (load_config env) then
    match transport w with
    | Ok _ => Ok (load_config env)
    | Throw _ => Throw (ProcessExit 1)
    end
  else Throw (ProcessExit 1).
Proof.
  unfold main. rewrite outcome_bind, constructor_outcome.
  destruct (config_complete _); [|done]. rewrite bind_Ok_l, outcome_bind.
  rewrite outcome_try_catch, run_outcome by done.
  by destruct (transport w) as [[]|].
Qed.

Lemma main_fetches :
  fetches (trace_of (main env) w) =
  if config_complete (load_config env)
  then [retrieve_request (load_config env) (jstr "test connection")] else [].
Proof.
  unfold main. rewrite trace_bind, constructor_trace, constructor_outcome.
  destruct (config_complete _) eqn:E.
  - rewrite app_nil_l, trace_bind, trace_try_catch, outcome_try_catch, run_outcome
      by done.
    rewrite !fetches_app, run_fetches by done.
    by destruct (transport w) as [[]|].
  - rewrite app_nil_r. by induction missing_env_report.
Qed.

End main.

(** ** The process *)

Lemma boot_phase env w :
  well_behaved w ->
  phase_of (boot env w) =
  if config_complete (load_config env) && is_ok (transport w)
  then Serving (load_config env) else Stopped 1.
Proof.
  intros Hw. unfold boot; cbn [phase_of]. rewrite main_outcome by done.
  destruct (config_complete _); [|done]. by destruct (transport w).
Qed.

(** A process that serves has the configuration of its environment, and
    that configuration is complete. *)
Lemma reachable_config env s cfg :
  reachable env s -> phase_of s = Serving cfg ->
  cfg = load_config env /\ config_complete cfg = true.
Proof.
  induction 1 as [w Hw|s l s' _ IH Hstep].
  - rewrite boot_phase by done. destruct (config_complete _) eqn:E; [|done].
    destruct (is_ok _); [|done]. by intros [= <-].
  - destruct Hstep. simpl in *. auto.
Qed.

(** Everything the process has posted is a request of the client. *)
Lemma reachable_fetches env s :
  reachable env s -> Forall (is_retrieval (load_config env)) (fetches (history s)).
Proof.
  induction 1 as [w Hw|s l s' Hs IH Hstep].
  - unfold boot; cbn [history]. rewrite main_fetches by done.
    case_if; repeat constructor. by eexists.
  - destruct Hstep as [cfg h n rq w Hw]. simpl in *.
    destruct (reachable_config _ _ cfg Hs eq_refl) as [-> _].
    rewrite fetches_app. apply Forall_app. split; [done|apply handle_fetches_shape].
Qed.

(** It has posted at most one request for the start and one per request
    it handled. *)
Lemma reachable_budget env s :
  reachable env s -> length (fetches (history s)) <= 1 + handled s.
Proof.
  induction 1 as [w Hw|s l s' Hs IH Hstep].
  - unfold boot; cbn [history handled]. rewrite main_fetches by done.
    case_if; simpl; lia.
  - destruct Hstep as [cfg h n rq w Hw]. simpl in *.
    rewrite fetches_app, length_app. pose proof (handle_fetches_bound cfg rq w). lia.
Qed.

(** Only a process that serves takes a step, and it serves afterwards:
    a call that fails does not stop it. *)
Lemma step_serving s l s' :
  step s l s' -> exists cfg, phase_of s = Serving cfg /\ phase_of s' = Serving cfg.
Proof. destruct 1. eauto. Qed.

(** [serve_one] is the step of a process that serves. *)
Lemma step_serve_one s l s' : step s l s' -> s' = serve_one s l.
Proof. by destruct 1. Qed.

Lemma serve_one_step s l cfg :
  phase_of s = Serving cfg -> well_behaved l.2 -> step s l (serve_one s l).
Proof.
  destruct s as [p h n], l as [rq w]. simpl. intros -> Hw.
  unfold serve_one; simpl. by constructor.
Qed.

Lemma serve_one_reachable env s l :
  reachable env s -> well_behaved l.2 -> reachable env (serve_one s l).
Proof.
  intros Hs Hl. destruct (phase_of s) eqn:E.
  - eapply reachable_step; [done|]. by eapply serve_one_step.
  - unfold serve_one. by rewrite E.
Qed.

(** What [serve] computes is reachable, *)
Lemma serve_reachable env s ls :
  reachable env s -> Forall (fun l => well_behaved l.2) ls ->
  reachable env (serve s ls).
Proof.
  intros Hs Hls. revert s Hs.
  induction Hls as [|l ls Hl _ IH]; intros s Hs; simpl; [done|].
  by apply IH, serve_one_reachable.
Qed.

(** and every reachable state is computed by [serve]. *)
Lemma reachable_serve env s :
  reachable env s ->
  exists w ls, well_behaved w /\ Forall (fun l => well_behaved l.2) ls /\
               s = serve (boot env w) ls.
Proof.
  induction 1 as [w Hw|s l s' _ (w & ls & Hw & Hls & ->) Hstep].
  - by exists w, [].
  - exists w, (ls ++ [l]). split; [done|]. split.
    + apply Forall_app. split; [done|]. constructor; [|done]. by destruct Hstep.
    + unfold serve. rewrite foldl_app. simpl. by apply step_serve_one.
Qed.

(** The example process is reachable. *)
Lemma example_server_reachable : reachable example_env example_server.
Proof.
  apply serve_reachable; [apply reachable_boot, unreachable_well_behaved|].
  repeat constructor; by apply answering_well_behaved.
Qed.

(** * Properties of the start-up *)

(** C36 (safety).  Without a credential, an organization or an endpoint
    the process refuses to start: it writes the five lines of the report,
    posts nothing, connects nothing and exits with status 1. *)
Theorem refuses_to_start env w :
  config_complete (load_config env) = false ->
  main env w = (Log <$> missing_env_report, Throw (ProcessExit 1)).
Proof.
  intros H. rewrite M_run. unfold main.
  rewrite trace_bind, outcome_bind, constructor_trace, constructor_outcome, H.
  by rewrite app_nil_r.
Qed.

Lemma refuses_to_start_witness :
  main example_env_no_key unreachable
  = (Log <$> missing_env_report, Throw (ProcessExit 1)).
Proof. apply refuses_to_start. reflexivity. Defined.

(** C37 (liveness).  A self-check that fails does not prevent the start:
    the failure is logged as a warning, the transport is connected, and
    [run] returns. *)
Theorem degraded_start cfg w e :
  well_behaved w -> transport w = Ok tt ->
  outcome_of (queryLlamaCloud cfg (jstr "test connection")) w = Throw e ->
  run cfg w =
  ([Log (utf16 "🚀 Starting LlamaCloud RAG MCP Server...");
    Fetch (retrieve_request cfg (jstr "test connection"));
    Log (utf16 "⚠️ Warning: Could not verify LlamaCloud connection: "
         ++ exn_to_string w e);
    Log (utf16 "✅ Server ready and listening for requests");
    Connect],
   Ok tt).
Proof.
  intros Hw Ht He.
  by rewrite M_run, run_trace, run_outcome, self_check_trace, He, Ht.
Qed.

Lemma degraded_start_witness :
  run example_config unreachable =
  ([Log (utf16 "🚀 Starting LlamaCloud RAG MCP Server...");
    Fetch (retrieve_request example_config (jstr "test connection"));
    Log (utf16 "⚠️ Warning: Could not verify LlamaCloud connection: FetchError: network unreachable");
    Log (utf16 "✅ Server ready and listening for requests");
    Connect],
   Ok tt).
Proof.
  rewrite (degraded_start example_config unreachable
             (Foreign (utf16 "FetchError") (utf16 "network unreachable")));
    [by vm_compute|apply unreachable_well_behaved|reflexivity|by vm_compute].
Defined.

(** * Properties of the process *)

(** C38 (invariant).  A process that serves holds the configuration that
    was read from its environment at the start, with a credential, an
    organization and an endpoint that are not empty; no request changes
    it. *)
Theorem serving_config_invariant env s cfg :
  reachable env s -> phase_of s = Serving cfg ->
  cfg = load_config env /\
  apiKey cfg <> [] /\ organizationId cfg <> [] /\ pipelineUrl cfg <> [].
Proof.
  intros Hs Hp. destruct (reachable_config _ _ _ Hs Hp) as [-> Hc].
  split; [done|]. by apply config_complete_spec.
Qed.

Lemma serving_config_invariant_witness :
  example_config = load_config example_env /\
  apiKey example_config <> [] /\ organizationId example_config <> [] /\
  pipelineUrl example_config <> [].
Proof.
  apply (serving_config_invariant example_env example_server example_config);
    [apply example_server_reachable|by vm_compute].
Defined.

(** C39 (safety).  Every request the process has ever posted went to the
    endpoint of its configuration, as a POST with the credential as bearer
    token and the count 5 in its body. *)
Theorem requests_go_to_endpoint env s req :
  reachable env s -> req ∈ fetches (history s) ->
  req_url req = pipelineUrl (load_config env) /\
  req_method req = utf16 "POST" /\
  req_headers req =
    [ (utf16 "Authorization", utf16 "Bearer " ++ apiKey (load_config env));
      (utf16 "Content-Type", utf16 "application/json") ] /\
  lookup_prop (utf16 "similarity_top_k")
    match req_body req with VObj props => props | _ => [] end
  = VNum (num_of_Z 5).
Proof.
  intros Hs Hreq. apply is_retrieval_spec.
  pose proof (reachable_fetches _ _ Hs) as H. rewrite Forall_forall in H. auto.
Qed.

Lemma requests_go_to_endpoint_witness :
  req_url (retrieve_request example_config (jstr "what is a dbms"))
    = pipelineUrl (load_config example_env) /\
  req_method (retrieve_request example_config (jstr "what is a dbms")) = utf16 "POST" /\
  req_headers (retrieve_request example_config (jstr "what is a dbms")) =
    [ (utf16 "Authorization", utf16 "Bearer " ++ apiKey (load_config example_env));
      (utf16 "Content-Type", utf16 "application/json") ] /\
  lookup_prop (utf16 "similarity_top_k")
    match req_body (retrieve_request example_config (jstr "what is a dbms")) with
    | VObj props => props
    | _ => []
    end
  = VNum (num_of_Z 5).
Proof.
  apply (requests_go_to_endpoint example_env example_server);
    [apply example_server_reachable|].
  assert (fetches (history example_server) =
          [retrieve_request example_config (jstr "test connection");
           retrieve_request example_config (jstr "what is a dbms")]) as ->
    by (by vm_compute).
  apply list_elem_of_further, list_elem_of_here.
Defined.

(** C40 (bounds).  The process has posted at most one request for its
    start and one for each request it handled: nothing is retried. *)
Theorem request_budget env s :
  reachable env s -> length (fetches (history s)) <= 1 + handled s.
Proof. apply reachable_budget. Qed.

Lemma request_budget_witness :
  length (fetches (history example_server)) <= 1 + handled example_server.
Proof. apply (request_budget example_env), example_server_reachable. Defined.
